(** * prog_models: the model contract and its simulation driver

    A shallow embedding of [prog_models/prognostics_model.py]: the
    [PrognosticsModel] base class ([__init__], [threshold_met],
    [simulate_to], [simulate_to_threshold]) and the [generate_model]
    factory; and, each in a module of its own, the loading function of
    [examples/sim_valve.py], [update_Cq] of [models/powertrain.py] and
    the cached download of [datasets/nasa_cmapss2.py].

    Conventions of the embedding.
    - Python numbers are read through the interface [PyNumber]: a carrier
      with the operations the driver uses ([+], [<], [<=], [==]).  Two
      instances are given: [Q] (exact arithmetic: Python's unbounded [int],
      and [float] read without rounding) and [float] (IEEE 754 binary64,
      which is Python's [float]).
    - A Python [dict] with string keys is a [gmap string _].
    - The class-level dictionary [PrognosticsModel.parameters], which every
      instance reaches through [self.parameters], is an explicit store that
      the constructors thread.
    - Calls of the user-supplied equations are recorded in a call log, so
      that "before any equation is invoked" can be stated.
    - The [while] loop is run with fuel; [OutOfFuel] is never a result of
      the program, and the theorems about runs show that enough fuel
      exists. *)

From Stdlib Require Import ZArith QArith Qround Lia Lqa Floats.
From stdpp Require Import gmap strings list fin_maps.

Set Warnings "-inexact-float,-register-all".

(** ** Numbers *)

Class PyNumber (R : Type) := {
  num_of_Z : Z -> R;
  num_add : R -> R -> R;
  num_ltb : R -> R -> bool;
  num_leb : R -> R -> bool;
  num_eqb : R -> R -> bool;
}.

(** Exact arithmetic. *)
#[global] Instance Q_number : PyNumber Q := {|
  num_of_Z := inject_Z;
  num_add := Qplus;
  num_ltb := fun a b => negb (Qle_bool b a);
  num_leb := Qle_bool;
  num_eqb := Qeq_bool;
|}.

(** Conversion of an integer to the nearest binary64 value (ties to even),
    as Python's [float(int)] does. *)
Definition float_of_Z (z : Z) : float :=
  SF2Prim (binary_normalize prec emax z 0%Z false).

(** The rational value of a finite binary64 number. *)
Definition float_to_Q (f : float) : option Q :=
  match Prim2SF f with
  | S754_zero _ => Some 0%Q
  | S754_finite s m e =>
      let v := (inject_Z (Z.pos m) * (2 ^ e))%Q in
      Some (if s then Qopp v else v)
  | _ => None
  end.

(** IEEE 754 binary64 arithmetic. *)
#[global] Instance float_number : PyNumber float := {|
  num_of_Z := float_of_Z;
  num_add := PrimFloat.add;
  num_ltb := PrimFloat.ltb;
  num_leb := PrimFloat.leb;
  num_eqb := PrimFloat.eqb;
|}.

(** ** Python values and exceptions *)

(** The values that reach the type tests of the code
    ([isinstance(_, Number)], [type(_) is int], [type(_) is float]). *)
Inductive pyval (R : Type) : Type :=
| PyNone
| PyBool (b : bool)
| PyInt (z : Z)
| PyFloat (r : R)
| PyStr (s : string)
| PyDict (d : gmap string (pyval R)).

Arguments PyNone {R}.
Arguments PyBool {R} b.
Arguments PyInt {R} z.
Arguments PyFloat {R} r.
Arguments PyStr {R} s.
Arguments PyDict {R} d.

Inductive exn : Type :=
| ProgModelInputException (msg : string)
| ProgModelTypeError (msg : string)
| KeyError (key : string)
| IndexError
| TypeError.

(** What running a piece of code gives: a value, a raised exception, or
    (an artefact of the fuel) an unfinished loop. *)
Inductive outcome (A : Type) : Type :=
| Return (a : A)
| Raise (e : exn)
| OutOfFuel.

Arguments Return {A} a.
Arguments Raise {A} e.
Arguments OutOfFuel {A}.

Section Values.
Context {R : Type} `{PyNumber R}.

(** [isinstance(v, Number)]: [bool] is a subclass of [int]. *)
Definition isinstance_Number (v : pyval R) : bool :=
  match v with
  | PyBool _ | PyInt _ | PyFloat _ => true
  | _ => false
  end.

(** [type(v) is int or type(v) is float]: an exact type test, which a
    [bool] does not pass. *)
Definition type_is_int_or_float (v : pyval R) : bool :=
  match v with
  | PyInt _ | PyFloat _ => true
  | _ => false
  end.

(** The numeric value of a value that supports arithmetic comparison. *)
Definition as_number (v : pyval R) : option R :=
  match v with
  | PyBool b => Some (num_of_Z (if b then 1 else 0))
  | PyInt z => Some (num_of_Z z)
  | PyFloat r => Some r
  | _ => None
  end.

(** Truth value of an object, as [if v:] tests it. *)
Definition truthy (v : pyval R) : bool :=
  match v with
  | PyNone => false
  | PyBool b => b
  | PyInt z => negb (z =? 0)%Z
  | PyFloat r => negb (num_eqb r (num_of_Z 0))
  | PyStr s => negb (String.eqb s "")
  | PyDict d => negb (bool_decide (d = ∅))
  end.
End Values.

(** A dictionary of numbers: an input, state, output or event-state
    vector. *)
Abbreviation vec R := (gmap string R) (only parsing).
(** A dictionary of configuration values. *)
Abbreviation params R := (gmap string (pyval R)) (only parsing).

(** An argument that the code tests with [callable(_)]. *)
Inductive pyarg (R A : Type) : Type :=
| Callable (f : A)
| NotCallable (v : pyval R).

Arguments Callable {R A} f.
Arguments NotCallable {R A} v.

(** Sequencing of checks that may raise. *)
Definition bind_exn {A B : Type} (r : exn + A) (k : A -> exn + B) : exn + B :=
  match r with
  | inl e => inl e
  | inr a => k a
  end.

Notation "x <-! r ;; k" := (bind_exn r (fun x => k))
  (at level 100, r at next level, right associativity).
Notation "'raise' e" := (inl e) (at level 10, only parsing).

(** ** The model contract *)

Section Contract.
Context {R : Type} `{PyNumber R}.

(** The store: the class attribute [PrognosticsModel.parameters].  No
    instance ever binds a [parameters] attribute of its own, so
    [self.parameters] denotes this one dictionary for every instance. *)
Record py_store : Type := {
  parameters : params R;
}.

(** What a [class ...(PrognosticsModel)] statement declares.  [None]
    stands for an attribute or method the class body does not define
    (and so inherits, or lacks). *)
Record class_decl : Type := {
  cls_inputs : option (list string);
  cls_states : option (list string);
  cls_outputs : option (list string);
  cls_events : option (list string);
  cls_initialize : vec R -> vec R -> vec R;
  cls_next_state : R -> vec R -> vec R -> R -> vec R;
  cls_output : R -> vec R -> vec R;
  cls_event_state : option (R -> vec R -> vec R);
  cls_threshold_met : option (R -> vec R -> gmap string bool);
}.

(** A model instance: the attributes that attribute lookup on [self]
    finds.  [threshold_met_attr = None] means lookup reaches the method
    of the base class. *)
Record model : Type := {
  inputs : list string;
  states : list string;
  outputs : list string;
  events : list string;
  initialize : vec R -> vec R -> vec R;
  next_state : R -> vec R -> vec R -> R -> vec R;
  output : R -> vec R -> vec R;
  event_state : R -> vec R -> vec R;
  threshold_met_attr : option (R -> vec R -> gmap string bool);
}.

(** [PrognosticsModel.event_state]: the default returns [{}]. *)
Definition default_event_state : R -> vec R -> vec R := fun _ _ => ∅.

(** [PrognosticsModel.threshold_met]: the body of the base-class method,
    given the [event_state] that [self] resolves to. *)
Definition default_threshold_met (self_event_state : R -> vec R -> vec R)
    (t : R) (x : vec R) : gmap string bool :=
  (fun es => num_ltb es (num_of_Z 0)) <$> self_event_state t x.

(** [self.threshold_met(t, x)]. *)
Definition threshold_met (self : model) (t : R) (x : vec R) : gmap string bool :=
  match threshold_met_attr self with
  | Some f => f t x
  | None => default_threshold_met (event_state self) t x
  end.

(** The two tests on a key-list attribute in [__init__]. *)
Definition require_keys (name one : string) (attr : option (list string))
    : exn + list string :=
  match attr with
  | None => raise (ProgModelTypeError ("Must have `" ++ name ++ "` attribute"))
  | Some [] =>
      raise (ProgModelTypeError
               ("`" ++ name ++ "` attribute must have at least one " ++ one ++ " key"))
  | Some l => inr l
  end.

(** The dictionary comprehension [{key: v for key in states}]. *)
Definition broadcast (v : pyval R) (keys : list string) : params R :=
  list_to_map ((fun key => (key, v)) <$> keys).

(** [self.parameters.update(options)] *)
Definition update_parameters (options : params R) (σ : py_store) : py_store :=
  {| parameters := options ∪ parameters σ |}.

(** [PrognosticsModel.__init__(self, options)] for an instance of the
    class [cls].  The update of the shared dictionary happens first and
    persists when a later check raises. *)
Definition init (cls : class_decl) (options : params R) (σ : py_store)
    : py_store * (exn + model) :=
  let σ1 := update_parameters options σ in
  match parameters σ1 !! "process_noise" with
  | None => (σ1, raise (ProgModelTypeError "Missing `process_noise` parameter"))
  | Some process_noise =>
      let checked :=
        ins <-! require_keys "inputs" "input" (cls_inputs cls) ;;
        sts <-! require_keys "states" "state" (cls_states cls) ;;
        outs <-! require_keys "outputs" "output" (cls_outputs cls) ;;
        inr (ins, sts, outs) in
      match checked with
      | inl e => (σ1, inl e)
      | inr (ins, sts, outs) =>
          let σ2 :=
            if isinstance_Number process_noise
            then {| parameters :=
                      <["process_noise" := PyDict (broadcast process_noise sts)]>
                        (parameters σ1) |}
            else σ1 in
          (σ2, inr {| inputs := ins;
                      states := sts;
                      outputs := outs;
                      events := default [] (cls_events cls);
                      initialize := cls_initialize cls;
                      next_state := cls_next_state cls;
                      output := cls_output cls;
                      event_state := default default_event_state (cls_event_state cls);
                      threshold_met_attr := cls_threshold_met cls |})
      end
  end.

(** *** The factory *)

Definition truthy_arg {A : Type} (a : pyarg R A) : bool :=
  match a with
  | Callable _ => true
  | NotCallable v => truthy v
  end.

Definition require_callable {A : Type} (msg : string) (a : pyarg R A) : exn + A :=
  match a with
  | Callable f => inr f
  | NotCallable _ => raise (ProgModelTypeError msg)
  end.

(** An optional equation: absent when the argument is falsy, an error
    when it is truthy and not callable. *)
Definition optional_callable {A : Type} (msg : string) (a : pyarg R A)
    : exn + option A :=
  match a with
  | Callable f => inr (Some f)
  | NotCallable v => if truthy v then raise (ProgModelTypeError msg) else inr None
  end.

Definition require_key (msg : string) (keys : gmap string (list string)) (k : string)
    : exn + list string :=
  match keys !! k with
  | Some l => inr l
  | None => raise (ProgModelTypeError msg)
  end.

(** The class [NewProgModel] that [generate_model] declares: the three
    key lists, and three placeholder methods (their bodies are [pass];
    the instance attributes set afterwards shadow them). *)
Definition NewProgModel (ins sts outs : list string) : class_decl :=
  {| cls_inputs := Some ins;
     cls_states := Some sts;
     cls_outputs := Some outs;
     cls_events := None;
     cls_initialize := fun _ _ => ∅;
     cls_next_state := fun _ _ _ _ => ∅;
     cls_output := fun _ _ => ∅;
     cls_event_state := None;
     cls_threshold_met := None |}.

(** [PrognosticsModel.generate_model].  The arguments that have defaults in
    the source ([event_state_eqn = None], [threshold_eqn = None],
    [config = {'process_noise': 0.1}]) are passed explicitly. *)
Definition generate_model (keys : gmap string (list string))
    (initialize_eqn : pyarg R (vec R -> vec R -> vec R))
    (next_state_eqn : pyarg R (R -> vec R -> vec R -> R -> vec R))
    (output_eqn : pyarg R (R -> vec R -> vec R))
    (event_state_eqn : pyarg R (R -> vec R -> vec R))
    (threshold_eqn : pyarg R (R -> vec R -> gmap string bool))
    (config : params R) (σ : py_store) : py_store * (exn + model) :=
  let validated :=
    f_init <-! require_callable "Initialize Function must be callable" initialize_eqn ;;
    f_next <-! require_callable "Next_State Function must be callable" next_state_eqn ;;
    f_out <-! require_callable "Output Function must be callable" output_eqn ;;
    f_es <-! optional_callable "Event State Function must be callable" event_state_eqn ;;
    f_th <-! optional_callable "Threshold Function must be callable" threshold_eqn ;;
    ins <-! require_key "Keys must include 'inputs'" keys "inputs" ;;
    sts <-! require_key "Keys must include 'states'" keys "states" ;;
    outs <-! require_key "Keys must include 'outputs'" keys "outputs" ;;
    inr (f_init, f_next, f_out, f_es, f_th, ins, sts, outs) in
  match validated with
  | inl e => (σ, inl e)
  | inr (f_init, f_next, f_out, f_es, f_th, ins, sts, outs) =>
      match init (NewProgModel ins sts outs) config σ with
      | (σ', inl e) => (σ', inl e)
      | (σ', inr m) =>
          (σ', inr {| inputs := inputs m;
                      states := states m;
                      outputs := outputs m;
                      events := default (events m) (keys !! "events");
                      initialize := f_init;
                      next_state := f_next;
                      output := f_out;
                      event_state := default (event_state m) f_es;
                      threshold_met_attr :=
                        match f_th with
                        | Some f => Some f
                        | None => threshold_met_attr m
                        end |})
      end
  end.
End Contract.

Arguments py_store R : clear implicits.
Arguments class_decl R : clear implicits.
Arguments model R : clear implicits.

(** ** The simulation driver *)

(** An invocation of one of the equations the caller or the model
    supplies, made by the code of [prognostics_model.py]: by the driver, or
    by the [threshold_met] of the base class, which evaluates
    [self.event_state].  What an equation of the caller calls in turn is the
    caller's code and is not recorded. *)
Inductive call (R : Type) : Type :=
| CallFutureLoading (t : R)
| CallInitialize
| CallNextState (t : R)
| CallThresholdMet (t : R)
| CallOutput (t : R)
| CallEventState (t : R).

Arguments CallFutureLoading {R} t.
Arguments CallInitialize {R}.
Arguments CallNextState {R} t.
Arguments CallThresholdMet {R} t.
Arguments CallOutput {R} t.
Arguments CallEventState {R} t.

Section Driver.
Context {R : Type} `{PyNumber R}.

(** The [options] dictionary of a simulation call, by the keys the code
    reads; [None] is an absent key. *)
Record sim_options : Type := {
  opt_dt : option (pyval R);
  opt_save_freq : option (pyval R);
  opt_horizon : option (pyval R);
  opt_threshold_eqn : option (R -> vec R -> gmap string bool);
  opt_x : option (vec R);
}.

(** [config.update(options)]: the keys of [options] win. *)
Definition update (config options : sim_options) : sim_options :=
  {| opt_dt := opt_dt options ∪ opt_dt config;
     opt_save_freq := opt_save_freq options ∪ opt_save_freq config;
     opt_horizon := opt_horizon options ∪ opt_horizon config;
     opt_threshold_eqn := opt_threshold_eqn options ∪ opt_threshold_eqn config;
     opt_x := opt_x options ∪ opt_x config |}.

(** The five sequences a run returns: [times], [inputs], [states],
    [outputs], [event_states].  The last four are named [saved_...] here,
    [inputs], [states] and [outputs] being the key lists of the model. *)
Record history : Type := {
  times : list R;
  saved_inputs : list (vec R);
  saved_states : list (vec R);
  saved_outputs : list (vec R);
  saved_event_states : list (vec R);
}.

(** The five [append] calls that record one point. *)
Definition record_point (self : model R) (h : history) (t : R) (u x : vec R) : history :=
  {| times := times h ++ [t];
     saved_inputs := saved_inputs h ++ [u];
     saved_states := saved_states h ++ [x];
     saved_outputs := saved_outputs h ++ [output self t x];
     saved_event_states := saved_event_states h ++ [event_state self t x] |}.

(** The block "Configuration validation", which [simulate_to] and
    [simulate_to_threshold] both run on their merged [config]. *)
Definition require_positive_number (name : string) (entry : option (pyval R))
    : exn + R :=
  match entry with
  | None => raise (KeyError name)
  | Some v =>
      if negb (type_is_int_or_float v)
      then raise (ProgModelInputException ("'" ++ name ++ "' must be a number"))
      else match as_number v with
           | None => raise TypeError
           | Some r =>
               if num_leb r (num_of_Z 0)
               then raise (ProgModelInputException ("'" ++ name ++ "' must be positive"))
               else inr r
           end
  end.

Definition validate_config (config : sim_options) : exn + (R * R) :=
  dt <-! require_positive_number "dt" (opt_dt config) ;;
  save_freq <-! require_positive_number "save_freq" (opt_save_freq config) ;;
  inr (dt, save_freq).

(** Truth value of the [threshold_keys] argument: [None] and the empty
    list are both falsy. *)
Definition keys_given (threshold_keys : option (list string)) : bool :=
  match threshold_keys with
  | Some (_ :: _) => true
  | _ => false
  end.

(** The block "Input Validation" of [simulate_to_threshold]. *)
Definition validate_inputs (self : model R) (future_loading_eqn : pyarg R (R -> vec R))
    (first_output : vec R) (threshold_keys : option (list string))
    : exn + (R -> vec R) :=
  if negb (forallb (fun key => bool_decide (is_Some (first_output !! key))) (outputs self))
  then raise (ProgModelInputException
                "Missing key in 'first_output', must have every key in model.outputs")
  else
    match future_loading_eqn with
    | NotCallable _ =>
        raise (ProgModelInputException "'future_loading_eqn' must be callable f(t)")
    | Callable load =>
        if keys_given threshold_keys
           && negb (forallb (fun key => bool_decide (key ∈ events self))
                            (default [] threshold_keys))
        then raise (ProgModelInputException "threshold_keys must be event names")
        else inr load
    end.

(** [[thresholds_met[key] for key in threshold_keys]] *)
Fixpoint lookup_each (thresholds_met : gmap string bool) (keys : list string)
    : exn + list bool :=
  match keys with
  | [] => inr []
  | key :: keys' =>
      match thresholds_met !! key with
      | None => raise (KeyError key)
      | Some b => bs <-! lookup_each thresholds_met keys' ;; inr (b :: bs)
      end
  end.

(** The local function [check_thresholds], chosen by the truth value of
    [threshold_keys]. *)
Definition check_thresholds (threshold_keys : option (list string))
    (thresholds_met : gmap string bool) : exn + bool :=
  if negb (keys_given threshold_keys)
  then inr (existsb id (snd <$> map_to_list thresholds_met))
  else bs <-! lookup_each thresholds_met (default [] threshold_keys) ;;
       inr (existsb id bs).

(** The calls that [self.threshold_met(t, x)] makes itself: the method of
    the base class evaluates [self.event_state(t, x)]; an overriding
    method is the caller's code. *)
Definition threshold_met_calls (self : model R) (t : R) : list (call R) :=
  match threshold_met_attr self with
  | Some _ => []
  | None => [CallEventState t]
  end.

(** The local variables of the [while] loop, with the call log. *)
Record loop_state : Type := {
  ls_t : R;
  ls_u : vec R;
  ls_x : vec R;
  ls_threshold_met : bool;
  ls_next_save : R;
  ls_history : history;
  ls_calls : list (call R);
}.

Section Loop.
Variable self : model R.
Variable future_loading_eqn : R -> vec R.
Variable threshold_met_eqn : R -> vec R -> gmap string bool.
(** The calls that [threshold_met_eqn(t, x)] makes itself. *)
Variable threshold_met_eqn_calls : R -> list (call R).
Variable threshold_keys : option (list string).
Variables dt save_freq horizon : R.

(** [not threshold_met and t < horizon] *)
Definition loop_test (st : loop_state) : bool :=
  negb (ls_threshold_met st) && num_ltb (ls_t st) horizon.

(** One pass through the body of the [while] loop. *)
Definition loop_body (st : loop_state) : (list (call R) * exn) + loop_state :=
  let t := num_add (ls_t st) dt in
  let u := future_loading_eqn t in
  let x := next_state self t (ls_x st) u dt in
  let calls :=
    ls_calls st ++ [CallFutureLoading t; CallNextState t; CallThresholdMet t]
      ++ threshold_met_eqn_calls t in
  match check_thresholds threshold_keys (threshold_met_eqn t x) with
  | inl e => inl (calls, e)
  | inr met =>
      if num_leb (ls_next_save st) t
      then inr {| ls_t := t; ls_u := u; ls_x := x;
                  ls_threshold_met := met;
                  ls_next_save := num_add (ls_next_save st) save_freq;
                  ls_history := record_point self (ls_history st) t u x;
                  ls_calls := calls ++ [CallOutput t; CallEventState t] |}
      else inr {| ls_t := t; ls_u := u; ls_x := x;
                  ls_threshold_met := met;
                  ls_next_save := ls_next_save st;
                  ls_history := ls_history st;
                  ls_calls := calls |}
  end.

(** The [while] loop. *)
Fixpoint run_loop (fuel : nat) (st : loop_state) : list (call R) * outcome loop_state :=
  if loop_test st then
    match fuel with
    | O => (ls_calls st, OutOfFuel)
    | S fuel' =>
        match loop_body st with
        | inl (calls, e) => (calls, Raise e)
        | inr st' => run_loop fuel' st'
        end
    end
  else (ls_calls st, Return st).

(** "Save final state": [times[-1] != t] guards the last point. *)
Definition finalize (st : loop_state) : list (call R) * outcome history :=
  match last (times (ls_history st)) with
  | None => (ls_calls st, Raise IndexError)
  | Some t_last =>
      if negb (num_eqb t_last (ls_t st))
      then (ls_calls st ++ [CallOutput (ls_t st); CallEventState (ls_t st)],
            Return (record_point self (ls_history st) (ls_t st) (ls_u st) (ls_x st)))
      else (ls_calls st, Return (ls_history st))
  end.

(** The loop followed by the final save. *)
Definition run (fuel : nat) (st : loop_state) : list (call R) * outcome history :=
  match run_loop fuel st with
  | (_, Return st') => finalize st'
  | (calls, Raise e) => (calls, Raise e)
  | (calls, OutOfFuel) => (calls, OutOfFuel)
  end.
End Loop.

(** The defaults of [simulate_to_threshold]: [dt = 1.0],
    [save_freq = 10], [horizon = 1e100]. *)
Definition simulate_to_threshold_defaults : sim_options :=
  {| opt_dt := Some (PyFloat (num_of_Z 1));
     opt_save_freq := Some (PyInt 10);
     opt_horizon := Some (PyFloat (num_of_Z (10 ^ 100)));
     opt_threshold_eqn := None;
     opt_x := None |}.

(** The block "Setup": the point at [t = 0]. *)
Definition setup (self : model R) (future_loading_eqn : R -> vec R)
    (first_output : vec R) (config : sim_options) (save_freq : R) : loop_state :=
  let t := num_of_Z 0 in
  let u := future_loading_eqn t in
  let x := default (initialize self u first_output) (opt_x config) in
  {| ls_t := t; ls_u := u; ls_x := x;
     ls_threshold_met := false;
     ls_next_save := save_freq;
     ls_history :=
       {| times := [t];
          saved_inputs := [u];
          saved_states := [x];
          saved_outputs := [output self t x];
          saved_event_states := [event_state self t x] |};
     ls_calls :=
       [CallFutureLoading t]
         ++ match opt_x config with Some _ => [] | None => [CallInitialize] end
         ++ [CallOutput t; CallEventState t] |}.

(** The calls that the threshold equation of a run makes itself: those of
    [self.threshold_met], unless [config] has a ['threshold_eqn'], which is
    the caller's code. *)
Definition threshold_eqn_calls (self : model R) (config : sim_options)
    : R -> list (call R) :=
  match opt_threshold_eqn config with
  | Some _ => fun _ => []
  | None => threshold_met_calls self
  end.

(** [PrognosticsModel.simulate_to_threshold].  The result pairs the log
    of the equation calls made with what the call gives.  A [horizon]
    that is not a number makes the first loop test [t < horizon] raise
    (the flag [threshold_met] is [False] there, so the comparison is
    evaluated). *)
Definition simulate_to_threshold (self : model R)
    (future_loading_eqn : pyarg R (R -> vec R)) (first_output : vec R)
    (options : sim_options) (threshold_keys : option (list string))
    (fuel : nat) : list (call R) * outcome history :=
  match validate_inputs self future_loading_eqn first_output threshold_keys with
  | inl e => ([], Raise e)
  | inr load =>
      let config := update simulate_to_threshold_defaults options in
      match validate_config config with
      | inl e => ([], Raise e)
      | inr (dt, save_freq) =>
          let threshold_met_eqn :=
            default (threshold_met self) (opt_threshold_eqn config) in
          let st := setup self load first_output config save_freq in
          match opt_horizon config ≫= as_number with
          | None => (ls_calls st, Raise TypeError)
          | Some horizon =>
              run self load threshold_met_eqn (threshold_eqn_calls self config)
                  threshold_keys dt save_freq horizon fuel st
          end
      end
  end.

(** The defaults of [simulate_to]: [dt = 1], [save_freq = 10], a
    threshold equation that answers [{'a': False}], [horizon = time]. *)
Definition simulate_to_defaults (time : pyval R) : sim_options :=
  {| opt_dt := Some (PyInt 1);
     opt_save_freq := Some (PyInt 10);
     opt_horizon := Some time;
     opt_threshold_eqn := Some (fun _ _ => {[ "a" := false ]});
     opt_x := None |}.

(** [time > 0], for a value that passed [isinstance(time, Number)]. *)
Definition time_is_positive (time : pyval R) : bool :=
  match as_number time with
  | Some r => negb (num_leb r (num_of_Z 0))
  | None => false
  end.

(** The [config] of [simulate_to]: its defaults, updated by the caller's
    [options]. *)
Definition simulate_to_config (time : pyval R) (options : sim_options) : sim_options :=
  update (simulate_to_defaults time) options.

(** [PrognosticsModel.simulate_to] *)
Definition simulate_to (self : model R) (time : pyval R)
    (future_loading_eqn : pyarg R (R -> vec R)) (first_output : vec R)
    (options : sim_options) (fuel : nat) : list (call R) * outcome history :=
  if negb (isinstance_Number time) || negb (time_is_positive time)
  then ([], Raise (ProgModelInputException "'time' must be number greater than 0"))
  else
    let config := simulate_to_config time options in
    match validate_config config with
    | inl e => ([], Raise e)
    | inr _ => simulate_to_threshold self future_loading_eqn first_output config None fuel
    end.

End Driver.

Arguments sim_options R : clear implicits.
Arguments history R : clear implicits.
Arguments loop_state R : clear implicits.

(** * Vocabulary of the properties, and concrete models *)

(** ** Timestamps and histories *)

(** Every earlier entry is smaller than every later one. *)
Definition strictly_increasing (l : list Q) : Prop :=
  forall (i j : nat) (a b : Q),
    (i < j)%nat -> l !! i = Some a -> l !! j = Some b -> (a < b)%Q.


(** The five sequences have one length. *)
Definition lengths_agree {R : Type} (h : history R) : Prop :=
  length (saved_inputs h) = length (times h)
  /\ length (saved_states h) = length (times h)
  /\ length (saved_outputs h) = length (times h)
  /\ length (saved_event_states h) = length (times h).

(** What holds of the local variables at every loop test, for the step
    [dt] and the horizon [horizon]. *)
Record loop_inv (dt horizon : Q) (st : loop_state Q) : Prop := {
  inv_lengths : lengths_agree (ls_history st);
  inv_head : head (times (ls_history st)) = Some 0%Q;
  inv_increasing : strictly_increasing (times (ls_history st));
  inv_bound : Forall (fun s => s <= ls_t st)%Q (times (ls_history st));
  inv_horizon : (ls_t st < horizon + dt)%Q;
  inv_current :
    forall t_last, last (times (ls_history st)) = Some t_last ->
                   (t_last == ls_t st)%Q ->
                   last (saved_states (ls_history st)) = Some (ls_x st);
}.

(** The number of passes that reach the horizon from time 0. *)
Definition enough_fuel (dt horizon : Q) : nat := Z.to_nat (Qceiling (horizon / dt)).

(** ** Validation and construction *)

Section Vocabulary.
Context {R : Type} `{PyNumber R}.


(** An optional equation as the factory's argument: the function, or
    [None]. *)
Definition optional_arg {A : Type} (f : option A) : pyarg R A :=
  match f with
  | Some f => Callable f
  | None => NotCallable PyNone
  end.

(** The class a [class ...(PrognosticsModel)] statement declares when it
    lists the key lists of [keys] as its attributes and wraps the given
    functions as its methods. *)
Definition declared_class (keys : gmap string (list string))
    (f_init : vec R -> vec R -> vec R)
    (f_next : R -> vec R -> vec R -> R -> vec R)
    (f_out : R -> vec R -> vec R)
    (f_es : option (R -> vec R -> vec R))
    (f_th : option (R -> vec R -> gmap string bool)) : class_decl R :=
  {| cls_inputs := keys !! "inputs";
     cls_states := keys !! "states";
     cls_outputs := keys !! "outputs";
     cls_events := keys !! "events";
     cls_initialize := f_init;
     cls_next_state := f_next;
     cls_output := f_out;
     cls_event_state := f_es;
     cls_threshold_met := f_th |}.

(** The direct computation that the final state of [simulate_to] is
    compared with.  One direct step: advance the time by [dt], ask the
    loading function for the input at the new time, and call
    [next_state]. *)
Definition advance (self : model R) (future_loading_eqn : R -> vec R) (dt : R)
    (p : R * vec R) : R * vec R :=
  let t := num_add (fst p) dt in
  (t, next_state self t (snd p) (future_loading_eqn t) dt).

(** [next_state] called [n] times in a row from the state [x0] at time 0. *)
Definition repeat_next_state (self : model R) (future_loading_eqn : R -> vec R)
    (dt : R) (n : nat) (x0 : vec R) : vec R :=
  snd (Nat.iter n (advance self future_loading_eqn dt) (num_of_Z 0, x0)).

End Vocabulary.

(** ** The linear scenario *)

(** A model whose position grows by [dt * u['rate']] per step, whose output
    is its state, and whose one event has the event state
    [1 - x['pos'] / 100].  The threshold equation is the default one. *)
Definition linear_model : model Q :=
  {| inputs := ["rate"];
     states := ["pos"];
     outputs := ["pos"];
     events := ["EOL"];
     initialize := fun _ z => z;
     next_state := fun _ x u dt => (fun v => v + dt * default 0 (u !! "rate"))%Q <$> x;
     output := fun _ x => x;
     event_state := fun _ x => {[ "EOL" := (1 - default 0 (x !! "pos") / 100)%Q ]};
     threshold_met_attr := None |}.

(** The constant loading [u = {'rate': 5}]. *)
Definition constant_rate : Q -> vec Q := fun _ => {[ "rate" := 5%Q ]}.

(** [{'dt': 1, 'save_freq': 5, 'x': {'pos': 0}}] *)
Definition linear_options : sim_options Q :=
  {| opt_dt := Some (PyInt 1);
     opt_save_freq := Some (PyInt 5);
     opt_horizon := None;
     opt_threshold_eqn := None;
     opt_x := Some {[ "pos" := 0%Q ]} |}.

Definition linear_run (fuel : nat) : list (call Q) * outcome (history Q) :=
  simulate_to_threshold linear_model (Callable constant_rate) {[ "pos" := 0%Q ]}
    linear_options None fuel.

(** The history of the linear scenario. *)
Definition linear_history : history Q :=
  {| times := [0; 5; 10; 15; 20; 21]%Q;
     saved_inputs := replicate 6 {[ "rate" := 5%Q ]};
     saved_states :=
       (fun p => {[ "pos" := p ]}) <$> [0; 25; 50; 75; 100; 105]%Q;
     saved_outputs :=
       (fun p => {[ "pos" := p ]}) <$> [0; 25; 50; 75; 100; 105]%Q;
     saved_event_states :=
       (fun p => {[ "EOL" := (1 - p / 100)%Q ]}) <$> [0; 25; 50; 75; 100; 105]%Q |}.

Definition linear_keys : gmap string (list string) :=
  {[ "inputs" := ["rate"]; "states" := ["pos"]; "outputs" := ["pos"];
     "events" := ["EOL"] ]}.

(** [generate_model] called with the equations of the linear model and
    [config]. *)
Definition generate_linear (config : params Q) (σ : py_store Q)
    : py_store Q * (exn + model Q) :=
  generate_model linear_keys
    (Callable (initialize linear_model)) (Callable (next_state linear_model))
    (Callable (output linear_model)) (Callable (event_state linear_model))
    (NotCallable PyNone) config σ.

(** [{'horizon': 3}] *)
Definition horizon_override : sim_options Q :=
  {| opt_dt := None; opt_save_freq := None;
     opt_horizon := Some (PyInt 3);
     opt_threshold_eqn := None;
     opt_x := None |}.


(** The linear model and its scenario in binary64. *)
Definition linear_model_binary64 : model float :=
  {| inputs := ["rate"];
     states := ["pos"];
     outputs := ["pos"];
     events := ["EOL"];
     initialize := fun _ z => z;
     next_state := fun _ x u dt =>
       (fun v => v + dt * default 0 (u !! "rate"))%float <$> x;
     output := fun _ x => x;
     event_state := fun _ x => {[ "EOL" := (1 - default 0 (x !! "pos") / 100)%float ]};
     threshold_met_attr := None |}.

Definition linear_run_binary64 (fuel : nat) : list (call float) * outcome (history float) :=
  simulate_to_threshold linear_model_binary64
    (Callable (fun _ => {[ "rate" := 5%float ]})) {[ "pos" := 0%float ]}
    {| opt_dt := Some (PyInt 1);
       opt_save_freq := Some (PyInt 5);
       opt_horizon := None;
       opt_threshold_eqn := None;
       opt_x := Some {[ "pos" := 0%float ]} |}
    None fuel.

(** ** Two events, one of them named *)

(** A counter [n] that grows by [dt]; event [B] trips once [n > 2], event
    [A] once [n > 5]. *)
Definition two_event_model : model Q :=
  {| inputs := ["u"];
     states := ["n"];
     outputs := ["n"];
     events := ["A"; "B"];
     initialize := fun _ z => z;
     next_state := fun _ x _ dt => (fun v => v + dt)%Q <$> x;
     output := fun _ x => x;
     event_state := fun _ x =>
       {[ "A" := (5 - default 0 (x !! "n"))%Q; "B" := (2 - default 0 (x !! "n"))%Q ]};
     threshold_met_attr := None |}.

(** [{'dt': 1}] *)
Definition unit_step_options : sim_options Q :=
  {| opt_dt := Some (PyInt 1);
     opt_save_freq := None;
     opt_horizon := None;
     opt_threshold_eqn := None;
     opt_x := None |}.

Definition two_event_run (threshold_keys : option (list string)) (fuel : nat)
    : list (call Q) * outcome (history Q) :=
  simulate_to_threshold two_event_model (Callable (fun _ => {[ "u" := 0%Q ]}))
    {[ "n" := 0%Q ]} unit_step_options threshold_keys fuel.

(** The local variables of the two-event run at a loop test with [t = n],
    before any save after the first point (the call log is left empty). *)
Definition two_event_state (n : Q) : loop_state Q :=
  {| ls_t := n; ls_u := {[ "u" := 0%Q ]}; ls_x := {[ "n" := n ]};
     ls_threshold_met := false; ls_next_save := 10%Q;
     ls_history := {| times := [0%Q]; saved_inputs := [{[ "u" := 0%Q ]}];
                      saved_states := [{[ "n" := 0%Q ]}];
                      saved_outputs := [{[ "n" := 0%Q ]}];
                      saved_event_states := [{[ "A" := 5%Q; "B" := 2%Q ]}] |};
     ls_calls := [] |}.

Definition two_event_keys : gmap string (list string) :=
  {[ "inputs" := ["u"]; "states" := ["n"]; "outputs" := ["n"]; "events" := ["A"; "B"] ]}.

(** [generate_model] called with the equations of the two-event model and
    [config]. *)
Definition generate_two_event (config : params Q) (σ : py_store Q)
    : py_store Q * (exn + model Q) :=
  generate_model two_event_keys
    (Callable (initialize two_event_model)) (Callable (next_state two_event_model))
    (Callable (output two_event_model)) (Callable (event_state two_event_model))
    (NotCallable PyNone) config σ.

(** ** A step counter in binary64 *)

(** [math.ceil(f)] for a finite binary64 number. *)
Definition float_ceiling (f : float) : option Z := Qceiling <$> float_to_Q f.

(** A model that counts the calls of [next_state] in its state. *)
Definition step_counter : model float :=
  {| inputs := ["u"];
     states := ["n"];
     outputs := ["n"];
     events := [];
     initialize := fun _ _ => {[ "n" := 0%float ]};
     next_state := fun _ x _ _ => (fun v => v + 1)%float <$> x;
     output := fun _ x => x;
     event_state := default_event_state;
     threshold_met_attr := None |}.

(** [{'dt': 0.1}] *)
Definition tenth_options : sim_options float :=
  {| opt_dt := Some (PyFloat 0.1%float);
     opt_save_freq := None; opt_horizon := None;
     opt_threshold_eqn := None; opt_x := None |}.

Definition no_load : float -> vec float := fun _ => {[ "u" := 0%float ]}.

(** The key lists of the step counter. *)
Definition counter_keys : gmap string (list string) :=
  {[ "inputs" := ["u"]; "states" := ["n"]; "outputs" := ["n"] ]}.

(** ** Histories and call logs as a whole *)

Section Accounting.
Context {R : Type} `{PyNumber R}.

(** Every recorded point is consistent: at each index the input is the
    loading function at the recorded time, and the output and the event
    state are those of the recorded state at the recorded time. *)
Definition history_aligned (self : model R) (load : R -> vec R) (h : history R) : Prop :=
  forall i t,
    times h !! i = Some t ->
    exists x,
      saved_states h !! i = Some x
      /\ saved_inputs h !! i = Some (load t)
      /\ saved_outputs h !! i = Some (output self t x)
      /\ saved_event_states h !! i = Some (event_state self t x).

Definition is_loading_call (c : call R) : bool :=
  match c with CallFutureLoading _ => true | _ => false end.

Definition is_initialize_call (c : call R) : bool :=
  match c with CallInitialize => true | _ => false end.

Definition is_next_state_call (c : call R) : bool :=
  match c with CallNextState _ => true | _ => false end.


Definition is_output_call (c : call R) : bool :=
  match c with CallOutput _ => true | _ => false end.

Definition is_event_state_call (c : call R) : bool :=
  match c with CallEventState _ => true | _ => false end.

(** How many calls of a kind a log holds. *)
Fixpoint count_calls (kind : call R -> bool) (calls : list (call R)) : nat :=
  match calls with
  | [] => 0
  | c :: calls' => (if kind c then 1 else 0) + count_calls kind calls'
  end.




End Accounting.

(** ** The save cadence *)

(** What the loop keeps of the save schedule, for the step [dt] and the
    period [save_freq]: [next_save] is [save_freq] times the number of
    recorded points; the point of index [i] was recorded at or after
    [i * save_freq]; and when [dt <= save_freq] the time is always before
    the next save instant and no point was recorded [dt] or more after its
    instant. *)
Definition sampling_inv (dt save_freq : Q) (st : loop_state Q) : Prop :=
  (ls_next_save st
   == inject_Z (Z.of_nat (length (times (ls_history st)))) * save_freq)%Q
  /\ (forall i s, times (ls_history st) !! i = Some s ->
                  (inject_Z (Z.of_nat i) * save_freq <= s)%Q)
  /\ ((dt <= save_freq)%Q ->
      (ls_t st < ls_next_save st)%Q
      /\ forall i s, times (ls_history st) !! i = Some s -> (1 <= i)%nat ->
                     (s < inject_Z (Z.of_nat i) * save_freq + dt)%Q).

(** ** A model that declares an event but keeps the default [event_state] *)

(** The two-event model without its [event_state]: the events stay
    declared, the default [event_state] answers [{}]. *)
Definition silent_event_model : model Q :=
  {| inputs := inputs two_event_model;
     states := states two_event_model;
     outputs := outputs two_event_model;
     events := events two_event_model;
     initialize := initialize two_event_model;
     next_state := next_state two_event_model;
     output := output two_event_model;
     event_state := default_event_state;
     threshold_met_attr := None |}.

(** [{'horizon': 0}] and [{'horizon': 'soon'}] *)
Definition zero_horizon_options : sim_options Q :=
  {| opt_dt := None; opt_save_freq := None; opt_horizon := Some (PyInt 0);
     opt_threshold_eqn := None; opt_x := None |}.

Definition string_horizon_options : sim_options Q :=
  {| opt_dt := None; opt_save_freq := None; opt_horizon := Some (PyStr "soon");
     opt_threshold_eqn := None; opt_x := None |}.

(** The loading function [lambda t: {'u': 0}] *)
Definition zero_input : Q -> vec Q := fun _ => {[ "u" := 0%Q ]}.

(** ** Arguments of the factory *)

Section Arguments.
Context {R : Type}.

(** [callable(a)] *)
Definition callable {A : Type} (a : pyarg R A) : bool :=
  match a with
  | Callable _ => true
  | NotCallable _ => false
  end.
End Arguments.

(** * Other modules of the repository *)

(** ** [examples/sim_valve.py]: the loading of the valve example *)

Module sim_valve.

(** Python's [a % b] for [b > 0], on exact numbers: the remainder of the
    floored division. *)
Definition py_mod (a b : Q) : Q := (a - b * inject_Z (Qfloor (a / b)))%Q.

(** [cycle_time = 20] *)
Definition cycle_time : Q := 20%Q.

(** The local function [future_loading(t, x=None)] of [run_example].  The
    argument [x] is not used by the body. *)
Definition future_loading (t : Q) : params Q :=
  let t := py_mod t cycle_time in
  if num_ltb t (cycle_time / 2)%Q
  then {[ "pL" := PyFloat 350000%Q; "pR" := PyFloat 200000%Q;
          "uTop" := PyBool false; "uBot" := PyBool true ]}
  else {[ "pL" := PyFloat 350000%Q; "pR" := PyFloat 200000%Q;
          "uTop" := PyBool true; "uBot" := PyBool false ]}.

End sim_valve.

(** ** [models/powertrain.py]: the callback of the propeller load *)

Module powertrain.

(** [update_Cq(params)], on exact numbers.  The subscripts are evaluated
    from left to right, so the first missing key is the one reported. *)
Definition update_Cq (params : vec Q) : exn + vec Q :=
  match params !! "c_q" with
  | None => raise (KeyError "c_q")
  | Some c_q =>
      match params !! "rho" with
      | None => raise (KeyError "rho")
      | Some rho =>
          match params !! "D" with
          | None => raise (KeyError "D")
          | Some D => inr {[ "C_q" := (c_q * rho * D ^ 5)%Q ]}
          end
      end
  end.

(** [Powertrain.param_callbacks] *)
Definition param_callbacks : gmap string (list (vec Q -> exn + vec Q)) :=
  {[ "c_q" := [update_Cq]; "rho" := [update_Cq]; "D" := [update_Cq] ]}.

End powertrain.

(** ** [datasets/nasa_cmapss2.py]: the cached download *)

Module nasa_cmapss2.

(** [repr] of a list of strings without quotes in them, as [format]
    prints [datasets]. *)
Definition repr_list (l : list string) : string :=
  ("[" ++ String.concat ", " ((fun s => "'" ++ s ++ "'") <$> l) ++ "]")%string.

Definition datasets : list string :=
  ["DS01-005"; "DS02-006"; "DS03-012"; "DS04"; "DS05"; "DS06"; "DS07";
   "DS08a-009"; "DS08c-008"; "DS08d-010"].

(** What [load_data] raises itself, and what the libraries it calls
    raise. *)
Inductive error (E : Type) : Type :=
| ValueError (msg : string)
| LibraryError (e : E).

Arguments ValueError {E} msg.
Arguments LibraryError {E} e.

Section Cache.
(** The libraries: the exceptions they raise, the bytes of a response, an
    opened archive, one of its members, an opened HDF5 file. *)
Variables E content archive member h5 : Type.

(** [requests.get(URL, allow_redirects=True).content] for the request
    number [n] of the process. *)
Variable requests_get : nat -> E + content.
(** [zipfile.ZipFile(io.BytesIO(content))] *)
Variable ZipFile : content -> E + archive.
(** [archive.open(name, mode='r')] *)
Variable zip_open : archive -> string -> E + member.
(** [h5py.File(member)] *)
Variable h5py_File : member -> E + h5.

(** The module's global [cache], and the number of requests made so
    far. *)
Record module_state : Type := {
  cache : option archive;
  requests : nat;
}.

Definition lift {A : Type} (r : E + A) : error E + A :=
  match r with
  | inl e => inl (LibraryError e)
  | inr a => inr a
  end.

(** "Read Files": the last statement of [load_data]. *)
Definition read_file (a : archive) (dataset_id : string) : error E + h5 :=
  match zip_open a ("data_set/N-CMAPSS_" ++ dataset_id ++ ".h5")%string with
  | inl e => inl (LibraryError e)
  | inr m => lift (h5py_File m)
  end.

(** [load_data(dataset_id)] *)
Definition load_data (dataset_id : string) (s : module_state)
    : module_state * (error E + h5) :=
  if negb (bool_decide (dataset_id ∈ datasets))
  then (s, inl (ValueError ("Invalid dataset id. Available datasets: "
                              ++ repr_list datasets)%string))
  else
    match cache s with
    | Some a => (s, read_file a dataset_id)
    | None =>
        let s1 := {| cache := None; requests := S (requests s) |} in
        match requests_get (requests s) with
        | inl e => (s1, inl (LibraryError e))
        | inr response =>
            match ZipFile response with
            | inl e => (s1, inl (LibraryError e))
            | inr a =>
                ({| cache := Some a; requests := S (requests s) |},
                 read_file a dataset_id)
            end
        end
    end.

(** [clear_cache()] *)
Definition clear_cache (s : module_state) : module_state :=
  {| cache := None; requests := requests s |}.

(** Calls of [load_data] one after the other; the results, in order. *)
Fixpoint load_all (ids : list string) (s : module_state)
    : module_state * list (error E + h5) :=
  match ids with
  | [] => (s, [])
  | dataset_id :: ids' =>
      let '(s1, r) := load_data dataset_id s in
      let '(s2, rs) := load_all ids' s1 in
      (s2, r :: rs)
  end.
End Cache.

Arguments cache {archive} m.
Arguments requests {archive} m.

End nasa_cmapss2.

(** ** Not-a-number in binary64 *)

(** No options, and [{'dt': float('nan')}]. *)
Definition no_options : sim_options float :=
  {| opt_dt := None; opt_save_freq := None; opt_horizon := None;
     opt_threshold_eqn := None; opt_x := None |}.

Definition nan_dt_options : sim_options float :=
  {| opt_dt := Some (PyFloat nan); opt_save_freq := None; opt_horizon := None;
     opt_threshold_eqn := None; opt_x := None |}.

(** ** The smallest step in binary64 *)

(** The binary64 number [m * 2^-1074], for a mantissa [m < 2^53]: the
    subnormal numbers and the first binade of the normal ones, which all
    have the exponent [-1074]. *)
Definition grid_exponent : Z := (-1074)%Z.

Definition on_grid (m : positive) : float :=
  SF2Prim (S754_finite false m grid_exponent).

(** [2^-1021], the first number above that grid. *)
Definition stall_time : float :=
  SF2Prim (S754_finite false 4503599627370496 (-1073)).

(** [5e-324], the smallest positive float. *)
Definition smallest_float : float := 5e-324%float.

(** A model whose state remembers the time of its last step and whether
    that time equals the one before; its [threshold_met] answers true once
    the time has stopped advancing. *)
Definition stall_watch : model float :=
  {| inputs := ["u"];
     states := ["last"; "same"];
     outputs := ["last"];
     events := ["stalled"];
     initialize := fun _ _ => {[ "last" := 0%float; "same" := 0%float ]};
     next_state := fun t x _ _ =>
       {[ "last" := t;
          "same" := if PrimFloat.eqb (default 0%float (x !! "last")) t
                    then 1%float else 0%float ]};
     output := fun _ x => x;
     event_state := default_event_state;
     threshold_met_attr :=
       Some (fun _ x =>
               {[ "stalled" := PrimFloat.eqb (default 0%float (x !! "same")) 1 ]}) |}.

(** [{'dt': 5e-324, 'save_freq': 5e-324}] *)
Definition smallest_step_options : sim_options float :=
  {| opt_dt := Some (PyFloat smallest_float);
     opt_save_freq := Some (PyFloat smallest_float);
     opt_horizon := None; opt_threshold_eqn := None; opt_x := None |}.

(** What holds at the loop test after [k] steps, for [k + 1 < 2^53]: the
    time is [k] units, the next save is due at [k + 1] units, the flag is
    clear, the state remembers the time, and the time is the last one
    recorded. *)
Definition on_grid_inv (k : positive) (st : loop_state float) : Prop :=
  ls_t st = on_grid k
  /\ ls_next_save st = on_grid (k + 1)
  /\ ls_threshold_met st = false
  /\ ls_x st !! "last" = Some (on_grid k)
  /\ last (times (ls_history st)) = Some (on_grid k).

(** * Properties *)

(** ** Fuel: a finished run does not depend on it *)

Section Fuel.
Context {R : Type} `{PyNumber R}.

Lemma run_loop_fuel_mono (self : model R) (load : R -> vec R)
    (eqn : R -> vec R -> gmap string bool) (eqn_calls : R -> list (call R))
    (keys : option (list string))
    (dt save_freq horizon : R) (fuel fuel' : nat) (st : loop_state R) :
  fuel <= fuel' ->
  snd (run_loop self load eqn eqn_calls keys dt save_freq horizon fuel st) <> OutOfFuel ->
  run_loop self load eqn eqn_calls keys dt save_freq horizon fuel' st
  = run_loop self load eqn eqn_calls keys dt save_freq horizon fuel st.
Proof.
  revert fuel' st. induction fuel as [|fuel IH]; intros fuel' st Hle Hfin.
  - cbn in Hfin. destruct fuel'; cbn; destruct (loop_test horizon st);
      try reflexivity; exfalso; apply Hfin; reflexivity.
  - destruct fuel' as [|fuel']; [lia|]. cbn in Hfin |- *.
    destruct (loop_test horizon st); [|reflexivity].
    destruct (loop_body _ _ _ _ _ _ _ st) as [[? ?]|st1]; [reflexivity|].
    apply IH; [lia|assumption].
Qed.

Lemma run_fuel_mono (self : model R) (load : R -> vec R)
    (eqn : R -> vec R -> gmap string bool) (eqn_calls : R -> list (call R))
    (keys : option (list string))
    (dt save_freq horizon : R) (fuel fuel' : nat) (st : loop_state R) :
  fuel <= fuel' ->
  snd (run self load eqn eqn_calls keys dt save_freq horizon fuel st) <> OutOfFuel ->
  run self load eqn eqn_calls keys dt save_freq horizon fuel' st
  = run self load eqn eqn_calls keys dt save_freq horizon fuel st.
Proof.
  intros Hle Hfin. unfold run in *.
  rewrite (run_loop_fuel_mono _ _ _ _ _ _ _ _ fuel fuel' st Hle); [reflexivity|].
  destruct (run_loop _ _ _ _ _ _ _ _ fuel st) as [? [?| |]]; cbn in *;
    [discriminate..|exfalso; apply Hfin; reflexivity].
Qed.

Lemma simulate_to_threshold_fuel_mono (self : model R)
    (future_loading_eqn : pyarg R (R -> vec R)) (first_output : vec R)
    (options : sim_options R) (threshold_keys : option (list string))
    (fuel fuel' : nat) :
  fuel <= fuel' ->
  snd (simulate_to_threshold self future_loading_eqn first_output options
         threshold_keys fuel) <> OutOfFuel ->
  simulate_to_threshold self future_loading_eqn first_output options
    threshold_keys fuel'
  = simulate_to_threshold self future_loading_eqn first_output options
      threshold_keys fuel.
Proof.
  intros Hle. unfold simulate_to_threshold.
  destruct (validate_inputs _ _ _ _); [reflexivity|].
  destruct (validate_config _) as [|[dt save_freq]]; [reflexivity|].
  destruct (_ ≫= _); [|reflexivity].
  apply run_fuel_mono, Hle.
Qed.

Lemma simulate_to_fuel_mono (self : model R) (time : pyval R)
    (future_loading_eqn : pyarg R (R -> vec R)) (first_output : vec R)
    (options : sim_options R) (fuel fuel' : nat) :
  fuel <= fuel' ->
  snd (simulate_to self time future_loading_eqn first_output options fuel)
    <> OutOfFuel ->
  simulate_to self time future_loading_eqn first_output options fuel'
  = simulate_to self time future_loading_eqn first_output options fuel.
Proof.
  intros Hle. unfold simulate_to.
  destruct (_ || _); [reflexivity|].
  destruct (validate_config _); [reflexivity|].
  apply simulate_to_threshold_fuel_mono, Hle.
Qed.
End Fuel.

(** ** Exact arithmetic: the tests of the driver as propositions *)

Section ExactTests.
Local Open Scope Q_scope.

Lemma num_ltb_Q (a b : Q) : num_ltb a b = true <-> a < b.
Proof.
  cbn. rewrite negb_true_iff. split.
  - intros Hf. apply Qnot_le_lt. intros Hle.
    apply Qle_bool_iff in Hle. congruence.
  - intros Hlt. destruct (Qle_bool b a) eqn:E; [|reflexivity].
    apply Qle_bool_iff in E. lra.
Qed.

Lemma num_leb_Q (a b : Q) : num_leb a b = true <-> a <= b.
Proof. cbn. apply Qle_bool_iff. Qed.

Lemma num_eqb_Q (a b : Q) : num_eqb a b = true <-> a == b.
Proof. cbn. apply Qeq_bool_iff. Qed.

Lemma num_ltb_Q_false (a b : Q) : num_ltb a b = false <-> b <= a.
Proof.
  rewrite <- not_true_iff_false, num_ltb_Q. split; [apply Qnot_lt_le|lra].
Qed.

Lemma num_leb_Q_false (a b : Q) : num_leb a b = false <-> b < a.
Proof.
  rewrite <- not_true_iff_false, num_leb_Q. split; [apply Qnot_le_lt|lra].
Qed.

Lemma num_eqb_Q_false (a b : Q) : num_eqb a b = false <-> ~ a == b.
Proof. rewrite <- not_true_iff_false, num_eqb_Q. reflexivity. Qed.

(** What a successful "Configuration validation" says of an entry. *)
Lemma require_positive_number_Q (name : string) (entry : option (pyval Q)) (r : Q) :
  require_positive_number name entry = inr r ->
  exists v, entry = Some v /\ type_is_int_or_float v = true
            /\ as_number v = Some r /\ 0 < r.
Proof.
  unfold require_positive_number. intros Hr.
  destruct entry as [v|]; [|discriminate].
  destruct (type_is_int_or_float v) eqn:Ety; [|discriminate]. cbn [negb] in Hr.
  destruct (as_number v) as [r'|] eqn:Enum; [|discriminate].
  destruct (num_leb r' (num_of_Z 0)) eqn:Ele; [discriminate|].
  injection Hr as <-. apply num_leb_Q_false in Ele.
  exists v. repeat split; assumption.
Qed.

Lemma validate_config_Q (config : sim_options Q) (dt save_freq : Q) :
  validate_config config = inr (dt, save_freq) ->
  0 < dt /\ 0 < save_freq.
Proof.
  unfold validate_config, bind_exn. intros Hv.
  destruct (require_positive_number "dt" _) as [|dt'] eqn:Edt; [discriminate|].
  destruct (require_positive_number "save_freq" _) as [|sf'] eqn:Esf; [discriminate|].
  injection Hv as <- <-.
  apply require_positive_number_Q in Edt as (? & _ & _ & _ & ?).
  apply require_positive_number_Q in Esf as (? & _ & _ & _ & ?).
  split; assumption.
Qed.
End ExactTests.

(** ** Sequences of timestamps *)

Section Timestamps.
Local Open Scope Q_scope.

Lemma strictly_increasing_singleton (t : Q) : strictly_increasing [t].
Proof.
  intros i j a b Hij Hi Hj.
  apply lookup_lt_Some in Hj. cbn in Hj. lia.
Qed.

Lemma strictly_increasing_snoc (l : list Q) (t : Q) :
  strictly_increasing l -> Forall (fun s => s < t) l ->
  strictly_increasing (l ++ [t]).
Proof.
  intros Hinc Hall i j a b Hij Hi Hj.
  destruct (decide (j < length l)%nat) as [Hlt|Hge].
  - rewrite lookup_app_l in Hi by lia. rewrite lookup_app_l in Hj by lia.
    eapply (Hinc i j); eassumption.
  - assert (j = length l) as ->.
    { apply lookup_lt_Some in Hj. rewrite length_app in Hj. cbn in Hj. lia. }
    rewrite lookup_app_l in Hi by lia.
    rewrite lookup_app_r, Nat.sub_diag in Hj by lia. cbn in Hj.
    injection Hj as <-.
    rewrite Forall_forall in Hall. apply Hall.
    eapply list_elem_of_lookup_2. eassumption.
Qed.

(** In an increasing sequence every entry is bounded by the last. *)
Lemma strictly_increasing_last (l : list Q) (t_last : Q) :
  strictly_increasing l -> last l = Some t_last ->
  forall i s, l !! i = Some s -> (S i < length l)%nat -> s < t_last.
Proof.
  intros Hinc Hlast i s Hi Hlt. rewrite last_lookup in Hlast.
  eapply (Hinc i (pred (length l))); [lia|eassumption..].
Qed.



End Timestamps.

(** ** The loop in exact arithmetic *)

Section ExactLoop.
Local Open Scope Q_scope.

Variable self : model Q.
Variable load : Q -> vec Q.
Variable threshold_met_eqn : Q -> vec Q -> gmap string bool.
Variable eqn_calls : Q -> list (call Q).
Variable threshold_keys : option (list string).
Variables dt save_freq horizon : Q.
Hypothesis dt_pos : 0 < dt.

Local Abbreviation body :=
  (loop_body self load threshold_met_eqn eqn_calls threshold_keys dt save_freq).
Local Abbreviation loop :=
  (run_loop self load threshold_met_eqn eqn_calls threshold_keys dt save_freq horizon).

Lemma lengths_agree_record_point (h : history Q) (t : Q) (u x : vec Q) :
  lengths_agree h -> lengths_agree (record_point self h t u x).
Proof.
  unfold lengths_agree. cbn. rewrite !length_app. cbn. lia.
Qed.

Lemma head_snoc_Some {A : Type} (l : list A) (a b : A) :
  head l = Some a -> head (l ++ [b]) = Some a.
Proof. destruct l; [discriminate|trivial]. Qed.

(** The time advances by exactly [dt] in one pass. *)
Lemma loop_body_time (st st' : loop_state Q) :
  body st = inr st' -> ls_t st' = ls_t st + dt.
Proof.
  unfold loop_body. intros Hb.
  destruct (check_thresholds _ _); [discriminate|].
  destruct (num_leb _ _); injection Hb as <-; reflexivity.
Qed.

(** The state advances by one application of [next_state]. *)
Lemma loop_body_state (st st' : loop_state Q) :
  body st = inr st' ->
  ls_x st' = next_state self (ls_t st + dt) (ls_x st) (load (ls_t st + dt)) dt.
Proof.
  unfold loop_body. intros Hb.
  destruct (check_thresholds _ _); [discriminate|].
  destruct (num_leb _ _); injection Hb as <-; reflexivity.
Qed.

Lemma loop_body_inv (st st' : loop_state Q) :
  loop_inv dt horizon st -> loop_test horizon st = true -> body st = inr st' ->
  loop_inv dt horizon st'.
Proof.
  intros [Hlen Hhd Hinc Hbd Hhor Hcur] Htest Hb.
  apply andb_true_iff in Htest as [_ Hlt]. apply num_ltb_Q in Hlt.
  unfold loop_body in Hb.
  destruct (check_thresholds _ _) as [|met]; [discriminate|].
  assert (Forall (fun s => s < ls_t st + dt) (times (ls_history st))) as Hbelow.
  { eapply Forall_impl; [exact Hbd|]. cbn. intros s Hs. lra. }
  destruct (num_leb _ _) eqn:Esave; injection Hb as <-; constructor; cbn.
  - apply lengths_agree_record_point, Hlen.
  - apply head_snoc_Some, Hhd.
  - apply strictly_increasing_snoc; assumption.
  - apply Forall_app. split.
    + eapply Forall_impl; [exact Hbelow|]. cbn. intros s Hs. lra.
    + repeat constructor. lra.
  - lra.
  - intros t_last _ _. apply last_snoc.
  - exact Hlen.
  - exact Hhd.
  - exact Hinc.
  - eapply Forall_impl; [exact Hbelow|]. cbn. intros s Hs. lra.
  - lra.
  - intros t_last Hlast Heq. exfalso.
    rewrite last_lookup in Hlast.
    apply list_elem_of_lookup_2 in Hlast.
    rewrite Forall_forall in Hbelow. specialize (Hbelow _ Hlast). cbn in Hbelow. lra.
Qed.

(** The invariant holds at the loop exit, where the test is false. *)
Lemma run_loop_inv (fuel : nat) (st st' : loop_state Q) (calls : list (call Q)) :
  loop_inv dt horizon st -> loop fuel st = (calls, Return st') ->
  loop_inv dt horizon st' /\ loop_test horizon st' = false.
Proof.
  revert st. induction fuel as [|fuel IH]; intros st Hinv Hrun; cbn in Hrun.
  - destruct (loop_test horizon st) eqn:Etest; [discriminate|].
    injection Hrun as _ <-. split; assumption.
  - destruct (loop_test horizon st) eqn:Etest.
    + destruct (body st) as [[? ?]|st1] eqn:Eb; [discriminate|].
      eapply IH; [|exact Hrun]. eapply loop_body_inv; eassumption.
    + injection Hrun as _ <-. split; assumption.
Qed.

(** Enough fuel: the loop ends once [t] reaches the horizon, which
    takes at most [(horizon - t) / dt] passes. *)
Lemma run_loop_terminates (fuel : nat) (st : loop_state Q) :
  horizon - ls_t st <= inject_Z (Z.of_nat fuel) * dt ->
  snd (loop fuel st) <> OutOfFuel.
Proof.
  revert st. induction fuel as [|fuel IH]; intros st Hfuel; cbn [run_loop].
  - destruct (loop_test horizon st) eqn:Etest; [|discriminate].
    apply andb_true_iff in Etest as [_ Hlt]. apply num_ltb_Q in Hlt.
    change (inject_Z (Z.of_nat 0)) with 0 in Hfuel. lra.
  - destruct (loop_test horizon st) eqn:Etest; [|discriminate].
    destruct (body st) as [[? ?]|st1] eqn:Eb; [discriminate|].
    apply IH. rewrite (loop_body_time _ _ Eb).
    rewrite Nat2Z.inj_succ, <- Z.add_1_r, inject_Z_plus in Hfuel.
    change (inject_Z 1) with 1 in Hfuel. lra.
Qed.

Lemma enough_fuel_reaches_horizon :
  horizon <= inject_Z (Z.of_nat (enough_fuel dt horizon)) * dt.
Proof.
  unfold enough_fuel.
  assert (horizon / dt <= inject_Z (Z.of_nat (Z.to_nat (Qceiling (horizon / dt)))))
    as Hc.
  { eapply Qle_trans; [apply Qle_ceiling|].
    rewrite <- Zle_Qle. lia. }
  apply (Qmult_le_compat_r _ _ dt) in Hc; [|lra].
  assert (horizon / dt * dt == horizon) as Hd by (field; lra).
  lra.
Qed.

(** What the final save makes of a loop exit. *)
Lemma finalize_spec (st : loop_state Q) (calls : list (call Q)) (h : history Q) :
  loop_inv dt horizon st -> finalize self st = (calls, Return h) ->
  lengths_agree h
  /\ head (times h) = Some 0
  /\ strictly_increasing (times h)
  /\ (exists t_last, last (times h) = Some t_last /\ t_last == ls_t st)
  /\ last (saved_states h) = Some (ls_x st).
Proof.
  intros [Hlen Hhd Hinc Hbd Hhor Hcur] Hfin. unfold finalize in Hfin.
  destruct (last (times (ls_history st))) as [t_last|] eqn:Elast; [|discriminate].
  assert (t_last <= ls_t st) as Hle.
  { rewrite Forall_forall in Hbd. apply Hbd.
    rewrite last_lookup in Elast. eapply list_elem_of_lookup_2, Elast. }
  destruct (num_eqb t_last (ls_t st)) eqn:Eeq; cbn [negb] in Hfin;
    injection Hfin as _ <-.
  - apply num_eqb_Q in Eeq.
    split; [exact Hlen|]. split; [exact Hhd|]. split; [exact Hinc|].
    split; [exists t_last; split; [exact Elast|exact Eeq]|].
    eapply Hcur; [reflexivity|exact Eeq].
  - apply num_eqb_Q_false in Eeq. cbn.
    split; [apply lengths_agree_record_point, Hlen|].
    split; [apply head_snoc_Some, Hhd|].
    split; [|split; [exists (ls_t st); split; [apply last_snoc|reflexivity]
                    |apply last_snoc]].
    apply strictly_increasing_snoc; [assumption|].
    apply Forall_forall. intros s Hs.
    apply list_elem_of_lookup_1 in Hs as [i Hi].
    destruct (decide (S i < length (times (ls_history st)))%nat) as [Hlt|Hge].
    + pose proof (strictly_increasing_last _ _ Hinc Elast i s Hi Hlt). lra.
    + assert (s = t_last) as ->.
      { rewrite last_lookup in Elast. apply lookup_lt_Some in Hi as Hi'.
        replace (pred (length (times (ls_history st)))) with i in Elast by lia.
        congruence. }
      apply Qle_lteq in Hle as [?|?]; [assumption|contradiction].
Qed.
End ExactLoop.

(** ** Runs of [simulate_to_threshold] in exact arithmetic *)

Section ExactRuns.
Local Open Scope Q_scope.

Lemma finalize_not_out_of_fuel (self : model Q) (st : loop_state Q) :
  snd (finalize self st) <> OutOfFuel.
Proof.
  unfold finalize. destruct (last _); [|discriminate].
  destruct (negb _); discriminate.
Qed.

(** A returning [run] is a returning loop followed by the final save. *)
Lemma run_Return (self : model Q) (load : Q -> vec Q)
    (eqn : Q -> vec Q -> gmap string bool) (eqn_calls : Q -> list (call Q))
    (keys : option (list string))
    (dt save_freq horizon : Q) (fuel : nat) (st : loop_state Q)
    (calls : list (call Q)) (h : history Q) :
  run self load eqn eqn_calls keys dt save_freq horizon fuel st = (calls, Return h) ->
  exists calls' st',
    run_loop self load eqn eqn_calls keys dt save_freq horizon fuel st = (calls', Return st')
    /\ finalize self st' = (calls, Return h).
Proof.
  unfold run. destruct (run_loop _ _ _ _ _ _ _ _ _ _) as [calls' [st'| |]];
    [|discriminate..].
  intros Hfin. exists calls', st'. split; [reflexivity|assumption].
Qed.

Lemma run_terminates (self : model Q) (load : Q -> vec Q)
    (eqn : Q -> vec Q -> gmap string bool) (eqn_calls : Q -> list (call Q))
    (keys : option (list string))
    (dt save_freq horizon : Q) (st : loop_state Q) :
  0 < dt -> ls_t st == 0 ->
  snd (run self load eqn eqn_calls keys dt save_freq horizon (enough_fuel dt horizon) st)
    <> OutOfFuel.
Proof.
  intros Hdt Ht0. unfold run.
  pose proof (run_loop_terminates self load eqn eqn_calls keys dt save_freq horizon
                (enough_fuel dt horizon) st) as Hterm.
  destruct (run_loop _ _ _ _ _ _ _ _ _ _) as [calls' [st'| |]]; cbn in *.
  - apply finalize_not_out_of_fuel.
  - discriminate.
  - exfalso. apply Hterm; [|reflexivity].
    pose proof (enough_fuel_reaches_horizon dt horizon Hdt). lra.
Qed.

(** The point recorded at [t = 0] satisfies the loop invariant. *)
Lemma setup_inv (self : model Q) (load : Q -> vec Q) (first_output : vec Q)
    (config : sim_options Q) (dt save_freq horizon : Q) :
  0 < dt -> 0 < horizon ->
  loop_inv dt horizon (setup self load first_output config save_freq).
Proof.
  intros Hdt Hhor. constructor; cbn.
  - repeat split.
  - reflexivity.
  - apply strictly_increasing_singleton.
  - repeat constructor. change (inject_Z 0) with 0. lra.
  - change (inject_Z 0) with 0. lra.
  - reflexivity.
Qed.
End ExactRuns.


(** ** The linear scenario *)

Lemma linear_run_21 : snd (linear_run 21) = Return linear_history.
Proof. vm_compute. reflexivity. Qed.

Lemma linear_run_finished (fuel : nat) (calls : list (call Q)) (h : history Q) :
  linear_run fuel = (calls, Return h) -> h = linear_history.
Proof.
  intros Hrun. pose proof linear_run_21 as H21.
  destruct (Nat.le_ge_cases fuel 21) as [Hle|Hge].
  - unfold linear_run in *.
    rewrite (simulate_to_threshold_fuel_mono _ _ _ _ _ fuel 21 Hle) in H21.
    + rewrite Hrun in H21. cbn in H21. congruence.
    + rewrite Hrun. discriminate.
  - unfold linear_run in *.
    rewrite (simulate_to_threshold_fuel_mono _ _ _ _ _ 21 fuel Hge) in Hrun.
    + rewrite Hrun in H21. cbn in H21. congruence.
    + rewrite H21. discriminate.
Qed.

(** C1, as the code runs it.  In the linear scenario the call returns
    (given at least 21 passes of fuel) the timestamps [0, 5, 10, 15, 20, 21]:
    at [t = 20] the position is 100 and the event state is [0], which is not
    below zero, so the loop takes one more step and stops at [t = 21] with
    position 105; that last point is appended by the final save. *)
Theorem linear_scenario_stops_at_21 (k : nat) :
  exists calls h,
    linear_run (21 + k) = (calls, Return h)
    /\ times h = [0; 5; 10; 15; 20; 21]%Q
    /\ last (times h) = Some 21%Q
    /\ last (saved_states h) = Some {[ "pos" := 105%Q ]}
    /\ saved_event_states h !! 4%nat ≫= (.!! "EOL") = Some (1 - 100 / 100)%Q.
Proof.
  pose proof linear_run_21 as H21. unfold linear_run in *.
  rewrite (simulate_to_threshold_fuel_mono _ _ _ _ _ 21 (21 + k));
    [|lia|rewrite H21; discriminate].
  destruct (simulate_to_threshold _ _ _ _ _ 21) as [calls o]. cbn in H21. subst o.
  exists calls, linear_history. repeat split.
Qed.

(** C1, as claimed, fails: no run of the linear scenario returns the
    timestamps [0, 5, 10, 15, 20] (compared as numbers); and the same run
    in binary64 returns the six timestamps [0, 5, 10, 15, 20, 21]. *)
Lemma linear_scenario_not_stopping_at_20 :
  (~ exists fuel calls h,
        linear_run fuel = (calls, Return h)
        /\ Forall2 Qeq (times h) [0; 5; 10; 15; 20]%Q)
  /\ exists h,
      snd (linear_run_binary64 21) = Return h
      /\ Forall2 (fun a b => PrimFloat.eqb a b = true) (times h)
           [0; 5; 10; 15; 20; 21]%float.
Proof.
  split.
  - intros (fuel & calls & h & Hrun & Htimes).
    apply linear_run_finished in Hrun. subst h.
    apply Forall2_length in Htimes. cbn in Htimes. discriminate.
  - eexists. split; [vm_compute; reflexivity|].
    repeat constructor.
Qed.


(** ** The time accumulation in binary64 *)

Section Binary64Grid.
Local Open Scope Z_scope.

Lemma digits2_pos_bound (m n : positive) :
  Z.pos m < 2 ^ Z.pos n -> Z.pos (digits2_pos m) <= Z.pos n.
Proof.
  revert n. induction m as [m IH|m IH|]; intros n Hm; cbn [digits2_pos].
  - destruct (Pos.eq_dec n 1%positive) as [->|Hn]; [cbn in Hm; lia|].
    assert (Z.pos n = Z.succ (Z.pos (Pos.pred n))) as Hn' by lia.
    rewrite Hn', Z.pow_succ_r in Hm by lia.
    specialize (IH (Pos.pred n)). lia.
  - destruct (Pos.eq_dec n 1%positive) as [->|Hn]; [cbn in Hm; lia|].
    assert (Z.pos n = Z.succ (Z.pos (Pos.pred n))) as Hn' by lia.
    rewrite Hn', Z.pow_succ_r in Hm by lia.
    specialize (IH (Pos.pred n)). lia.
  - lia.
Qed.

Lemma fexp_on_grid (m : positive) :
  Z.pos m < 2 ^ 53 ->
  fexp prec emax (Z.pos (digits2_pos m) + grid_exponent) = grid_exponent.
Proof.
  intros Hm. pose proof (digits2_pos_bound m 53 Hm) as Hd.
  unfold fexp, emin, prec, emax, grid_exponent. lia.
Qed.

Lemma on_grid_valid (m : positive) :
  Z.pos m < 2 ^ 53 -> valid_binary (S754_finite false m grid_exponent) = true.
Proof.
  intros Hm. unfold SpecFloat.valid_binary, bounded, canonical_mantissa.
  rewrite (fexp_on_grid m Hm). reflexivity.
Qed.

Lemma Prim2SF_on_grid (m : positive) :
  Z.pos m < 2 ^ 53 -> Prim2SF (on_grid m) = S754_finite false m grid_exponent.
Proof. intros Hm. apply Prim2SF_SF2Prim, on_grid_valid, Hm. Qed.

(** Below [2^53] units the sums are exact: adding the unit moves to the
    next number of the grid. *)
Lemma on_grid_add (m : positive) :
  Z.pos m + 1 < 2 ^ 53 ->
  PrimFloat.add (on_grid m) (on_grid 1) = on_grid (m + 1)%positive.
Proof.
  intros Hm. apply Prim2SF_inj.
  rewrite FloatAxioms.add_spec, !Prim2SF_on_grid by lia.
  unfold SF64add, SFadd.
  rewrite Z.min_id. unfold shl_align. rewrite Z.sub_diag. cbn [fst cond_Zopp].
  change (Z.pos m + 1)%Z with (Z.pos (m + 1)).
  unfold binary_normalize, binary_round.
  rewrite (fexp_on_grid (m + 1)) by lia.
  unfold shl_align. rewrite Z.sub_diag.
  unfold binary_round_aux, shr_fexp. cbn [Zdigits2 shr_record_of_loc].
  rewrite (fexp_on_grid (m + 1)) by lia.
  rewrite Z.sub_diag. cbn [shr shr_m loc_of_shr_record round_nearest_even Zdigits2
                            shr_record_of_loc].
  rewrite (fexp_on_grid (m + 1)) by lia.
  rewrite Z.sub_diag. cbn [shr shr_m]. reflexivity.
Qed.

Lemma on_grid_ltb (m : positive) (y : float) (my : positive) (ey : Z) :
  Z.pos m < 2 ^ 53 -> Prim2SF y = S754_finite false my ey -> grid_exponent < ey ->
  PrimFloat.ltb (on_grid m) y = true.
Proof.
  intros Hm Hy He. rewrite FloatAxioms.ltb_spec, Prim2SF_on_grid, Hy by exact Hm.
  unfold SFltb, SFcompare.
  assert ((grid_exponent ?= ey) = Lt) as -> by (apply Z.compare_lt_iff; exact He).
  reflexivity.
Qed.

Lemma on_grid_leb_refl (m : positive) :
  Z.pos m < 2 ^ 53 -> PrimFloat.leb (on_grid m) (on_grid m) = true.
Proof.
  intros Hm. rewrite FloatAxioms.leb_spec, Prim2SF_on_grid by exact Hm.
  unfold SFleb, SFcompare. rewrite Z.compare_refl.
  change (Pos.compare_cont Eq m m) with (Pos.compare m m). rewrite Pos.compare_refl.
  reflexivity.
Qed.

Lemma on_grid_eqb_succ (m : positive) :
  Z.pos m + 1 < 2 ^ 53 ->
  PrimFloat.eqb (on_grid m) (on_grid (m + 1)%positive) = false.
Proof.
  intros Hm. rewrite FloatAxioms.eqb_spec, !Prim2SF_on_grid by lia.
  unfold SFeqb, SFcompare. rewrite Z.compare_refl.
  change (Pos.compare_cont Eq m (m + 1)) with (Pos.compare m (m + 1)).
  assert ((m ?= m + 1)%positive = Lt) as -> by (apply Pos.compare_lt_iff; lia).
  reflexivity.
Qed.
End Binary64Grid.

(** ** A run that reaches the stall *)

Section StallRun.

Local Abbreviation dt := smallest_float.
Local Abbreviation horizon := (num_of_Z (10 ^ 100) : float).
Local Abbreviation config := (update simulate_to_threshold_defaults smallest_step_options).
Local Abbreviation body :=
  (loop_body stall_watch no_load (threshold_met stall_watch)
     (threshold_eqn_calls stall_watch config) None dt dt).
Local Abbreviation loop :=
  (run_loop stall_watch no_load (threshold_met stall_watch)
     (threshold_eqn_calls stall_watch config) None dt dt horizon).

(** One pass of the loop body, when the save test holds: the time
    advances by one addition, the point is recorded, and the flag says
    whether the new time equals the last one. *)
Lemma stall_watch_pass (st : loop_state float) (t_last : float) :
  ls_x st !! "last" = Some t_last ->
  num_leb (ls_next_save st) (ls_t st + dt)%float = true ->
  exists st',
    body st = inr st'
    /\ ls_t st' = (ls_t st + dt)%float
    /\ ls_next_save st' = (ls_next_save st + dt)%float
    /\ ls_x st' !! "last" = Some (ls_t st + dt)%float
    /\ ls_threshold_met st' = PrimFloat.eqb t_last (ls_t st + dt)
    /\ times (ls_history st') = times (ls_history st) ++ [(ls_t st + dt)%float].
Proof.
  intros Hlast Hsave. unfold loop_body.
  change (num_add (ls_t st) dt) with (ls_t st + dt)%float.
  rewrite Hsave.
  assert (check_thresholds None
            (threshold_met stall_watch (ls_t st + dt)%float
               (next_state stall_watch (ls_t st + dt)%float (ls_x st)
                  (no_load (ls_t st + dt)%float) dt))
          = inr (PrimFloat.eqb t_last (ls_t st + dt))) as ->.
  { unfold threshold_met. cbn [threshold_met_attr stall_watch next_state].
    rewrite Hlast. cbn [default from_option id].
    destruct (PrimFloat.eqb t_last (ls_t st + dt)); vm_compute; reflexivity. }
  eexists. split; [reflexivity|]. cbn [ls_t ls_next_save ls_x ls_threshold_met ls_history].
  split; [reflexivity|]. split; [reflexivity|]. split.
  - cbn [next_state stall_watch]. apply lookup_insert_eq.
  - split; reflexivity.
Qed.

Lemma smallest_float_on_grid : smallest_float = on_grid 1.
Proof. vm_compute. reflexivity. Qed.

Lemma horizon_above_grid (k : positive) :
  (Z.pos k < 2 ^ 53)%Z -> num_ltb (on_grid k) horizon = true.
Proof.
  intros Hk. apply (on_grid_ltb k _ 5147557589468029 280); [exact Hk| |reflexivity].
  vm_compute. reflexivity.
Qed.

Lemma on_grid_step (k : positive) (st : loop_state float) :
  (Z.pos k + 2 < 2 ^ 53)%Z -> on_grid_inv k st ->
  loop_test horizon st = true
  /\ exists st', body st = inr st' /\ on_grid_inv (k + 1) st'.
Proof.
  intros Hk (Ht & Hsave & Hflag & Hlast & Htimes). split.
  - unfold loop_test. rewrite Hflag, Ht. cbn [negb andb].
    apply horizon_above_grid. lia.
  - assert ((ls_t st + dt)%float = on_grid (k + 1)) as Hnext
      by (rewrite Ht, smallest_float_on_grid; apply on_grid_add; lia).
    destruct (stall_watch_pass st (on_grid k) Hlast)
      as (st' & Hb & Ht' & Hsave' & Hlast' & Hflag' & Htimes').
    { rewrite Hnext, Hsave. apply on_grid_leb_refl. lia. }
    exists st'. split; [exact Hb|]. unfold on_grid_inv.
    rewrite Ht', Hsave', Hlast', Hflag', Htimes', Hnext, Hsave, last_snoc.
    split; [reflexivity|]. split.
    { rewrite smallest_float_on_grid. apply on_grid_add. lia. }
    split; [apply on_grid_eqb_succ; lia|]. split; reflexivity.
Qed.

(** [j] passes from a state on the grid. *)
Lemma on_grid_steps (j : nat) (k : positive) (st : loop_state float) :
  (Z.pos k + Z.of_nat j + 1 < 2 ^ 53)%Z -> on_grid_inv k st ->
  exists st',
    on_grid_inv (Z.to_pos (Z.pos k + Z.of_nat j)) st'
    /\ forall fuel, loop (j + fuel) st = loop fuel st'.
Proof.
  revert k st. induction j as [|j IH]; intros k st Hk Hinv.
  - exists st. split; [|reflexivity].
    replace (Z.to_pos (Z.pos k + Z.of_nat 0)) with k by lia. exact Hinv.
  - destruct (on_grid_step k st) as (Htest & st1 & Hb & Hinv1); [lia|exact Hinv|].
    destruct (IH (k + 1)%positive st1) as (st' & Hinv' & Hloop); [lia|exact Hinv1|].
    exists st'. split.
    + replace (Z.to_pos (Z.pos k + Z.of_nat (S j)))
        with (Z.to_pos (Z.pos (k + 1) + Z.of_nat j)) by lia.
      exact Hinv'.
    + intros fuel. cbn [Nat.add run_loop]. rewrite Htest, Hb. apply Hloop.
Qed.

(** The first pass leads from the setup onto the grid. *)
Lemma first_pass_on_grid (fuel : nat) :
  exists st1,
    on_grid_inv 1 st1
    /\ loop (S fuel)
         (setup stall_watch no_load {[ "last" := 0%float ]} config dt)
       = loop fuel st1.
Proof.
  destruct (stall_watch_pass
              (setup stall_watch no_load {[ "last" := 0%float ]} config dt) 0%float)
    as (st1 & Hb & Ht & Hsave & Hlast & Hflag & Htimes).
  { vm_compute. reflexivity. }
  { vm_compute. reflexivity. }
  exists st1. split.
  - unfold on_grid_inv. rewrite Ht, Hsave, Hlast, Hflag, Htimes, last_snoc.
    repeat split; vm_compute; reflexivity.
  - cbn [run_loop]. rewrite Hb.
    assert (loop_test horizon
              (setup stall_watch no_load {[ "last" := 0%float ]} config dt) = true)
      as -> by (vm_compute; reflexivity).
    reflexivity.
Qed.

(** The last three passes: from [2^53 - 2] units the time reaches the end
    of the grid, then [2^-1021], and then stays there; the pass that does
    not advance records the time again and sets the flag. *)
Lemma last_passes (st : loop_state float) :
  on_grid_inv 9007199254740990 st ->
  exists (st' : loop_state float) (l : list float),
    loop 3 st = (ls_calls st', Return st')
    /\ ls_t st' = stall_time
    /\ times (ls_history st') = l ++ [stall_time; stall_time].
Proof.
  intros (Ht & Hsave & Hflag & Hlast & Htimes).
  destruct (stall_watch_pass st _ Hlast)
    as (st1 & Hb1 & Ht1 & Hsave1 & Hlast1 & Hflag1 & Htimes1).
  { rewrite Ht, Hsave. vm_compute. reflexivity. }
  destruct (stall_watch_pass st1 _ Hlast1)
    as (st2 & Hb2 & Ht2 & Hsave2 & Hlast2 & Hflag2 & Htimes2).
  { rewrite Ht1, Hsave1, Ht, Hsave. vm_compute. reflexivity. }
  destruct (stall_watch_pass st2 _ Hlast2)
    as (st3 & Hb3 & Ht3 & Hsave3 & Hlast3 & Hflag3 & Htimes3).
  { rewrite Ht2, Hsave2, Ht1, Hsave1, Ht, Hsave. vm_compute. reflexivity. }
  assert (ls_t st2 = stall_time) as Hst2
    by (rewrite Ht2, Ht1, Ht; vm_compute; reflexivity).
  assert (ls_t st3 = stall_time) as Hst3
    by (rewrite Ht3, Hst2; vm_compute; reflexivity).
  exists st3, (times (ls_history st1)). split; [|split].
  - cbn [run_loop].
    assert (loop_test horizon st = true) as ->.
    { unfold loop_test. rewrite Hflag, Ht. vm_compute. reflexivity. }
    rewrite Hb1.
    assert (loop_test horizon st1 = true) as ->.
    { unfold loop_test. rewrite Hflag1, Ht1, Ht. vm_compute. reflexivity. }
    rewrite Hb2.
    assert (loop_test horizon st2 = true) as ->.
    { unfold loop_test. rewrite Hflag2, Hst2, Ht1, Ht. vm_compute. reflexivity. }
    rewrite Hb3.
    assert (loop_test horizon st3 = false) as ->.
    { unfold loop_test. rewrite Hflag3, Hst3, Hst2, Ht1, Ht. vm_compute. reflexivity. }
    reflexivity.
  - exact Hst3.
  - rewrite Htimes3, Htimes2, Hst2, <- Ht2, Hst2, <- app_assoc.
    assert (PrimFloat.add stall_time dt = stall_time) as -> by (vm_compute; reflexivity).
    reflexivity.
Qed.
End StallRun.

(** C2, as claimed, fails in binary64.  With [dt = save_freq = 5e-324]
    (the smallest positive float; both pass validation) and the default
    horizon [1e100], the timestamps are exact multiples of [5e-324] for
    [2^53] steps; the next sum [2^-1021 + 5e-324] is rounded back to
    [2^-1021], so the time does not advance, the save test holds again and
    the same timestamp is recorded a second time.  The model stops the run
    there: the returned timestamps end with [2^-1021] twice, so they are not
    strictly increasing and the final time appears twice. *)
Lemma binary64_stalled_time_is_recorded_twice :
  validate_config (update simulate_to_threshold_defaults smallest_step_options)
  = inr (smallest_float, smallest_float)
  /\ num_ltb (num_of_Z 0) smallest_float = true
  /\ PrimFloat.add stall_time smallest_float = stall_time
  /\ num_ltb stall_time stall_time = false
  /\ exists (fuel : nat) (h : history float) (l : list float),
      snd (simulate_to_threshold stall_watch (Callable no_load) {[ "last" := 0%float ]}
             smallest_step_options None fuel) = Return h
      /\ times h = l ++ [stall_time; stall_time].
Proof.
  split; [vm_compute; reflexivity|]. split; [vm_compute; reflexivity|].
  split; [vm_compute; reflexivity|]. split; [vm_compute; reflexivity|].
  destruct (first_pass_on_grid (Z.to_nat 9007199254740989 + 3)) as (st1 & Hinv1 & Hfirst).
  destruct (on_grid_steps (Z.to_nat 9007199254740989) 1 st1) as (st2 & Hinv2 & Hsteps);
    [rewrite Z2Nat.id by lia; lia|exact Hinv1|].
  replace (Z.to_pos (1 + Z.of_nat (Z.to_nat 9007199254740989)))
    with 9007199254740990%positive in Hinv2 by (rewrite Z2Nat.id by lia; reflexivity).
  destruct (last_passes st2 Hinv2) as (st3 & l & Hlast & Ht3 & Htimes3).
  exists (S (Z.to_nat 9007199254740989 + 3)), (ls_history st3), l.
  split; [|exact Htimes3].
  unfold simulate_to_threshold.
  assert (validate_inputs stall_watch (Callable no_load)
            ({[ "last" := 0%float ]} : vec float) None = inr no_load) as ->
    by (vm_compute; reflexivity).
  assert (validate_config (update simulate_to_threshold_defaults smallest_step_options)
          = inr (smallest_float, smallest_float)) as -> by (vm_compute; reflexivity).
  assert (opt_horizon (update simulate_to_threshold_defaults smallest_step_options)
            ≫= as_number = Some (num_of_Z (10 ^ 100) : float)) as ->
    by reflexivity.
  assert (default (threshold_met stall_watch)
            (opt_threshold_eqn
               (update simulate_to_threshold_defaults smallest_step_options))
          = threshold_met stall_watch) as -> by reflexivity.
  unfold run. rewrite Hfirst, Hsteps, Hlast.
  unfold finalize. rewrite Htimes3, Ht3.
  replace (l ++ [stall_time; stall_time]) with ((l ++ [stall_time]) ++ [stall_time])
    by (rewrite <- app_assoc; reflexivity).
  rewrite last_snoc.
  assert (num_eqb stall_time stall_time = true) as -> by (vm_compute; reflexivity).
  reflexivity.
Qed.


(** ** The termination predicate *)

Section Thresholds.
Context {R : Type} `{PyNumber R}.

(** [any(thresholds_met.values())] *)
Lemma any_values_true (thresholds_met : gmap string bool) :
  existsb id (snd <$> map_to_list thresholds_met) = true
  <-> exists key, thresholds_met !! key = Some true.
Proof.
  rewrite existsb_exists. split.
  - intros (b & Hin & Hb). unfold id in Hb. subst b.
    apply list_elem_of_In, list_elem_of_fmap in Hin as ([key b] & Hb & Hin).
    cbn in Hb. subst b. apply elem_of_map_to_list in Hin. eauto.
  - intros (key & Hkey). exists true. split; [|reflexivity].
    apply list_elem_of_In, list_elem_of_fmap. exists (key, true).
    split; [reflexivity|]. apply elem_of_map_to_list, Hkey.
Qed.

(** [any([thresholds_met[key] for key in threshold_keys])], when every
    named key is in the dictionary. *)
Lemma lookup_each_any (thresholds_met : gmap string bool) (keys : list string) :
  (forall key, key ∈ keys -> is_Some (thresholds_met !! key)) ->
  exists bs, lookup_each thresholds_met keys = inr bs
             /\ (existsb id bs = true
                 <-> exists key, key ∈ keys /\ thresholds_met !! key = Some true).
Proof.
  induction keys as [|key keys IH]; intros Hall.
  - exists []. split; [reflexivity|]. cbn. split; [discriminate|].
    intros (key & Hin & _). inversion Hin.
  - destruct IH as (bs & Hbs & Hany).
    { intros key' Hin. apply Hall. right. exact Hin. }
    destruct (Hall key) as [b Hb]; [left|].
    exists (b :: bs). cbn. rewrite Hb, Hbs. cbn. split; [reflexivity|].
    rewrite orb_true_iff, Hany. unfold id. split.
    + intros [->|(key' & Hin & Hkey')].
      * exists key. split; [left|exact Hb].
      * exists key'. split; [right; exact Hin|exact Hkey'].
    + intros (key' & Hin & Hkey'). inversion Hin; subst.
      * left. congruence.
      * right. eauto.
Qed.

(** A named key that the dictionary lacks makes the lookup raise. *)
Lemma lookup_each_KeyError (thresholds_met : gmap string bool) (keys : list string)
    (e : exn) :
  lookup_each thresholds_met keys = inl e ->
  exists key, key ∈ keys /\ thresholds_met !! key = None /\ e = KeyError key.
Proof.
  induction keys as [|key keys IH]; cbn; [discriminate|].
  destruct (thresholds_met !! key) as [b|] eqn:Hb.
  - destruct (lookup_each thresholds_met keys) as [e'|bs]; cbn; [|discriminate].
    intros [= <-]. destruct IH as (key' & Hin & Hnone & ->); [reflexivity|].
    exists key'. split; [right; exact Hin|]. split; [exact Hnone|reflexivity].
  - intros [= <-]. exists key. split; [left|]. split; [exact Hb|reflexivity].
Qed.

(** The flag that a pass of the loop body leaves is the answer of
    [check_thresholds] at the new time and state. *)
Lemma loop_body_flag (self : model R) (load : R -> vec R)
    (eqn : R -> vec R -> gmap string bool) (eqn_calls : R -> list (call R))
    (keys : option (list string))
    (dt save_freq : R) (st st' : loop_state R) :
  loop_body self load eqn eqn_calls keys dt save_freq st = inr st' ->
  check_thresholds keys (eqn (ls_t st') (ls_x st')) = inr (ls_threshold_met st').
Proof.
  unfold loop_body. intros Hb.
  destruct (check_thresholds _ _) as [|met] eqn:Echeck; [discriminate|].
  destruct (num_leb _ _); injection Hb as <-; cbn; exact Echeck.
Qed.

(** Once the flag is set the loop is over, whatever the horizon. *)
Lemma run_loop_stops_when_met (self : model R) (load : R -> vec R)
    (eqn : R -> vec R -> gmap string bool) (eqn_calls : R -> list (call R))
    (keys : option (list string))
    (dt save_freq horizon : R) (fuel : nat) (st : loop_state R) :
  ls_threshold_met st = true ->
  run_loop self load eqn eqn_calls keys dt save_freq horizon fuel st = (ls_calls st, Return st).
Proof.
  intros Hmet. destruct fuel; cbn; unfold loop_test; rewrite Hmet; reflexivity.
Qed.

(** While the flag is clear only the horizon can end the loop. *)
Lemma loop_test_when_not_met (horizon : R) (st : loop_state R) :
  ls_threshold_met st = false ->
  loop_test horizon st = num_ltb (ls_t st) horizon.
Proof. intros Hmet. unfold loop_test. rewrite Hmet. reflexivity. Qed.
End Thresholds.

Section ThresholdKeys.
Context {R : Type} `{PyNumber R}.

Lemma lookup_each_present (thresholds_met : gmap string bool) (keys : list string)
    (bs : list bool) :
  lookup_each thresholds_met keys = inr bs ->
  forall key, key ∈ keys -> is_Some (thresholds_met !! key).
Proof.
  revert bs. induction keys as [|key keys IH]; intros bs Hbs key' Hin.
  - inversion Hin.
  - cbn in Hbs. destruct (thresholds_met !! key) as [b|] eqn:Hb; [|discriminate].
    destruct (lookup_each thresholds_met keys) as [|bs'] eqn:Hbs'; [discriminate|].
    inversion Hin; subst; [rewrite Hb; eauto|]. eapply IH; [reflexivity|assumption].
Qed.

(** What [check_thresholds] answers, by the truth value of
    [threshold_keys]. *)
Lemma check_thresholds_true (threshold_keys : option (list string))
    (thresholds_met : gmap string bool) (met : bool) :
  check_thresholds threshold_keys thresholds_met = inr met ->
  match threshold_keys with
  | Some (key :: keys) =>
      met = true
      <-> exists k, k ∈ key :: keys /\ thresholds_met !! k = Some true
  | _ => met = true <-> exists k, thresholds_met !! k = Some true
  end.
Proof.
  unfold check_thresholds.
  destruct threshold_keys as [[|key keys]|]; cbn [keys_given negb].
  - intros [= <-]. apply any_values_true.
  - change (default [] (Some (key :: keys))) with (key :: keys).
    destruct (lookup_each _ _) as [|bs] eqn:Hbs; cbn; [discriminate|].
    intros [= <-].
    destruct (lookup_each_any thresholds_met (key :: keys)) as (bs' & Hbs' & Hany).
    { eapply lookup_each_present, Hbs. }
    rewrite Hbs in Hbs'. injection Hbs' as <-. exact Hany.
  - intros [= <-]. apply any_values_true.
Qed.
End ThresholdKeys.

(** C3, as the code has it.  After a pass of the loop body, with [tm] the
    dictionary the threshold equation returns at the new time and state:
    when [threshold_keys] is a non-empty list the flag [threshold_met] is
    set exactly when one of the named keys is true in [tm]; when
    [threshold_keys] is absent or empty it is set exactly when some entry
    of [tm] is true.  A set flag ends the loop at once; a clear flag leaves
    the horizon as the only way out. *)
Theorem check_thresholds_decides_termination {R : Type} `{PyNumber R}
    (self : model R) (load : R -> vec R)
    (eqn : R -> vec R -> gmap string bool) (eqn_calls : R -> list (call R))
    (threshold_keys : option (list string))
    (dt save_freq horizon : R) (st st' : loop_state R) :
  loop_body self load eqn eqn_calls threshold_keys dt save_freq st = inr st' ->
  match threshold_keys with
  | Some (key :: keys) =>
      ls_threshold_met st' = true
      <-> exists k, k ∈ key :: keys /\ eqn (ls_t st') (ls_x st') !! k = Some true
  | _ =>
      ls_threshold_met st' = true
      <-> exists k, eqn (ls_t st') (ls_x st') !! k = Some true
  end
  /\ (ls_threshold_met st' = true ->
      forall fuel,
        run_loop self load eqn eqn_calls threshold_keys dt save_freq horizon fuel st'
        = (ls_calls st', Return st'))
  /\ (ls_threshold_met st' = false ->
      loop_test horizon st' = num_ltb (ls_t st') horizon).
Proof.
  intros Hbody. split; [|split].
  - apply check_thresholds_true. eapply loop_body_flag, Hbody.
  - intros Hmet fuel. apply run_loop_stops_when_met, Hmet.
  - apply loop_test_when_not_met.
Qed.

(** *** Two events, one of them named *)

(** With [threshold_keys = ['A']] the run goes past [t = 3], where only
    [B] is true, and stops at [t = 6], where [A] is; without
    [threshold_keys] it stops at [t = 3]. *)
Lemma two_event_runs (k : nat) :
  (exists h, snd (two_event_run (Some ["A"]) (6 + k)) = Return h
             /\ times h = [0; 6]%Q)
  /\ (exists h, snd (two_event_run None (3 + k)) = Return h
                /\ times h = [0; 3]%Q)
  /\ threshold_met two_event_model 3%Q {[ "n" := 3%Q ]}
     = {[ "A" := false; "B" := true ]}
  /\ threshold_met two_event_model 6%Q {[ "n" := 6%Q ]}
     = {[ "A" := true; "B" := true ]}.
Proof.
  split; [|split; [|split]].
  - unfold two_event_run.
    rewrite (simulate_to_threshold_fuel_mono _ _ _ _ _ 6 (6 + k));
      [|lia|vm_compute; discriminate].
    eexists. split; vm_compute; reflexivity.
  - unfold two_event_run.
    rewrite (simulate_to_threshold_fuel_mono _ _ _ _ _ 3 (3 + k));
      [|lia|vm_compute; discriminate].
    eexists. split; vm_compute; reflexivity.
  - vm_compute. reflexivity.
  - vm_compute. reflexivity.
Qed.

(** C3, at the pass of the two-event run that reaches [t = 3] with
    [threshold_keys = ['A']]: only [B] is true there, the flag stays
    clear. *)
Lemma check_thresholds_decides_termination_witness :
  exists st',
    loop_body two_event_model (fun _ => {[ "u" := 0%Q ]})
      (threshold_met two_event_model) (threshold_met_calls two_event_model)
      (Some ["A"]) 1%Q 10%Q (two_event_state 2%Q) = inr st'
    /\ ls_t st' = 3%Q
    /\ ls_threshold_met st' = false
    /\ (ls_threshold_met st' = true
        <-> exists k, k ∈ ["A"]
                      /\ threshold_met two_event_model (ls_t st') (ls_x st') !! k
                         = Some true).
Proof.
  eexists. split; [vm_compute; reflexivity|].
  split; [reflexivity|]. split; [reflexivity|].
  exact (proj1 (check_thresholds_decides_termination
                  two_event_model (fun _ => {[ "u" := 0%Q ]})
                  (threshold_met two_event_model)
                  (threshold_met_calls two_event_model) (Some ["A"]) 1%Q 10%Q 0%Q
                  (two_event_state 2%Q) _ eq_refl)).
Defined.

(** C3, as claimed, fails for [threshold_keys = []]: the list is given and
    names no event, yet the answer is true as soon as any entry is, and the
    two-event run stops at [t = 3] where [B] trips. *)
Lemma empty_threshold_keys_select_every_event :
  check_thresholds (Some []) {[ "A" := false; "B" := true ]} = inr true
  /\ ~ (exists k, k ∈ @nil string
                  /\ ({[ "A" := false; "B" := true ]} : gmap string bool) !! k
                     = Some true)
  /\ exists h, snd (two_event_run (Some []) 3) = Return h /\ times h = [0; 3]%Q.
Proof.
  split; [vm_compute; reflexivity|]. split.
  - intros (k & Hin & _). inversion Hin.
  - eexists. split; vm_compute; reflexivity.
Qed.

(** ** Runs that only the horizon ends *)

Section HorizonRuns.
Local Open Scope Q_scope.

Variable self : model Q.
Variable load : Q -> vec Q.
Variable eqn : Q -> vec Q -> gmap string bool.
Variable eqn_calls : Q -> list (call Q).
Variables dt save_freq horizon : Q.
Hypothesis dt_pos : 0 < dt.
Hypothesis eqn_false : forall t x, check_thresholds None (eqn t x) = inr false.

Local Abbreviation body := (loop_body self load eqn eqn_calls None dt save_freq).
Local Abbreviation loop := (run_loop self load eqn eqn_calls None dt save_freq horizon).
Local Abbreviation step := (advance self load dt).

(** A pass of the body is a direct step, and leaves the flag clear. *)
Lemma loop_body_advance (st : loop_state Q) :
  exists st', body st = inr st'
              /\ ls_threshold_met st' = false
              /\ (ls_t st', ls_x st') = step (ls_t st, ls_x st).
Proof.
  unfold loop_body. rewrite eqn_false.
  destruct (num_leb _ _); eexists; (split; [reflexivity|]); cbn; split; reflexivity.
Qed.

(** The loop makes some number [n] of direct steps: the first [n] times
    are below the horizon and the last one is not. *)
Lemma run_loop_advances (fuel : nat) (st st' : loop_state Q) (calls : list (call Q)) :
  ls_threshold_met st = false ->
  loop fuel st = (calls, Return st') ->
  exists n : nat,
    (ls_t st', ls_x st') = Nat.iter n step (ls_t st, ls_x st)
    /\ (forall j, (j < n)%nat -> fst (Nat.iter j step (ls_t st, ls_x st)) < horizon)
    /\ horizon <= ls_t st'.
Proof.
  revert st. induction fuel as [|fuel IH]; intros st Hflag Hrun; cbn [run_loop] in Hrun.
  - destruct (loop_test horizon st) eqn:Etest; [discriminate|].
    injection Hrun as _ <-. exists 0%nat.
    rewrite loop_test_when_not_met in Etest by assumption.
    apply num_ltb_Q_false in Etest.
    split; [reflexivity|]. split; [lia|assumption].
  - destruct (loop_test horizon st) eqn:Etest.
    + destruct (loop_body_advance st) as (st1 & Hb & Hflag1 & Hstep).
      rewrite Hb in Hrun.
      destruct (IH st1 Hflag1 Hrun) as (n & Hn & Hbelow & Hstop).
      rewrite loop_test_when_not_met in Etest by assumption.
      apply num_ltb_Q in Etest.
      exists (S n). rewrite Nat.iter_succ_r, <- Hstep.
      split; [exact Hn|]. split; [|exact Hstop].
      intros [|j] Hj; [exact Etest|].
      rewrite Nat.iter_succ_r, <- Hstep. apply Hbelow. lia.
    + injection Hrun as _ <-. exists 0%nat.
      rewrite loop_test_when_not_met in Etest by assumption.
      apply num_ltb_Q_false in Etest.
      split; [reflexivity|]. split; [lia|assumption].
Qed.

(** The time after [n] direct steps. *)
Lemma advance_time (n : nat) (t : Q) (x : vec Q) :
  fst (Nat.iter n step (t, x)) == t + inject_Z (Z.of_nat n) * dt.
Proof.
  induction n as [|n IH].
  - cbn. change (inject_Z (Z.of_nat 0)) with 0. lra.
  - rewrite Nat.iter_succ. cbn [advance fst num_add Q_number].
    rewrite IH, Nat2Z.inj_succ, <- Z.add_1_r, inject_Z_plus.
    change (inject_Z 1) with 1. lra.
Qed.

(** From time 0, the number of steps that first reaches a positive
    horizon is [ceil(horizon / dt)]. *)
Lemma steps_to_horizon (n : nat) :
  0 < horizon ->
  (forall j, (j < n)%nat -> inject_Z (Z.of_nat j) * dt < horizon) ->
  horizon <= inject_Z (Z.of_nat n) * dt ->
  n = Z.to_nat (Qceiling (horizon / dt)).
Proof.
  intros Hpos Hbelow Hreach.
  assert (horizon / dt * dt == horizon) as Hd by (field; lra).
  assert (horizon / dt <= inject_Z (Z.of_nat n)) as Hup.
  { apply Qle_shift_div_r; assumption. }
  assert (Qceiling (horizon / dt) <= Z.of_nat n)%Z as Hle.
  { rewrite <- (Qceiling_Z (Z.of_nat n)). apply Qceiling_resp_le, Hup. }
  assert (Z.of_nat n <= Qceiling (horizon / dt))%Z as Hge.
  { destruct n as [|n].
    - pose proof (Qle_ceiling (horizon / dt)) as Hc.
      assert (0 < horizon / dt) by (apply Qlt_shift_div_l; lra).
      apply Z.lt_le_incl. rewrite Zlt_Qlt. change (inject_Z (Z.of_nat 0)) with 0. lra.
    - specialize (Hbelow n (Nat.lt_succ_diag_r n)).
      assert (inject_Z (Z.of_nat n) < horizon / dt) as Hlow.
      { apply Qlt_shift_div_l; assumption. }
      pose proof (Qle_ceiling (horizon / dt)) as Hc.
      rewrite Nat2Z.inj_succ. apply Z.le_succ_l. rewrite Zlt_Qlt. lra. }
  lia.
Qed.
End HorizonRuns.

Section HorizonOnly.
Local Open Scope Q_scope.

(** The threshold equation that [simulate_to] installs never sets the
    flag. *)
Lemma always_false_check {R : Type} (t : R) (x : vec R) :
  check_thresholds None ((fun _ _ => {[ "a" := false ]}) t x) = inr false.
Proof. reflexivity. Qed.

(** [simulate_to] hands [simulate_to_threshold] a complete configuration:
    the defaults of the latter change nothing in it. *)
Lemma update_simulate_to_config {R : Type} `{PyNumber R}
    (time : pyval R) (options : sim_options R) :
  update simulate_to_threshold_defaults (simulate_to_config time options)
  = simulate_to_config time options.
Proof.
  destruct options as [[?|] [?|] [?|] [?|] [?|]]; reflexivity.
Qed.

(** A returning call whose threshold equation never sets the flag made
    [ceil(horizon / dt)] direct steps, and its last point is the time and
    state reached by them. *)
Lemma horizon_only_run (self : model Q) (future_loading_eqn : pyarg Q (Q -> vec Q))
    (first_output : vec Q) (options : sim_options Q) (dt save_freq horizon : Q)
    (f : Q -> vec Q -> gmap string bool) (fuel : nat) (calls : list (call Q))
    (h : history Q) :
  validate_config (update simulate_to_threshold_defaults options) = inr (dt, save_freq) ->
  opt_horizon (update simulate_to_threshold_defaults options) ≫= as_number = Some horizon ->
  0 < horizon ->
  opt_threshold_eqn (update simulate_to_threshold_defaults options) = Some f ->
  (forall t x, check_thresholds None (f t x) = inr false) ->
  simulate_to_threshold self future_loading_eqn first_output options None fuel
  = (calls, Return h) ->
  exists load t_final,
    future_loading_eqn = Callable load
    /\ last (times h) = Some t_final
    /\ last (saved_states h)
       = Some (repeat_next_state self load dt (Z.to_nat (Qceiling (horizon / dt)))
                 (default (initialize self (load 0) first_output)
                    (opt_x (update simulate_to_threshold_defaults options))))
    /\ horizon <= t_final
    /\ t_final < horizon + dt.
Proof.
  intros Hcfg Hhor Hpos Heqn Hfalse Hrun.
  destruct (validate_config_Q _ _ _ Hcfg) as [Hdt Hsf].
  unfold simulate_to_threshold in Hrun.
  destruct (validate_inputs _ _ _ _) as [e|load] eqn:Evi; [discriminate|].
  assert (future_loading_eqn = Callable load) as Hload.
  { unfold validate_inputs in Evi. destruct (negb _); [discriminate|].
    destruct future_loading_eqn; [|discriminate].
    destruct (_ && _); [discriminate|]. congruence. }
  rewrite Hcfg, Hhor, Heqn in Hrun.
  change (default (threshold_met self) (Some f)) with f in Hrun.
  apply run_Return in Hrun as (calls' & st' & Hloop & Hfin).
  pose proof (setup_inv self load first_output
                (update simulate_to_threshold_defaults options) dt save_freq horizon
                Hdt Hpos) as Hinv0.
  destruct (run_loop_inv _ _ _ _ _ _ _ _ Hdt _ _ _ _ Hinv0 Hloop) as [Hinv' _].
  destruct (finalize_spec _ _ _ _ _ _ Hinv' Hfin)
    as (_ & _ & _ & (t_final & Hlast & Heq) & Hstate).
  destruct (run_loop_advances self load f _ dt save_freq horizon Hfalse
              fuel (setup self load first_output
                      (update simulate_to_threshold_defaults options) save_freq)
              st' calls' eq_refl Hloop) as (n & Hn & Hbelow & Hstop).
  cbn [setup ls_t ls_x] in Hn, Hbelow.
  assert (n = Z.to_nat (Qceiling (horizon / dt))) as Hsteps.
  { apply steps_to_horizon; [exact Hdt|exact Hpos| |].
    - intros j Hj. specialize (Hbelow j Hj).
      rewrite (advance_time self load dt) in Hbelow.
      change (num_of_Z 0) with 0 in Hbelow. lra.
    - assert (ls_t st' = fst (Nat.iter n (advance self load dt)
                                (num_of_Z 0, default (initialize self (load (num_of_Z 0))
                                                        first_output)
                                               (opt_x (update simulate_to_threshold_defaults
                                                         options))))) as Ht
        by (rewrite <- Hn; reflexivity).
      rewrite Ht, (advance_time self load dt) in Hstop.
      change (num_of_Z 0) with 0 in Hstop. lra. }
  exists load, t_final. split; [exact Hload|]. split; [exact Hlast|].
  split; [|split].
  - rewrite Hstate, <- Hsteps. f_equal.
    change (ls_x st') with (snd (ls_t st', ls_x st')). rewrite Hn. reflexivity.
  - lra.
  - pose proof (inv_horizon _ _ _ Hinv'). lra.
Qed.
End HorizonOnly.

(** ** [simulate_to] *)

Section SimulateTo.
Local Open Scope Q_scope.

(** In exact arithmetic every call finishes, given enough fuel. *)
Lemma simulate_to_threshold_terminates (self : model Q)
    (future_loading_eqn : pyarg Q (Q -> vec Q)) (first_output : vec Q)
    (options : sim_options Q) (threshold_keys : option (list string)) :
  exists fuel,
    snd (simulate_to_threshold self future_loading_eqn first_output options
           threshold_keys fuel) <> OutOfFuel.
Proof.
  unfold simulate_to_threshold.
  destruct (validate_inputs _ _ _ _) as [e|load]; [exists 0%nat; discriminate|].
  destruct (validate_config _) as [e|[dt save_freq]] eqn:Hcfg;
    [exists 0%nat; discriminate|].
  destruct (validate_config_Q _ _ _ Hcfg) as [Hdt _].
  destruct (_ ≫= _) as [horizon|]; [|exists 0%nat; discriminate].
  exists (enough_fuel dt horizon). apply run_terminates; [assumption|reflexivity].
Qed.

Lemma simulate_to_terminates (self : model Q) (time : pyval Q)
    (future_loading_eqn : pyarg Q (Q -> vec Q)) (first_output : vec Q)
    (options : sim_options Q) :
  exists fuel,
    snd (simulate_to self time future_loading_eqn first_output options fuel)
      <> OutOfFuel.
Proof.
  unfold simulate_to.
  destruct (_ || _); [exists 0%nat; discriminate|].
  destruct (validate_config _); [exists 0%nat; discriminate|].
  apply simulate_to_threshold_terminates.
Qed.

(** A [time] that passes the first test of [simulate_to] is a positive
    number. *)
Lemma time_is_positive_Q (time : pyval Q) :
  time_is_positive time = true -> exists T, as_number time = Some T /\ 0 < T.
Proof.
  unfold time_is_positive. destruct (as_number time) as [T|]; [|discriminate].
  rewrite negb_true_iff. intros Hle. apply num_leb_Q_false in Hle.
  exists T. split; [reflexivity|exact Hle].
Qed.

(** A returning [simulate_to] whose [options] override neither the
    horizon nor the threshold equation: the run made [ceil(T / dt)] direct
    steps and stopped at the first step time that reaches [T]. *)
Lemma simulate_to_returns (self : model Q) (time : pyval Q)
    (future_loading_eqn : pyarg Q (Q -> vec Q)) (first_output : vec Q)
    (options : sim_options Q) (fuel : nat) (calls : list (call Q)) (h : history Q) :
  opt_horizon options = None -> opt_threshold_eqn options = None ->
  simulate_to self time future_loading_eqn first_output options fuel
  = (calls, Return h) ->
  exists T dt save_freq load t_final,
    as_number time = Some T /\ 0 < T
    /\ validate_config (simulate_to_config time options) = inr (dt, save_freq)
    /\ 0 < dt
    /\ future_loading_eqn = Callable load
    /\ last (times h) = Some t_final
    /\ last (saved_states h)
       = Some (repeat_next_state self load dt (Z.to_nat (Qceiling (T / dt)))
                 (default (initialize self (load 0) first_output) (opt_x options)))
    /\ T <= t_final
    /\ t_final < T + dt.
Proof.
  intros Hhor Heqn Hrun. unfold simulate_to in Hrun.
  destruct (negb (isinstance_Number time)) eqn:Enum; [discriminate|].
  destruct (negb (time_is_positive time)) eqn:Epos; [discriminate|].
  cbn [orb] in Hrun. apply negb_false_iff in Epos.
  destruct (time_is_positive_Q _ Epos) as (T & HT & HTpos).
  destruct (validate_config _) as [e|[dt save_freq]] eqn:Hcfg; [discriminate|].
  destruct (validate_config_Q _ _ _ Hcfg) as [Hdt _].
  destruct (horizon_only_run self future_loading_eqn first_output
              (simulate_to_config time options) dt save_freq T
              (fun _ _ => {[ "a" := false ]}) fuel calls h)
    as (load & t_final & Hload & Hlast & Hstate & Hlow & Hhigh).
  - rewrite update_simulate_to_config. exact Hcfg.
  - rewrite update_simulate_to_config. unfold simulate_to_config, update. cbn.
    rewrite Hhor. cbn. exact HT.
  - exact HTpos.
  - rewrite update_simulate_to_config. unfold simulate_to_config, update. cbn.
    rewrite Heqn. reflexivity.
  - intros t x. exact (always_false_check t x).
  - exact Hrun.
  - exists T, dt, save_freq, load, t_final.
    rewrite update_simulate_to_config in Hstate.
    assert (opt_x (simulate_to_config time options) = opt_x options) as Hx
      by (unfold simulate_to_config, update; cbn; destruct (opt_x options); reflexivity).
    rewrite Hx in Hstate.
    repeat (split; [first [assumption|reflexivity]|]). assumption.
Qed.
End SimulateTo.

(** *** In any arithmetic *)

Section HorizonAnyNumber.
Context {R : Type} `{PyNumber R}.

Variable self : model R.
Variable load : R -> vec R.
Variable eqn : R -> vec R -> gmap string bool.
Variable eqn_calls : R -> list (call R).
Variables dt save_freq horizon : R.
Hypothesis eqn_false : forall t x, check_thresholds None (eqn t x) = inr false.


End HorizonAnyNumber.




(** C6, in exact arithmetic.  For [options] that contain none of
    ['horizon'], ['threshold_eqn'] and ['x']: the call finishes, and when
    it returns the last saved state is the state that [ceil(T / dt)] calls
    of [next_state] produce from the state of [initialize], each call with
    the input of the loading function at its time. *)
Theorem simulate_to_final_state_exact
    (self : model Q) (time : pyval Q) (load : Q -> vec Q) (first_output : vec Q)
    (options : sim_options Q) :
  opt_horizon options = None -> opt_threshold_eqn options = None ->
  opt_x options = None ->
  (exists fuel,
      snd (simulate_to self time (Callable load) first_output options fuel)
        <> OutOfFuel)
  /\ forall fuel calls h,
      simulate_to self time (Callable load) first_output options fuel
      = (calls, Return h) ->
      exists T dt save_freq,
        as_number time = Some T /\ (0 < T)%Q
        /\ validate_config (simulate_to_config time options) = inr (dt, save_freq)
        /\ (0 < dt)%Q
        /\ last (saved_states h)
           = Some (repeat_next_state self load dt (Z.to_nat (Qceiling (T / dt)))
                     (initialize self (load 0%Q) first_output)).
Proof.
  intros Hhor Heqn Hx. split; [apply simulate_to_terminates|].
  intros fuel calls h Hrun.
  destruct (simulate_to_returns _ _ _ _ _ _ _ _ Hhor Heqn Hrun)
    as (T & dt & save_freq & load' & t_final & HT & HTpos & Hcfg & Hdt & Hload
        & _ & Hstate & _).
  injection Hload as <-. rewrite Hx in Hstate.
  exists T, dt, save_freq. repeat (split; [assumption|]). exact Hstate.
Qed.

(** C6, at the linear scenario started from [initialize]: the run to
    [time = 3] ends in the state of three direct steps, position 15. *)
Lemma simulate_to_final_state_exact_witness :
  (exists fuel,
      snd (simulate_to linear_model (PyInt 3) (Callable constant_rate)
             {[ "pos" := 0%Q ]} unit_step_options fuel) <> OutOfFuel)
  /\ repeat_next_state linear_model constant_rate 1%Q 3 {[ "pos" := 0%Q ]}
     = {[ "pos" := 15%Q ]}.
Proof.
  split; [|vm_compute; reflexivity].
  exact (proj1 (simulate_to_final_state_exact
                  linear_model (PyInt 3) constant_rate {[ "pos" := 0%Q ]}
                  unit_step_options eq_refl eq_refl eq_refl)).
Defined.

(** ** Binary64 time accumulation *)

(** C6, as claimed, fails in binary64: with [T = 1.0] and [dt = 0.1],
    [ceil(T / dt)] is 10 (computed in binary64, and also for the exact
    quotient of the two binary64 values), but ten additions of [0.1] give
    [0.9999999999999999 < 1.0], so the loop makes an eleventh step: the
    last saved state counts 11 calls of [next_state], not 10. *)
Lemma binary64_run_takes_an_extra_step :
  float_ceiling (1 / 0.1)%float = Some 10%Z
  /\ (a ← float_to_Q 1%float; b ← float_to_Q 0.1%float; Some (Qceiling (a / b)))
     = Some 10%Z
  /\ PrimFloat.ltb (Nat.iter 10 (fun t => t + 0.1)%float 0%float) 1%float = true
  /\ exists h x,
      snd (simulate_to step_counter (PyFloat 1%float) (Callable no_load)
             {[ "n" := 0%float ]} tenth_options 20) = Return h
      /\ length (times h) = 2%nat
      /\ last (saved_states h) = Some x
      /\ x !! "n" = Some 11%float
      /\ repeat_next_state step_counter no_load 0.1%float 10 {[ "n" := 0%float ]} !! "n"
         = Some 10%float
      /\ last (saved_states h)
         <> Some (repeat_next_state step_counter no_load 0.1%float 10
                    (initialize step_counter (no_load 0%float) {[ "n" := 0%float ]})).
Proof.
  split; [vm_compute; reflexivity|].
  split; [vm_compute; reflexivity|].
  split; [vm_compute; reflexivity|].
  eexists. eexists.
  split; [vm_compute; reflexivity|].
  split; [reflexivity|]. split; [reflexivity|].
  split; [vm_compute; reflexivity|].
  split; [vm_compute; reflexivity|].
  intros Heq.
  apply (f_equal (fun o : option (gmap string float) =>
                    match o ≫= (.!! "n") with
                    | Some v => PrimFloat.eqb v 10
                    | None => false
                    end)) in Heq.
  vm_compute in Heq. discriminate.
Qed.

(** ** The default threshold equation *)

(** C5.  When a model does not override [threshold_met], the answer has
    an entry for exactly the keys of [event_state(t, x)], and the entry of a
    key is true exactly when its event state is below zero; an event state
    equal to zero gives false. *)
Theorem default_threshold_met_is_below_zero
    (self : model Q) (t : Q) (x : vec Q) (k : string) :
  threshold_met_attr self = None ->
  match event_state self t x !! k with
  | Some es =>
      exists b, threshold_met self t x !! k = Some b
                /\ (b = true <-> (es < 0)%Q)
                /\ ((es == 0)%Q -> b = false)
  | None => threshold_met self t x !! k = None
  end.
Proof.
  intros Hdefault. unfold threshold_met, default_threshold_met.
  rewrite Hdefault, lookup_fmap.
  destruct (event_state self t x !! k) as [es|]; cbn [fmap option_fmap option_map];
    [|reflexivity].
  exists (num_ltb es (num_of_Z 0)). split; [reflexivity|].
  change (num_of_Z 0) with 0%Q. split; [apply num_ltb_Q|].
  intros Hzero. apply num_ltb_Q_false. rewrite Hzero. apply Qle_refl.
Qed.

(** C5, at the linear scenario: position 100 gives the event state
    [1 - 100/100], which is zero, and the threshold is not met. *)
Lemma default_threshold_met_is_below_zero_witness :
  event_state linear_model 20%Q {[ "pos" := 100%Q ]} !! "EOL" = Some (1 - 100 / 100)%Q
  /\ exists b, threshold_met linear_model 20%Q {[ "pos" := 100%Q ]} !! "EOL" = Some b
               /\ (b = true <-> (1 - 100 / 100 < 0)%Q)
               /\ ((1 - 100 / 100 == 0)%Q -> b = false).
Proof.
  split; [reflexivity|].
  exact (default_threshold_met_is_below_zero
           linear_model 20%Q {[ "pos" := 100%Q ]} "EOL" eq_refl).
Defined.

(** ** Construction *)

Section Construction.
Context {R : Type} `{PyNumber R}.


(** The key-list test passes exactly on a declared, non-empty list. *)
Lemma require_keys_inr (name one : string) (attr : option (list string))
    (l : list string) :
  require_keys name one attr = inr l <-> attr = Some l /\ l <> [].
Proof.
  unfold require_keys. destruct attr as [[|k l']|]; split;
    try (intros [= <-]; split; [reflexivity|discriminate]);
    try discriminate.
  - intros [[= <-] Hne]. contradiction.
  - intros [[= <-] _]. reflexivity.
  - intros [[=] _].
Qed.

Lemma require_keys_inl (name one : string) (attr : option (list string)) (e : exn) :
  require_keys name one attr = inl e ->
  (attr = None \/ attr = Some []) /\ exists msg, e = ProgModelTypeError msg.
Proof.
  unfold require_keys. destruct attr as [[|k l']|]; intros [= <-]; eauto.
Qed.
End Construction.


(** ** The factory against a declared class *)

Section Factory.
Context {R : Type} `{PyNumber R}.

(** The factory builds what instantiating the declared class builds, and
    leaves the same store. *)
Lemma generate_model_is_init (keys : gmap string (list string))
    (f_init : vec R -> vec R -> vec R)
    (f_next : R -> vec R -> vec R -> R -> vec R)
    (f_out : R -> vec R -> vec R)
    (f_es : option (R -> vec R -> vec R))
    (f_th : option (R -> vec R -> gmap string bool))
    (config : params R) (σ : py_store R) :
  is_Some (keys !! "inputs") -> is_Some (keys !! "states") ->
  is_Some (keys !! "outputs") ->
  generate_model keys (Callable f_init) (Callable f_next) (Callable f_out)
    (optional_arg f_es) (optional_arg f_th) config σ
  = init (declared_class keys f_init f_next f_out f_es f_th) config σ.
Proof.
  intros [ins Hins] [sts Hsts] [outs Houts].
  unfold generate_model, require_key, declared_class.
  rewrite Hins, Hsts, Houts.
  assert (optional_callable "Event State Function must be callable" (optional_arg f_es)
          = inr f_es) as -> by (destruct f_es; reflexivity).
  assert (optional_callable "Threshold Function must be callable" (optional_arg f_th)
          = inr f_th) as -> by (destruct f_th; reflexivity).
  cbn [require_callable bind_exn].
  unfold init, NewProgModel.
  cbn [cls_inputs cls_states cls_outputs cls_events cls_initialize cls_next_state
       cls_output cls_event_state cls_threshold_met].
  destruct (parameters (update_parameters config σ) !! "process_noise") as [pn|];
    [|reflexivity].
  destruct ins as [|i ins]; [reflexivity|].
  destruct sts as [|s sts]; [reflexivity|].
  destruct outs as [|o outs]; [reflexivity|].
  cbn [require_keys bind_exn].
  cbn [inputs states outputs events event_state threshold_met_attr default from_option].
  destruct f_es, f_th, (keys !! "events"); reflexivity.
Qed.
End Factory.

(** C7.  Given key lists for inputs, states and outputs, the model that
    [generate_model] builds from equations and the instance of the class
    that declares the same key lists and wraps the same equations are built
    alike (same store afterwards, same error if construction fails), and
    every call of [simulate_to_threshold] and of [simulate_to] gives the
    same result on both. *)
Theorem generate_model_simulates_as_declared_class {R : Type} `{PyNumber R}
    (keys : gmap string (list string))
    (f_init : vec R -> vec R -> vec R)
    (f_next : R -> vec R -> vec R -> R -> vec R)
    (f_out : R -> vec R -> vec R)
    (f_es : option (R -> vec R -> vec R))
    (f_th : option (R -> vec R -> gmap string bool))
    (config : params R) (σ : py_store R) :
  is_Some (keys !! "inputs") -> is_Some (keys !! "states") ->
  is_Some (keys !! "outputs") ->
  fst (generate_model keys (Callable f_init) (Callable f_next) (Callable f_out)
         (optional_arg f_es) (optional_arg f_th) config σ)
  = fst (init (declared_class keys f_init f_next f_out f_es f_th) config σ)
  /\ match snd (generate_model keys (Callable f_init) (Callable f_next) (Callable f_out)
                  (optional_arg f_es) (optional_arg f_th) config σ),
           snd (init (declared_class keys f_init f_next f_out f_es f_th) config σ) with
     | inr generated, inr declared =>
         (forall future_loading_eqn first_output options threshold_keys fuel,
             simulate_to_threshold generated future_loading_eqn first_output options
               threshold_keys fuel
             = simulate_to_threshold declared future_loading_eqn first_output options
                 threshold_keys fuel)
         /\ (forall time future_loading_eqn first_output options fuel,
                simulate_to generated time future_loading_eqn first_output options fuel
                = simulate_to declared time future_loading_eqn first_output options fuel)
     | inl e1, inl e2 => e1 = e2
     | _, _ => False
     end.
Proof.
  intros Hins Hsts Houts.
  rewrite (generate_model_is_init keys f_init f_next f_out f_es f_th config σ
             Hins Hsts Houts).
  split; [reflexivity|].
  destruct (snd (init _ config σ)) as [e|m]; [reflexivity|].
  split; reflexivity.
Qed.

(** C7, at the step counter's equations and [{'process_noise': 0}]: both
    constructions succeed, and the generated model is the step counter. *)
Lemma generate_model_simulates_as_declared_class_witness :
  snd (generate_model counter_keys
         (Callable (initialize step_counter)) (Callable (next_state step_counter))
         (Callable (output step_counter)) (NotCallable PyNone) (NotCallable PyNone)
         {[ "process_noise" := PyInt 0 ]} {| parameters := ∅ |})
  = inr step_counter
  /\ fst (generate_model counter_keys
            (Callable (initialize step_counter)) (Callable (next_state step_counter))
            (Callable (output step_counter)) (NotCallable PyNone) (NotCallable PyNone)
            {[ "process_noise" := PyInt 0 ]} {| parameters := ∅ |})
     = fst (init (declared_class counter_keys (initialize step_counter)
                    (next_state step_counter) (output step_counter) None None)
              {[ "process_noise" := PyInt 0 ]} {| parameters := ∅ |}).
Proof.
  split; [reflexivity|].
  exact (proj1 (generate_model_simulates_as_declared_class
                  counter_keys (initialize step_counter) (next_state step_counter)
                  (output step_counter) None None
                  {[ "process_noise" := PyInt 0 ]} {| parameters := ∅ |}
                  (ex_intro _ ["u"] eq_refl) (ex_intro _ ["n"] eq_refl)
                  (ex_intro _ ["n"] eq_refl))).
Defined.

(** ** Input validation *)

Section Validation.
Context {R : Type} `{PyNumber R}.







End Validation.


(** C9, as claimed, fails in binary64.  A NaN is a [float], hence a
    [Number], and it is not greater than 0; but it is not [<= 0] either, and
    that is the test the code makes.  So [simulate_to] with [time = nan]
    raises nothing: it calls the equations for [t = 0] and returns that one
    point.  Likewise [simulate_to_threshold] with [dt = nan] raises nothing
    and makes a step to [t = nan]. *)
Lemma nan_passes_input_validation :
  isinstance_Number (PyFloat nan) = true
  /\ type_is_int_or_float (PyFloat nan) = true
  /\ num_ltb (num_of_Z 0) nan = false
  /\ (exists h,
         simulate_to step_counter (PyFloat nan) (Callable no_load)
           {[ "n" := 0%float ]} no_options 1
         = ([CallFutureLoading 0%float; CallInitialize; CallOutput 0%float;
             CallEventState 0%float], Return h)
         /\ times h = [0%float])
  /\ (exists calls h,
         simulate_to_threshold step_counter (Callable no_load)
           {[ "n" := 0%float ]} nan_dt_options None 1 = (calls, Return h)
         /\ count_calls is_next_state_call calls = 1
         /\ times h = [0%float; nan]).
Proof.
  repeat (split; [reflexivity|]). split.
  - eexists. split; vm_compute; reflexivity.
  - eexists. eexists. split; [vm_compute; reflexivity|].
    split; vm_compute; reflexivity.
Qed.

(** ** The shared [parameters] dictionary *)

(** C8, as the code runs it.  Starting from the empty class-level
    dictionary, a first model is generated with [{'process_noise': 0.1}] and
    then a second one with [{'process_noise': 0.5}].  Both constructions
    succeed.  After the first, [parameters['process_noise']] is
    [{'n': 0.1}]; after the second, the same dictionary, which is also what
    the first model reads as [self.parameters], holds [{'pos': 0.5}], keyed
    by the second model's states.  A third model generated with no options
    at all then passes the [process_noise] check. *)
Theorem parameters_are_shared_by_all_instances :
  exists first second third,
    snd (generate_two_event {[ "process_noise" := PyFloat (1 # 10)%Q ]}
           {| parameters := ∅ |}) = inr first
    /\ parameters (fst (generate_two_event {[ "process_noise" := PyFloat (1 # 10)%Q ]}
                          {| parameters := ∅ |})) !! "process_noise"
       = Some (PyDict {[ "n" := PyFloat (1 # 10)%Q ]})
    /\ snd (generate_linear {[ "process_noise" := PyFloat (1 # 2)%Q ]}
              (fst (generate_two_event {[ "process_noise" := PyFloat (1 # 10)%Q ]}
                      {| parameters := ∅ |}))) = inr second
    /\ parameters
         (fst (generate_linear {[ "process_noise" := PyFloat (1 # 2)%Q ]}
                 (fst (generate_two_event {[ "process_noise" := PyFloat (1 # 10)%Q ]}
                         {| parameters := ∅ |})))) !! "process_noise"
       = Some (PyDict {[ "pos" := PyFloat (1 # 2)%Q ]})
    /\ states first = ["n"]
    /\ snd (generate_two_event ∅
              (fst (generate_linear {[ "process_noise" := PyFloat (1 # 2)%Q ]}
                      (fst (generate_two_event
                              {[ "process_noise" := PyFloat (1 # 10)%Q ]}
                              {| parameters := ∅ |}))))) = inr third
    /\ snd (generate_two_event ∅ {| parameters := ∅ |})
       = inl (ProgModelTypeError "Missing `process_noise` parameter").
Proof.
  eexists. eexists. eexists.
  split; [vm_compute; reflexivity|].
  split; [vm_compute; reflexivity|].
  split; [vm_compute; reflexivity|].
  split; [vm_compute; reflexivity|].
  split; [reflexivity|].
  split; [vm_compute; reflexivity|].
  vm_compute; reflexivity.
Qed.

(** * More of the driver *)

(** ** Consistency of the recorded points *)

Section Alignment.
Context {R : Type} `{PyNumber R}.

Lemma history_aligned_record_point (self : model R) (load : R -> vec R)
    (h : history R) (t : R) (x : vec R) :
  lengths_agree h -> history_aligned self load h ->
  history_aligned self load (record_point self h t (load t) x).
Proof.
  intros (Hin & Hst & Hout & Hes) Hal i t' Hi. cbn in *.
  destruct (decide (i < length (times h))) as [Hlt|Hge].
  - rewrite lookup_app_l in Hi by assumption.
    destruct (Hal i t' Hi) as (x' & H1 & H2 & H3 & H4).
    exists x'. rewrite !lookup_app_l by lia. auto.
  - assert (i = length (times h)) as ->.
    { apply lookup_lt_Some in Hi. rewrite length_app in Hi. cbn in Hi. lia. }
    rewrite lookup_app_r, Nat.sub_diag in Hi by lia. injection Hi as <-.
    exists x. repeat split; apply list_lookup_middle; congruence.
Qed.

Lemma lengths_agree_record (self : model R) (h : history R) (t : R) (u x : vec R) :
  lengths_agree h -> lengths_agree (record_point self h t u x).
Proof. unfold lengths_agree. cbn. rewrite !length_app. cbn. lia. Qed.

(** The loop keeps the history consistent and [u] the input at [t]. *)
Lemma run_loop_aligned (self : model R) (load : R -> vec R)
    (eqn : R -> vec R -> gmap string bool) (eqn_calls : R -> list (call R))
    (keys : option (list string))
    (dt save_freq horizon : R) (fuel : nat) (st st' : loop_state R)
    (calls : list (call R)) :
  lengths_agree (ls_history st) -> history_aligned self load (ls_history st) ->
  ls_u st = load (ls_t st) ->
  run_loop self load eqn eqn_calls keys dt save_freq horizon fuel st = (calls, Return st') ->
  lengths_agree (ls_history st') /\ history_aligned self load (ls_history st')
  /\ ls_u st' = load (ls_t st').
Proof.
  revert st. induction fuel as [|fuel IH]; intros st Hlen Hal Hu Hrun; cbn [run_loop] in Hrun.
  - destruct (loop_test horizon st); [discriminate|]. injection Hrun as _ <-. auto.
  - destruct (loop_test horizon st); [|injection Hrun as _ <-; auto].
    destruct (loop_body _ _ _ _ _ _ _ st) as [[? ?]|st1] eqn:Eb; [discriminate|].
    unfold loop_body in Eb. destruct (check_thresholds _ _); [discriminate|].
    destruct (num_leb _ _); injection Eb as <-; apply IH in Hrun; try assumption;
      cbn; try reflexivity.
    + apply lengths_agree_record, Hlen.
    + apply history_aligned_record_point; assumption.
Qed.
End Alignment.

(** X1.  Whenever [simulate_to_threshold] returns, its five sequences have
    one length and are consistent index by index: the input is the loading
    function at the recorded time, and the output and event state are
    [output] and [event_state] of the recorded state at the recorded time. *)
Theorem simulate_to_threshold_history_aligned {R : Type} `{PyNumber R}
    (self : model R) (load : R -> vec R) (first_output : vec R)
    (options : sim_options R) (threshold_keys : option (list string))
    (fuel : nat) (calls : list (call R)) (h : history R) :
  simulate_to_threshold self (Callable load) first_output options threshold_keys fuel
  = (calls, Return h) ->
  lengths_agree h /\ history_aligned self load h.
Proof.
  unfold simulate_to_threshold. intros Hrun.
  destruct (validate_inputs _ _ _ _) as [e|load'] eqn:Evi; [discriminate|].
  assert (load' = load) as ->.
  { unfold validate_inputs in Evi. destruct (negb _); [discriminate|].
    destruct (_ && _); [discriminate|]. congruence. }
  destruct (validate_config _) as [e|[dt save_freq]]; [discriminate|].
  destruct (_ ≫= _) as [horizon|]; [|discriminate].
  unfold run in Hrun.
  destruct (run_loop _ _ _ _ _ _ _ _ _ _) as [calls' [st'| |]] eqn:Hloop; [|discriminate..].
  apply run_loop_aligned in Hloop as (Hlen & Hal & Hu).
  - unfold finalize in Hrun. destruct (last _); [|discriminate].
    destruct (negb _); injection Hrun as _ <-; [|auto].
    rewrite Hu. split; [apply lengths_agree_record, Hlen|].
    apply history_aligned_record_point; assumption.
  - cbn. repeat split.
  - intros [|i] t Hi; [|discriminate]. cbn in *. injection Hi as <-. eauto.
  - reflexivity.
Qed.

(** X1, at the linear scenario. *)
Lemma simulate_to_threshold_history_aligned_witness :
  exists calls h,
    linear_run 21 = (calls, Return h)
    /\ lengths_agree h /\ history_aligned linear_model constant_rate h.
Proof.
  eexists. eexists. split; [vm_compute; reflexivity|].
  refine (simulate_to_threshold_history_aligned
            linear_model constant_rate {[ "pos" := 0%Q ]} linear_options None 21 _ _ _).
  vm_compute. reflexivity.
Defined.

(** ** Accounting of the equation calls *)

Section CallAccounting.
Context {R : Type} `{PyNumber R}.

Lemma count_calls_app (kind : call R -> bool) (l1 l2 : list (call R)) :
  count_calls kind (l1 ++ l2) = count_calls kind l1 + count_calls kind l2.
Proof. induction l1 as [|c l1 IH]; cbn; [reflexivity|rewrite IH; lia]. Qed.



Lemma update_defaults_x (options : sim_options R) :
  opt_x (update simulate_to_threshold_defaults options) = opt_x options.
Proof. cbn. destruct (opt_x options); reflexivity. Qed.

End CallAccounting.


(** They hold no call of another kind. *)
Lemma threshold_eqn_calls_other {R : Type} `{PyNumber R}
    (self : model R) (config : sim_options R) (t : R) (kind : call R -> bool) :
  (forall t', kind (CallEventState t') = false) ->
  count_calls kind (threshold_eqn_calls self config t) = 0.
Proof.
  intros Hkind. unfold threshold_eqn_calls, threshold_met_calls.
  destruct (opt_threshold_eqn config); [reflexivity|].
  destruct (threshold_met_attr self); [reflexivity|]. cbn. rewrite Hkind. reflexivity.
Qed.



(** ** The step at which a run stops *)

Section FirstStop.
Local Open Scope Q_scope.

Variable self : model Q.
Variable load : Q -> vec Q.
Variable eqn : Q -> vec Q -> gmap string bool.
Variable eqn_calls : Q -> list (call Q).
Variable keys : option (list string).
Variables dt save_freq horizon : Q.

Local Abbreviation body := (loop_body self load eqn eqn_calls keys dt save_freq).
Local Abbreviation loop := (run_loop self load eqn eqn_calls keys dt save_freq horizon).
Local Abbreviation step := (advance self load dt).

Lemma loop_body_is_advance (st st' : loop_state Q) :
  body st = inr st' -> (ls_t st', ls_x st') = step (ls_t st, ls_x st).
Proof.
  unfold loop_body. intros Hb. destruct (check_thresholds _ _); [discriminate|].
  destruct (num_leb _ _); injection Hb as <-; reflexivity.
Qed.

(** From a state with a clear flag, the loop makes [n] direct steps: the
    times before each step are below the horizon, the checks after the steps
    before the last are false, and after the last step either the check is
    true or the horizon is reached. *)
Lemma run_loop_first_stop (fuel : nat) (st st' : loop_state Q) (calls : list (call Q)) :
  ls_threshold_met st = false ->
  loop fuel st = (calls, Return st') ->
  exists n : nat,
    (ls_t st', ls_x st') = Nat.iter n step (ls_t st, ls_x st)
    /\ (forall j, (j < n)%nat -> fst (Nat.iter j step (ls_t st, ls_x st)) < horizon)
    /\ (forall j, (0 < j < n)%nat ->
          check_thresholds keys (eqn (fst (Nat.iter j step (ls_t st, ls_x st)))
                                     (snd (Nat.iter j step (ls_t st, ls_x st))))
          = inr false)
    /\ (((0 < n)%nat /\ check_thresholds keys (eqn (ls_t st') (ls_x st')) = inr true)
        \/ ((0 < n)%nat -> check_thresholds keys (eqn (ls_t st') (ls_x st')) = inr false)
           /\ horizon <= ls_t st').
Proof.
  revert st. induction fuel as [|fuel IH]; intros st Hflag Hrun; cbn [run_loop] in Hrun.
  - destruct (loop_test horizon st) eqn:Etest; [discriminate|].
    injection Hrun as _ <-. exists 0%nat.
    rewrite loop_test_when_not_met in Etest by assumption.
    apply num_ltb_Q_false in Etest.
    split; [reflexivity|]. split; [lia|]. split; [lia|]. right. split; [lia|assumption].
  - destruct (loop_test horizon st) eqn:Etest.
    2:{ injection Hrun as _ <-. exists 0%nat.
        rewrite loop_test_when_not_met in Etest by assumption.
        apply num_ltb_Q_false in Etest.
        split; [reflexivity|]. split; [lia|]. split; [lia|]. right.
        split; [lia|assumption]. }
    rewrite loop_test_when_not_met in Etest by assumption. apply num_ltb_Q in Etest.
    destruct (body st) as [[? ?]|st1] eqn:Eb; [discriminate|].
    pose proof (loop_body_is_advance _ _ Eb) as Hstep.
    pose proof (loop_body_flag _ _ _ _ _ _ _ _ _ Eb) as Hcheck.
    destruct (ls_threshold_met st1) eqn:Hflag1.
    + rewrite run_loop_stops_when_met in Hrun by assumption.
      injection Hrun as _ <-. exists 1%nat. rewrite Nat.iter_succ_r, <- Hstep.
      split; [reflexivity|]. split.
      { intros j Hj. assert (j = 0)%nat as -> by lia. exact Etest. }
      split; [lia|]. left. split; [lia|exact Hcheck].
    + destruct (IH st1 Hflag1 Hrun) as (n & Hn & Hbelow & Hfalse & Hlast).
      exists (S n). rewrite Nat.iter_succ_r, <- Hstep.
      split; [exact Hn|]. split; [|split].
      * intros [|j] Hj; [exact Etest|].
        rewrite Nat.iter_succ_r, <- Hstep. apply Hbelow. lia.
      * intros [|[|j]] Hj; [lia| |].
        -- rewrite Nat.iter_succ_r, <- Hstep. exact Hcheck.
        -- rewrite Nat.iter_succ_r, <- Hstep. apply Hfalse. lia.
      * destruct Hlast as [[Hpos Htrue]|[Hf Hhor]].
        -- left. split; [lia|exact Htrue].
        -- right. split; [|exact Hhor]. intros _.
           destruct n as [|n]; [|apply Hf; lia].
           cbn in Hn. injection Hn as -> ->. exact Hcheck.
Qed.
End FirstStop.

(** X3.  In exact arithmetic, for a validated configuration with a
    positive horizon: a returning [simulate_to_threshold] made some number
    [n >= 1] of direct steps from the first state, and [n] is the first step
    count at which the threshold check answers true or the time has reached
    the horizon.  The check is not evaluated on the first state, so a
    threshold that is already met at [t = 0] does not prevent the first
    step.  The last recorded time and state are those reached by the [n]
    steps. *)
Theorem simulate_to_threshold_stops_at_first_met
    (self : model Q) (load : Q -> vec Q) (first_output : vec Q)
    (options : sim_options Q) (threshold_keys : option (list string))
    (dt save_freq horizon : Q) (fuel : nat) (calls : list (call Q)) (h : history Q) :
  validate_config (update simulate_to_threshold_defaults options) = inr (dt, save_freq) ->
  opt_horizon (update simulate_to_threshold_defaults options) ≫= as_number = Some horizon ->
  (0 < horizon)%Q ->
  simulate_to_threshold self (Callable load) first_output options threshold_keys fuel
  = (calls, Return h) ->
  exists (n : nat) (t_last : Q),
    (1 <= n)%nat
    /\ last (times h) = Some t_last
    /\ (t_last
        == fst (Nat.iter n (advance self load dt)
                  (0, default (initialize self (load 0) first_output) (opt_x options))))%Q
    /\ last (saved_states h)
       = Some (snd (Nat.iter n (advance self load dt)
                      (0%Q, default (initialize self (load 0%Q) first_output)
                              (opt_x options))))
    /\ (forall j, (j < n)%nat ->
          (fst (Nat.iter j (advance self load dt)
                  (0, default (initialize self (load 0) first_output) (opt_x options)))
           < horizon)%Q)
    /\ (forall j, (0 < j < n)%nat ->
          check_thresholds threshold_keys
            (default (threshold_met self)
               (opt_threshold_eqn (update simulate_to_threshold_defaults options))
               (fst (Nat.iter j (advance self load dt)
                       (0%Q, default (initialize self (load 0%Q) first_output)
                               (opt_x options))))
               (snd (Nat.iter j (advance self load dt)
                       (0%Q, default (initialize self (load 0%Q) first_output)
                               (opt_x options)))))
          = inr false)
    /\ (check_thresholds threshold_keys
          (default (threshold_met self)
             (opt_threshold_eqn (update simulate_to_threshold_defaults options))
             (fst (Nat.iter n (advance self load dt)
                     (0%Q, default (initialize self (load 0%Q) first_output)
                             (opt_x options))))
             (snd (Nat.iter n (advance self load dt)
                     (0%Q, default (initialize self (load 0%Q) first_output)
                             (opt_x options)))))
        = inr true
        \/ (horizon
            <= fst (Nat.iter n (advance self load dt)
                      (0, default (initialize self (load 0) first_output)
                            (opt_x options))))%Q).
Proof.
  intros Hcfg Hhor Hpos Hrun.
  destruct (validate_config_Q _ _ _ Hcfg) as [Hdt Hsf].
  unfold simulate_to_threshold in Hrun.
  destruct (validate_inputs _ _ _ _) as [e|load'] eqn:Evi; [discriminate|].
  assert (load' = load) as ->.
  { unfold validate_inputs in Evi. destruct (negb _); [discriminate|].
    destruct (_ && _); [discriminate|]. congruence. }
  rewrite Hcfg, Hhor in Hrun.
  apply run_Return in Hrun as (calls' & st' & Hloop & Hfin).
  pose proof (setup_inv self load first_output
                (update simulate_to_threshold_defaults options) dt save_freq horizon
                Hdt Hpos) as Hinv0.
  destruct (run_loop_inv _ _ _ _ _ _ _ _ Hdt _ _ _ _ Hinv0 Hloop) as [Hinv' _].
  destruct (finalize_spec _ _ _ _ _ _ Hinv' Hfin)
    as (_ & _ & _ & (t_last & Hlast & Heq) & Hstate).
  destruct (run_loop_first_stop _ _ _ _ _ _ _ _ fuel
              (setup self load first_output
                 (update simulate_to_threshold_defaults options) save_freq)
              st' calls' eq_refl Hloop) as (n & Hn & Hbelow & Hfalse & Hstop).
  cbn [setup ls_t ls_x] in Hn, Hbelow, Hfalse.
  rewrite update_defaults_x in Hn, Hbelow, Hfalse.
  change (num_of_Z 0) with 0%Q in Hn, Hbelow, Hfalse.
  assert (ls_t st' = fst (Nat.iter n (advance self load dt)
                            (0%Q, default (initialize self (load 0%Q) first_output)
                                    (opt_x options)))) as Ht by (rewrite <- Hn; reflexivity).
  assert (ls_x st' = snd (Nat.iter n (advance self load dt)
                            (0%Q, default (initialize self (load 0%Q) first_output)
                                    (opt_x options)))) as Hx by (rewrite <- Hn; reflexivity).
  exists n, t_last. rewrite <- Ht, <- Hx.
  assert (1 <= n)%nat as Hn1.
  { destruct n as [|n]; [|lia]. exfalso.
    destruct Hstop as [[Hlt _]|[_ Hle]]; [lia|].
    rewrite Ht in Hle. cbn in Hle. lra. }
  split; [exact Hn1|]. split; [exact Hlast|]. split; [exact Heq|].
  split; [exact Hstate|]. split; [exact Hbelow|]. split; [exact Hfalse|].
  destruct Hstop as [[_ Htrue]|[_ Hle]]; [left; exact Htrue|right; exact Hle].
Qed.

(** X3, at the linear scenario. *)
Lemma simulate_to_threshold_stops_at_first_met_witness :
  exists calls h (n : nat) (t_last : Q),
    linear_run 21 = (calls, Return h)
    /\ (1 <= n)%nat
    /\ last (times h) = Some t_last
    /\ (t_last
        == fst (Nat.iter n (advance linear_model constant_rate (inject_Z 1))
                  (0, default (initialize linear_model (constant_rate 0) {[ "pos" := 0 ]})
                        (opt_x linear_options))))%Q.
Proof.
  assert (linear_run 21 = (fst (linear_run 21), Return linear_history)) as Hrun
    by (vm_compute; reflexivity).
  destruct (simulate_to_threshold_stops_at_first_met
              linear_model constant_rate {[ "pos" := 0%Q ]} linear_options None
              (inject_Z 1) (inject_Z 5) (inject_Z (10 ^ 100)) 21 _ _
              eq_refl eq_refl eq_refl Hrun)
    as (n & t_last & Hn & Hlast & Heq & _).
  exists (fst (linear_run 21)), linear_history, n, t_last.
  split; [exact Hrun|]. split; [exact Hn|]. split; [exact Hlast|exact Heq].
Defined.

(** ** The save cadence *)

Section Sampling.
Local Open Scope Q_scope.

Variable self : model Q.
Variable load : Q -> vec Q.
Variable eqn : Q -> vec Q -> gmap string bool.
Variable eqn_calls : Q -> list (call Q).
Variable keys : option (list string).
Variables dt save_freq horizon : Q.
Hypothesis save_freq_pos : 0 < save_freq.

Lemma inject_Z_succ (n : nat) :
  inject_Z (Z.of_nat (S n)) == inject_Z (Z.of_nat n) + 1.
Proof. rewrite Nat2Z.inj_succ, <- Z.add_1_r, inject_Z_plus. reflexivity. Qed.

Lemma loop_body_sampling (st st' : loop_state Q) :
  sampling_inv dt save_freq st ->
  loop_body self load eqn eqn_calls keys dt save_freq st = inr st' ->
  sampling_inv dt save_freq st'.
Proof.
  intros (Hnext & Hlow & Hup) Hb. unfold loop_body in Hb.
  destruct (check_thresholds _ _); [discriminate|].
  destruct (num_leb _ _) eqn:Esave; injection Hb as <-; unfold sampling_inv; cbn.
  - apply num_leb_Q in Esave. cbn [num_add Q_number] in Esave. split; [|split].
    + rewrite length_app. cbn [length]. rewrite Nat.add_1_r, inject_Z_succ, Hnext. ring.
    + intros i s Hi.
      destruct (decide (i < length (times (ls_history st)))%nat) as [Hlt|Hge].
      * rewrite lookup_app_l in Hi by assumption. eapply Hlow, Hi.
      * assert (i = length (times (ls_history st))) as ->.
        { apply lookup_lt_Some in Hi. rewrite length_app in Hi. cbn in Hi. lia. }
        rewrite lookup_app_r, Nat.sub_diag in Hi by lia. injection Hi as <-. lra.
    + intros Hle. destruct (Hup Hle) as [Ht Hwin]. split; [lra|].
      intros i s Hi Hi1.
      destruct (decide (i < length (times (ls_history st)))%nat) as [Hlt|Hge].
      * rewrite lookup_app_l in Hi by assumption. eapply Hwin; eassumption.
      * assert (i = length (times (ls_history st))) as ->.
        { apply lookup_lt_Some in Hi. rewrite length_app in Hi. cbn in Hi. lia. }
        rewrite lookup_app_r, Nat.sub_diag in Hi by lia. injection Hi as <-. lra.
  - apply num_leb_Q_false in Esave. cbn [num_add Q_number] in Esave.
    split; [exact Hnext|]. split; [exact Hlow|].
    intros Hle. destruct (Hup Hle) as [Ht Hwin]. split; [exact Esave|exact Hwin].
Qed.

Lemma run_loop_sampling (fuel : nat) (st st' : loop_state Q) (calls : list (call Q)) :
  sampling_inv dt save_freq st ->
  run_loop self load eqn eqn_calls keys dt save_freq horizon fuel st = (calls, Return st') ->
  sampling_inv dt save_freq st'.
Proof.
  revert st. induction fuel as [|fuel IH]; intros st Hinv Hrun; cbn [run_loop] in Hrun.
  - destruct (loop_test horizon st); [discriminate|]. injection Hrun as _ <-. exact Hinv.
  - destruct (loop_test horizon st); [|injection Hrun as _ <-; exact Hinv].
    destruct (loop_body _ _ _ _ _ _ _ st) as [[? ?]|st1] eqn:Eb; [discriminate|].
    eapply IH; [|exact Hrun]. eapply loop_body_sampling; eassumption.
Qed.

Lemma setup_sampling (first_output : vec Q) (config : sim_options Q) :
  sampling_inv dt save_freq (setup self load first_output config save_freq).
Proof.
  unfold sampling_inv. cbn. split; [|split].
  - change (inject_Z (Z.of_nat 1)) with 1. lra.
  - intros [|i] s Hi; [|discriminate]. injection Hi as <-.
    change (inject_Z (Z.of_nat 0)) with 0. change (inject_Z 0) with 0. lra.
  - intros _. change (inject_Z 0) with 0. split; [lra|].
    intros [|i] s Hi Hi1; [lia|discriminate].
Qed.
End Sampling.

(** X4.  In exact arithmetic, every recorded point except the last one
    (which the final save may add at any time) obeys the save schedule: the
    point of index [i] has a timestamp of at least [i * save_freq], and when
    [dt <= save_freq] each such point after the first lies less than one
    step after its instant, [i * save_freq <= t < i * save_freq + dt]. *)
Theorem saved_points_follow_save_freq
    (self : model Q) (load : Q -> vec Q) (first_output : vec Q)
    (options : sim_options Q) (threshold_keys : option (list string))
    (dt save_freq : Q) (fuel : nat) (calls : list (call Q)) (h : history Q) :
  validate_config (update simulate_to_threshold_defaults options) = inr (dt, save_freq) ->
  simulate_to_threshold self (Callable load) first_output options threshold_keys fuel
  = (calls, Return h) ->
  forall i s,
    times h !! i = Some s -> (S i < length (times h))%nat ->
    (inject_Z (Z.of_nat i) * save_freq <= s)%Q
    /\ ((dt <= save_freq)%Q -> (1 <= i)%nat ->
        (s < inject_Z (Z.of_nat i) * save_freq + dt)%Q).
Proof.
  intros Hcfg Hrun.
  destruct (validate_config_Q _ _ _ Hcfg) as [Hdt Hsf].
  unfold simulate_to_threshold in Hrun.
  destruct (validate_inputs _ _ _ _) as [e|load'] eqn:Evi; [discriminate|].
  rewrite Hcfg in Hrun.
  destruct (_ ≫= _) as [horizon|]; [|discriminate].
  apply run_Return in Hrun as (calls' & st' & Hloop & Hfin).
  apply run_loop_sampling in Hloop as (_ & Hlow & Hup);
    [|apply setup_sampling; assumption].
  assert (forall i s, times h !! i = Some s -> (S i < length (times h))%nat ->
                      times (ls_history st') !! i = Some s) as Hold.
  { unfold finalize in Hfin. destruct (last _); [|discriminate].
    destruct (negb _); injection Hfin as _ <-; [|auto].
    cbn. intros i s Hi Hlt. rewrite length_app in Hlt. cbn in Hlt.
    rewrite lookup_app_l in Hi by lia. exact Hi. }
  intros i s Hi Hlt. specialize (Hold i s Hi Hlt). split; [eapply Hlow, Hold|].
  intros Hle Hi1. destruct (Hup Hle) as [_ Hwin]. eapply Hwin; eassumption.
Qed.

(** X4, at the linear scenario ([dt = 1], [save_freq = 5]) and its point
    of index 2, recorded at [t = 10]. *)
Lemma saved_points_follow_save_freq_witness :
  times linear_history !! 2%nat = Some 10%Q
  /\ (inject_Z (Z.of_nat 2) * inject_Z 5 <= 10)%Q
  /\ (10 < inject_Z (Z.of_nat 2) * inject_Z 5 + inject_Z 1)%Q.
Proof.
  assert (linear_run 21 = (fst (linear_run 21), Return linear_history)) as Hrun
    by (vm_compute; reflexivity).
  destruct (saved_points_follow_save_freq
              linear_model constant_rate {[ "pos" := 0%Q ]} linear_options None
              (inject_Z 1) (inject_Z 5) 21 _ _ eq_refl Hrun 2%nat 10%Q eq_refl
              ltac:(cbn; lia)) as [Hlow Hup].
  split; [reflexivity|]. split; [exact Hlow|].
  apply Hup; [vm_compute; discriminate|lia].
Defined.

(** ** Errors and edges of the stepping *)

Section SteppingErrors.
Context {R : Type} `{PyNumber R}.

Lemma lookup_each_missing (thresholds_met : gmap string bool) (keys : list string) :
  (exists key, key ∈ keys /\ thresholds_met !! key = None) ->
  exists e, lookup_each thresholds_met keys = inl e.
Proof.
  induction keys as [|key keys IH]; intros (key' & Hin & Hnone); [inversion Hin|].
  cbn. destruct (thresholds_met !! key) as [b|] eqn:Hb; [|eauto].
  destruct IH as [e He].
  - inversion Hin; subst; [congruence|eauto].
  - rewrite He. cbn. eauto.
Qed.
End SteppingErrors.

(** X5.  When [threshold_keys] is a non-empty list that passes
    validation, the horizon is above 0, and the threshold equation's answer
    at the first step lacks one of the named keys, [simulate_to_threshold]
    raises [KeyError] for a named key that is missing, after the setup and
    the first [next_state] call.  (So does every model that declares events
    but keeps the default [event_state], whose answer is empty.) *)
Theorem missing_threshold_key_raises_KeyError {R : Type} `{PyNumber R}
    (self : model R) (load : R -> vec R) (first_output : vec R)
    (options : sim_options R) (key : string) (keys : list string)
    (dt save_freq horizon : R) (fuel : nat) :
  validate_inputs self (Callable load) first_output (Some (key :: keys)) = inr load ->
  validate_config (update simulate_to_threshold_defaults options) = inr (dt, save_freq) ->
  opt_horizon (update simulate_to_threshold_defaults options) ≫= as_number = Some horizon ->
  num_ltb (num_of_Z 0) horizon = true ->
  (exists k, k ∈ key :: keys
             /\ default (threshold_met self)
                  (opt_threshold_eqn (update simulate_to_threshold_defaults options))
                  (num_add (num_of_Z 0) dt)
                  (next_state self (num_add (num_of_Z 0) dt)
                     (default (initialize self (load (num_of_Z 0)) first_output)
                        (opt_x options))
                     (load (num_add (num_of_Z 0) dt)) dt) !! k = None) ->
  exists k,
    k ∈ key :: keys
    /\ default (threshold_met self)
         (opt_threshold_eqn (update simulate_to_threshold_defaults options))
         (num_add (num_of_Z 0) dt)
         (next_state self (num_add (num_of_Z 0) dt)
            (default (initialize self (load (num_of_Z 0)) first_output) (opt_x options))
            (load (num_add (num_of_Z 0) dt)) dt) !! k = None
    /\ snd (simulate_to_threshold self (Callable load) first_output options
              (Some (key :: keys)) (S fuel)) = Raise (KeyError k)
    /\ count_calls is_next_state_call
         (fst (simulate_to_threshold self (Callable load) first_output options
                 (Some (key :: keys)) (S fuel))) = 1.
Proof.
  intros Hvi Hcfg Hhor Hpos Hmissing.
  unfold simulate_to_threshold. rewrite Hvi, Hcfg, Hhor.
  unfold run. cbn [run_loop]. unfold loop_test, loop_body, setup.
  cbn [ls_threshold_met ls_t ls_x ls_calls negb andb]. rewrite Hpos, update_defaults_x.
  unfold check_thresholds. cbn [keys_given negb].
  change (default [] (Some (key :: keys))) with (key :: keys).
  destruct (lookup_each_missing _ _ Hmissing) as [e He]. rewrite He. cbn [bind_exn].
  apply lookup_each_KeyError in He as (k & Hin & Hnone & ->).
  exists k. split; [exact Hin|]. split; [exact Hnone|]. split; [reflexivity|].
  cbn [fst]. rewrite !count_calls_app, threshold_eqn_calls_other by reflexivity.
  destruct (opt_x options); reflexivity.
Qed.

(** X5, at the model that declares the events [A] and [B] but keeps the
    default [event_state], with [threshold_keys = ['A']]. *)
Lemma missing_threshold_key_raises_KeyError_witness :
  exists k,
    k ∈ ["A"]
    /\ snd (simulate_to_threshold silent_event_model
              (Callable zero_input) {[ "n" := 0%Q ]}
              unit_step_options (Some ["A"]) 1) = Raise (KeyError k).
Proof.
  assert (validate_inputs silent_event_model (Callable zero_input)
            ({[ "n" := 0%Q ]} : vec Q) (Some ["A"]) = inr zero_input) as Hvi
    by (vm_compute; reflexivity).
  assert (validate_config (update simulate_to_threshold_defaults unit_step_options)
          = inr (inject_Z 1, inject_Z 10)) as Hcfg by (vm_compute; reflexivity).
  assert (opt_horizon (update simulate_to_threshold_defaults unit_step_options)
            ≫= as_number = Some (inject_Z (10 ^ 100))) as Hhor
    by (vm_compute; reflexivity).
  destruct (missing_threshold_key_raises_KeyError
              silent_event_model zero_input {[ "n" := 0%Q ]}
              unit_step_options "A" [] (inject_Z 1) (inject_Z 10) (inject_Z (10 ^ 100)) 0
              Hvi Hcfg Hhor)
    as (k & Hin & _ & Hraise & _).
  { vm_compute; reflexivity. }
  { exists "A". split; [apply list_elem_of_here|vm_compute; reflexivity]. }
  exists k. split; [exact Hin|exact Hraise].
Defined.

(** X6.  The horizon is not validated.  For inputs and a configuration
    that pass validation, in exact arithmetic: a horizon that is [<= 0]
    makes the call return the single point of [t = 0] without ever calling
    [next_state]; a horizon that is not a number makes it raise [TypeError],
    and only after the loading function, [initialize] (unless ['x'] is
    given), [output] and [event_state] have been called for [t = 0]. *)
Theorem horizon_is_not_validated
    (self : model Q) (load : Q -> vec Q) (first_output : vec Q)
    (options : sim_options Q) (threshold_keys : option (list string))
    (dt save_freq : Q) (fuel : nat) :
  validate_inputs self (Callable load) first_output threshold_keys = inr load ->
  validate_config (update simulate_to_threshold_defaults options) = inr (dt, save_freq) ->
  (forall horizon,
      opt_horizon (update simulate_to_threshold_defaults options) ≫= as_number
      = Some horizon ->
      (horizon <= 0)%Q ->
      snd (simulate_to_threshold self (Callable load) first_output options
             threshold_keys fuel)
      = Return {| times := [0%Q];
                  saved_inputs := [load 0%Q];
                  saved_states :=
                    [default (initialize self (load 0%Q) first_output) (opt_x options)];
                  saved_outputs :=
                    [output self 0%Q
                       (default (initialize self (load 0%Q) first_output)
                          (opt_x options))];
                  saved_event_states :=
                    [event_state self 0%Q
                       (default (initialize self (load 0%Q) first_output)
                          (opt_x options))] |}
      /\ count_calls is_next_state_call
           (fst (simulate_to_threshold self (Callable load) first_output options
                   threshold_keys fuel)) = 0)
  /\ (opt_horizon (update simulate_to_threshold_defaults options) ≫= as_number = None ->
      snd (simulate_to_threshold self (Callable load) first_output options
             threshold_keys fuel) = Raise TypeError
      /\ count_calls is_loading_call
           (fst (simulate_to_threshold self (Callable load) first_output options
                   threshold_keys fuel)) = 1
      /\ count_calls is_output_call
           (fst (simulate_to_threshold self (Callable load) first_output options
                   threshold_keys fuel)) = 1
      /\ count_calls is_next_state_call
           (fst (simulate_to_threshold self (Callable load) first_output options
                   threshold_keys fuel)) = 0
      /\ count_calls is_event_state_call
           (fst (simulate_to_threshold self (Callable load) first_output options
                   threshold_keys fuel)) = 1
      /\ count_calls is_initialize_call
           (fst (simulate_to_threshold self (Callable load) first_output options
                   threshold_keys fuel))
         = match opt_x options with Some _ => 0 | None => 1 end).
Proof.
  intros Hvi Hcfg. unfold simulate_to_threshold. rewrite Hvi, Hcfg. split.
  - intros horizon Hhor Hle. rewrite Hhor.
    assert (loop_test horizon
              (setup self load first_output
                 (update simulate_to_threshold_defaults options) save_freq) = false)
      as Htest.
    { unfold loop_test. cbn [setup ls_threshold_met ls_t negb andb].
      apply num_ltb_Q_false. exact Hle. }
    unfold run. destruct fuel; cbn [run_loop]; rewrite Htest;
      unfold finalize; cbn;
      change (Qeq_bool (inject_Z 0) (inject_Z 0)) with true; cbn;
      destruct (opt_x options); split; reflexivity.
  - intros Hnone. rewrite Hnone. cbn.
    destruct (opt_x options); repeat split; reflexivity.
Qed.

(** X6, at the linear scenario with [{'horizon': 0}] and with
    [{'horizon': 'soon'}]. *)
Lemma horizon_is_not_validated_witness :
  (exists h,
      snd (simulate_to_threshold linear_model (Callable constant_rate) {[ "pos" := 0%Q ]}
             zero_horizon_options None 5) = Return h
      /\ times h = [0%Q])
  /\ snd (simulate_to_threshold linear_model (Callable constant_rate) {[ "pos" := 0%Q ]}
            string_horizon_options None 5) = Raise TypeError.
Proof.
  assert (validate_inputs linear_model (Callable constant_rate)
            ({[ "pos" := 0%Q ]} : vec Q) None = inr constant_rate) as Hvi
    by (vm_compute; reflexivity).
  split.
  - assert (validate_config (update simulate_to_threshold_defaults zero_horizon_options)
            = inr (inject_Z 1, inject_Z 10)) as Hcfg by (vm_compute; reflexivity).
    destruct (horizon_is_not_validated linear_model constant_rate {[ "pos" := 0%Q ]}
                zero_horizon_options None (inject_Z 1) (inject_Z 10) 5 Hvi Hcfg)
      as [Hzero _].
    destruct (Hzero (inject_Z 0)) as [Hret _].
    + vm_compute; reflexivity.
    + vm_compute; discriminate.
    + eexists. split; [exact Hret|reflexivity].
  - assert (validate_config (update simulate_to_threshold_defaults string_horizon_options)
            = inr (inject_Z 1, inject_Z 10)) as Hcfg by (vm_compute; reflexivity).
    destruct (horizon_is_not_validated linear_model constant_rate {[ "pos" := 0%Q ]}
                string_horizon_options None (inject_Z 1) (inject_Z 10) 5 Hvi Hcfg)
      as [_ Hstr].
    destruct Hstr as [Hraise _]; [vm_compute; reflexivity|exact Hraise].
Defined.

(** ** Models that keep the default [event_state] *)

Section WithoutKeys.
Context {R : Type} `{PyNumber R}.

(** Without [threshold_keys] the check cannot raise, so the loop cannot. *)
Lemma run_loop_without_keys (self : model R) (load : R -> vec R)
    (eqn : R -> vec R -> gmap string bool) (eqn_calls : R -> list (call R))
    (dt save_freq horizon : R)
    (fuel : nat) (st : loop_state R) (e : exn) :
  snd (run_loop self load eqn eqn_calls None dt save_freq horizon fuel st) <> Raise e.
Proof.
  revert st. induction fuel as [|fuel IH]; intros st; cbn [run_loop].
  - destruct (loop_test horizon st); discriminate.
  - destruct (loop_test horizon st); [|discriminate].
    unfold loop_body, check_thresholds. cbn [keys_given negb].
    destruct (num_leb _ _); apply IH.
Qed.

(** The final save adds no call of [next_state]. *)
Lemma finalize_next_state_calls (self : model R) (st : loop_state R) :
  count_calls is_next_state_call (fst (finalize self st))
  = count_calls is_next_state_call (ls_calls st).
Proof.
  unfold finalize. destruct (last _); [|reflexivity].
  destruct (negb _); [|reflexivity].
  cbn [fst]. rewrite count_calls_app. cbn. lia.
Qed.

(** An empty [event_state] gives an empty answer of the default
    [threshold_met], in which nothing is true. *)
Lemma empty_event_state_check (self : model R) (t : R) (x : vec R) :
  threshold_met_attr self = None ->
  event_state self t x = ∅ ->
  check_thresholds None (threshold_met self t x) = inr false.
Proof.
  intros Hattr Hes. unfold threshold_met, default_threshold_met.
  rewrite Hattr, Hes, fmap_empty. unfold check_thresholds. cbn [keys_given negb].
  rewrite map_to_list_empty. reflexivity.
Qed.
End WithoutKeys.

Section StepCount.
Local Open Scope Q_scope.

Variable self : model Q.
Variable load : Q -> vec Q.
Variable eqn : Q -> vec Q -> gmap string bool.
Variable eqn_calls : Q -> list (call Q).
Variable keys : option (list string).
Variables dt save_freq horizon : Q.
Hypothesis eqn_calls_other :
  forall t, count_calls is_next_state_call (eqn_calls t) = 0%nat.

Local Abbreviation loop := (run_loop self load eqn eqn_calls keys dt save_freq horizon).

(** The loop's time is [dt] times the number of [next_state] calls it
    made. *)
Lemma run_loop_step_count (fuel : nat) (st st' : loop_state Q) (calls : list (call Q)) :
  loop fuel st = (calls, Return st') ->
  exists n : nat,
    count_calls is_next_state_call (ls_calls st')
    = (count_calls is_next_state_call (ls_calls st) + n)%nat
    /\ ls_t st' == ls_t st + inject_Z (Z.of_nat n) * dt.
Proof.
  revert st. induction fuel as [|fuel IH]; intros st Hrun; cbn [run_loop] in Hrun.
  - destruct (loop_test horizon st); [discriminate|]. injection Hrun as _ <-.
    exists 0%nat. split; [lia|]. change (inject_Z (Z.of_nat 0)) with 0. lra.
  - destruct (loop_test horizon st).
    2:{ injection Hrun as _ <-. exists 0%nat. split; [lia|].
        change (inject_Z (Z.of_nat 0)) with 0. lra. }
    destruct (loop_body _ _ _ _ _ _ _ st) as [[? ?]|st1] eqn:Eb; [discriminate|].
    destruct (IH st1 Hrun) as (n & Hcount & Htime).
    assert (count_calls is_next_state_call (ls_calls st1)
            = S (count_calls is_next_state_call (ls_calls st))
            /\ ls_t st1 = ls_t st + dt) as [Hc1 Ht1].
    { unfold loop_body in Eb. destruct (check_thresholds _ _); [discriminate|].
      destruct (num_leb _ _); injection Eb as <-; cbn [ls_calls ls_t];
        (split; [|reflexivity]);
        rewrite ?count_calls_app; cbn [count_calls is_next_state_call];
        rewrite eqn_calls_other; lia. }
    exists (S n). split; [lia|].
    rewrite Htime, Ht1, Nat2Z.inj_succ, <- Z.add_1_r, inject_Z_plus.
    change (inject_Z 1) with 1. lra.
Qed.
End StepCount.

(** X7.  A model that keeps the default [threshold_met] and whose
    [event_state] answers [{}] (so does the default one) never meets a
    threshold: in exact arithmetic, for validated inputs and configuration,
    no [threshold_eqn] option, no [threshold_keys] and a positive horizon,
    [simulate_to_threshold] returns after [ceil(horizon / dt)] passes, every
    returning call made exactly [ceil(horizon / dt)] calls of [next_state],
    and its last timestamp [t] satisfies [horizon <= t < horizon + dt].
    With the default horizon [1e100] that is [1e100 / dt] steps. *)
Theorem empty_event_state_runs_to_horizon
    (self : model Q) (load : Q -> vec Q) (first_output : vec Q)
    (options : sim_options Q) (dt save_freq horizon : Q) :
  threshold_met_attr self = None ->
  (forall t x, event_state self t x = ∅) ->
  opt_threshold_eqn options = None ->
  validate_inputs self (Callable load) first_output None = inr load ->
  validate_config (update simulate_to_threshold_defaults options) = inr (dt, save_freq) ->
  opt_horizon (update simulate_to_threshold_defaults options) ≫= as_number = Some horizon ->
  (0 < horizon)%Q ->
  (exists h,
      snd (simulate_to_threshold self (Callable load) first_output options None
             (Z.to_nat (Qceiling (horizon / dt)))) = Return h)
  /\ forall fuel calls h,
      simulate_to_threshold self (Callable load) first_output options None fuel
      = (calls, Return h) ->
      count_calls is_next_state_call calls = Z.to_nat (Qceiling (horizon / dt))
      /\ exists t_final,
          last (times h) = Some t_final
          /\ (horizon <= t_final)%Q /\ (t_final < horizon + dt)%Q.
Proof.
  intros Hattr Hes Hnone Hvi Hcfg Hhor Hpos.
  destruct (validate_config_Q _ _ _ Hcfg) as [Hdt Hsf].
  assert (default (threshold_met self)
            (opt_threshold_eqn (update simulate_to_threshold_defaults options))
          = threshold_met self) as Heqn by (cbn; rewrite Hnone; reflexivity).
  assert (forall t x, check_thresholds None (threshold_met self t x) = inr false)
    as Hfalse by (intros t x; apply empty_event_state_check; [exact Hattr|apply Hes]).
  pose proof (setup_inv self load first_output
                (update simulate_to_threshold_defaults options) dt save_freq horizon
                Hdt Hpos) as Hinv0.
  unfold simulate_to_threshold. rewrite Hvi, Hcfg, Hhor, Heqn. split.
  - assert (snd (run self load (threshold_met self)
                   (threshold_eqn_calls self
                      (update simulate_to_threshold_defaults options))
                   None dt save_freq horizon (enough_fuel dt horizon)
                   (setup self load first_output
                      (update simulate_to_threshold_defaults options) save_freq))
            <> OutOfFuel) as Hterm
      by (apply run_terminates; [exact Hdt|reflexivity]).
    unfold enough_fuel, run in Hterm. unfold run.
    pose proof (run_loop_without_keys self load (threshold_met self)
                  (threshold_eqn_calls self
                     (update simulate_to_threshold_defaults options))
                  dt save_freq horizon (Z.to_nat (Qceiling (horizon / dt)))
                  (setup self load first_output
                     (update simulate_to_threshold_defaults options) save_freq))
      as Hnoraise.
    destruct (run_loop _ _ _ _ _ _ _ _ _ _) as [calls' [st'| e |]] eqn:Hloop.
    + destruct (run_loop_inv _ _ _ _ _ _ _ _ Hdt _ _ _ _ Hinv0 Hloop) as [Hinv' _].
      unfold finalize. pose proof (inv_head _ _ _ Hinv') as Hhd.
      destruct (times (ls_history st')) as [|s l] eqn:Etimes; [discriminate|].
      destruct (last (s :: l)) as [t_last|] eqn:Elast.
      * destruct (negb _); eauto.
      * apply last_None in Elast. discriminate.
    + exfalso. apply (Hnoraise e). reflexivity.
    + exfalso. apply Hterm. reflexivity.
  - intros fuel calls h Hrun.
    apply run_Return in Hrun as (calls' & st' & Hloop & Hfin).
    destruct (run_loop_inv _ _ _ _ _ _ _ _ Hdt _ _ _ _ Hinv0 Hloop) as [Hinv' _].
    destruct (finalize_spec _ _ _ _ _ _ Hinv' Hfin)
      as (_ & _ & _ & (t_final & Hlast & Heq) & _).
    destruct (run_loop_advances self load (threshold_met self) _ dt save_freq horizon
                Hfalse fuel (setup self load first_output
                        (update simulate_to_threshold_defaults options) save_freq)
                st' calls' eq_refl Hloop) as (n & Hn & Hbelow & Hstop).
    assert (forall t,
               count_calls is_next_state_call
                 (threshold_eqn_calls self
                    (update simulate_to_threshold_defaults options) t) = 0%nat)
      as Hother by (intros t; apply threshold_eqn_calls_other; reflexivity).
    destruct (run_loop_step_count _ _ _ _ _ _ _ _ Hother _ _ _ _ Hloop)
      as (m & Hcount & Htime).
    cbn [setup ls_t ls_x] in Hn, Hbelow, Htime.
    assert (ls_t st' == inject_Z (Z.of_nat n) * dt)%Q as Ht.
    { replace (ls_t st') with (fst (ls_t st', ls_x st')) by reflexivity.
      rewrite Hn, (advance_time self load dt). change (num_of_Z 0) with 0%Q. lra. }
    assert (n = Z.to_nat (Qceiling (horizon / dt))) as Hsteps.
    { apply steps_to_horizon; [exact Hdt|exact Hpos| |].
      - intros j Hj. specialize (Hbelow j Hj).
        rewrite (advance_time self load dt) in Hbelow.
        change (num_of_Z 0) with 0%Q in Hbelow. lra.
      - lra. }
    assert (m = n) as ->.
    { change (num_of_Z 0) with 0%Q in Htime.
      assert (inject_Z (Z.of_nat m) * dt == inject_Z (Z.of_nat n) * dt)%Q as Hmn by lra.
      apply Qmult_inj_r in Hmn; [|lra].
      apply Nat2Z.inj. unfold Qeq in Hmn. cbn in Hmn. lia. }
    split.
    + replace calls with (fst (finalize self st')) by (rewrite Hfin; reflexivity).
      rewrite finalize_next_state_calls, Hcount, <- Hsteps.
      cbn [setup ls_calls]. rewrite update_defaults_x.
      destruct (opt_x options); reflexivity.
    + exists t_final. split; [exact Hlast|]. split; [lra|].
      pose proof (inv_horizon _ _ _ Hinv'). lra.
Qed.

(** X7, at the model that declares events but keeps the default
    [event_state], with [{'horizon': 3}]. *)
Lemma empty_event_state_runs_to_horizon_witness :
  count_calls is_next_state_call
    (fst (simulate_to_threshold silent_event_model (Callable zero_input)
            {[ "n" := 0%Q ]} horizon_override None 5)) = 3%nat.
Proof.
  assert (validate_inputs silent_event_model (Callable zero_input)
            ({[ "n" := 0%Q ]} : vec Q) None = inr zero_input) as Hvi
    by (vm_compute; reflexivity).
  assert (validate_config (update simulate_to_threshold_defaults horizon_override)
          = inr (inject_Z 1, inject_Z 10)) as Hcfg by (vm_compute; reflexivity).
  assert (opt_horizon (update simulate_to_threshold_defaults horizon_override)
            ≫= as_number = Some (inject_Z 3)) as Hhor by (vm_compute; reflexivity).
  destruct (empty_event_state_runs_to_horizon
              silent_event_model zero_input {[ "n" := 0%Q ]} horizon_override
              (inject_Z 1) (inject_Z 10) (inject_Z 3)
              eq_refl (fun _ _ => eq_refl) eq_refl Hvi Hcfg Hhor)
    as [_ Hall].
  { vm_compute; reflexivity. }
  destruct (simulate_to_threshold silent_event_model (Callable zero_input)
              {[ "n" := 0%Q ]} horizon_override None 5) as [calls [h|e|]] eqn:Hrun.
  - destruct (Hall 5%nat calls h Hrun) as [Hcount _]. exact Hcount.
  - exfalso. vm_compute in Hrun. discriminate.
  - exfalso. vm_compute in Hrun. discriminate.
Defined.

(** ** The constructor and the shared parameters *)

Section InitStore.
Context {R : Type} `{PyNumber R}.

(** The three attribute checks of [__init__] give back the three lists,
    or fail with a [ProgModelTypeError]. *)
Lemma init_cases (cls : class_decl R) (options : params R) (σ : py_store R) :
  (exists msg,
      init cls options σ
      = (update_parameters options σ, inl (ProgModelTypeError msg)))
  \/ exists pn ins sts outs,
      (options ∪ parameters σ) !! "process_noise" = Some pn
      /\ init cls options σ
         = (if isinstance_Number pn
            then {| parameters :=
                      <["process_noise" := PyDict (broadcast pn sts)]>
                        (options ∪ parameters σ) |}
            else update_parameters options σ,
            inr {| inputs := ins; states := sts; outputs := outs;
                   events := default [] (cls_events cls);
                   initialize := cls_initialize cls;
                   next_state := cls_next_state cls;
                   output := cls_output cls;
                   event_state := default default_event_state (cls_event_state cls);
                   threshold_met_attr := cls_threshold_met cls |})
      /\ require_keys "inputs" "input" (cls_inputs cls) = inr ins
      /\ require_keys "states" "state" (cls_states cls) = inr sts
      /\ require_keys "outputs" "output" (cls_outputs cls) = inr outs.
Proof.
  unfold init. cbn [update_parameters parameters].
  destruct ((options ∪ parameters σ) !! "process_noise") as [pn|] eqn:Hpn;
    [|left; eauto].
  destruct (require_keys "inputs" "input" (cls_inputs cls)) as [e|ins] eqn:Ei.
  { apply require_keys_inl in Ei as [_ [msg ->]]. left. eauto. }
  destruct (require_keys "states" "state" (cls_states cls)) as [e|sts] eqn:Es.
  { apply require_keys_inl in Es as [_ [msg ->]]. left. eauto. }
  destruct (require_keys "outputs" "output" (cls_outputs cls)) as [e|outs] eqn:Eo.
  { apply require_keys_inl in Eo as [_ [msg ->]]. left. eauto. }
  right. exists pn, ins, sts, outs. cbn [bind_exn].
  split; [reflexivity|]. split; [|auto].
  destruct (isinstance_Number pn); reflexivity.
Qed.
End InitStore.

(** X8.  What [__init__] leaves in the shared [parameters]: under every
    key other than [process_noise] the entry of [options] if it has one,
    else the entry that was there before; and when [__init__] raises, the
    dictionary is exactly the old one updated by [options] (the update is
    not undone). *)
Theorem init_merges_options_into_parameters {R : Type} `{PyNumber R}
    (cls : class_decl R) (options : params R) (σ : py_store R) :
  (forall k, k <> "process_noise" ->
      parameters (fst (init cls options σ)) !! k
      = match options !! k with
        | Some v => Some v
        | None => parameters σ !! k
        end)
  /\ (forall e, snd (init cls options σ) = inl e ->
        parameters (fst (init cls options σ)) = options ∪ parameters σ).
Proof.
  assert (forall k, (options ∪ parameters σ) !! k
                    = match options !! k with
                      | Some v => Some v
                      | None => parameters σ !! k
                      end) as Hunion.
  { intros k. rewrite lookup_union. destruct (options !! k), (parameters σ !! k);
      reflexivity. }
  destruct (init_cases cls options σ)
    as [[msg ->]|(pn & ins & sts & outs & Hpn & -> & _)]; cbn [fst snd].
  - split; [intros k _; apply Hunion|reflexivity].
  - split; [|discriminate]. intros k Hk.
    destruct (isinstance_Number pn); cbn [parameters update_parameters];
      [rewrite lookup_insert_ne by congruence|]; apply Hunion.
Qed.

(** X9.  Constructing the class once more, with no options, repeats the
    construction: the same result (the same instance, or the same error)
    and the shared parameters left as the first construction left them.
    What a construction put into the class-level dictionary, [process_noise]
    included, serves every later one. *)
Theorem init_again_without_options {R : Type} `{PyNumber R}
    (cls : class_decl R) (options : params R) (σ : py_store R) :
  init cls ∅ (fst (init cls options σ)) = init cls options σ.
Proof.
  assert (forall τ : py_store R, update_parameters ∅ τ = τ) as Hid.
  { intros [p]. unfold update_parameters. cbn. f_equal. apply (left_id_L ∅ (∪)). }
  destruct (init_cases cls options σ)
    as [[msg Hinit]|(pn & ins & sts & outs & Hpn & Hinit & Hi & Hs & Ho)];
    rewrite Hinit; cbn [fst].
  - unfold init in *. rewrite Hid.
    destruct (parameters (update_parameters options σ) !! "process_noise"); [|exact Hinit].
    destruct (ins <-! require_keys "inputs" "input" (cls_inputs cls) ;; _)
      as [e|[[? ?] ?]]; [exact Hinit|].
    destruct (isinstance_Number _); discriminate.
  - unfold init. rewrite Hid, Hi, Hs, Ho. cbn [bind_exn].
    destruct (isinstance_Number pn) eqn:Enum; cbn [parameters update_parameters].
    + rewrite lookup_insert_eq. reflexivity.
    + rewrite Hpn, Enum. reflexivity.
Qed.

(** X10.  [generate_model] checks its arguments before it constructs
    anything: when an equation is not callable (for the two optional ones:
    is truthy and not callable) or [keys] lacks one of ['inputs'], ['states'],
    ['outputs'], it raises a [ProgModelTypeError] and the shared parameters
    are untouched, [config] is not merged.  The first check is on
    [initialize_eqn].  Every exception of [generate_model] is a
    [ProgModelTypeError].  A falsy value that is not callable ([0], [''],
    [{}]) passes for an absent optional equation like [None]. *)
Theorem generate_model_checks_arguments_first {R : Type} `{PyNumber R}
    (keys : gmap string (list string))
    (initialize_eqn : pyarg R (vec R -> vec R -> vec R))
    (next_state_eqn : pyarg R (R -> vec R -> vec R -> R -> vec R))
    (output_eqn : pyarg R (R -> vec R -> vec R))
    (event_state_eqn : pyarg R (R -> vec R -> vec R))
    (threshold_eqn : pyarg R (R -> vec R -> gmap string bool))
    (config : params R) (σ : py_store R) :
  ((callable initialize_eqn = false \/ callable next_state_eqn = false
    \/ callable output_eqn = false
    \/ (truthy_arg event_state_eqn = true /\ callable event_state_eqn = false)
    \/ (truthy_arg threshold_eqn = true /\ callable threshold_eqn = false)
    \/ keys !! "inputs" = None \/ keys !! "states" = None \/ keys !! "outputs" = None) ->
   exists msg,
     generate_model keys initialize_eqn next_state_eqn output_eqn event_state_eqn
       threshold_eqn config σ = (σ, inl (ProgModelTypeError msg)))
  /\ (callable initialize_eqn = false ->
      snd (generate_model keys initialize_eqn next_state_eqn output_eqn event_state_eqn
             threshold_eqn config σ)
      = inl (ProgModelTypeError "Initialize Function must be callable"))
  /\ (forall e,
        snd (generate_model keys initialize_eqn next_state_eqn output_eqn
               event_state_eqn threshold_eqn config σ) = inl e ->
        exists msg, e = ProgModelTypeError msg)
  /\ (forall v, truthy v = false ->
        generate_model keys initialize_eqn next_state_eqn output_eqn (NotCallable v)
          threshold_eqn config σ
        = generate_model keys initialize_eqn next_state_eqn output_eqn
            (NotCallable PyNone) threshold_eqn config σ)
  /\ (forall v, truthy v = false ->
        generate_model keys initialize_eqn next_state_eqn output_eqn event_state_eqn
          (NotCallable v) config σ
        = generate_model keys initialize_eqn next_state_eqn output_eqn
            event_state_eqn (NotCallable PyNone) config σ).
Proof.
  split; [|split; [|split; [|split]]].
  - unfold generate_model, require_key.
    destruct initialize_eqn as [f_init|v1]; cbn [require_callable bind_exn]; [|eauto].
    destruct next_state_eqn as [f_next|v2]; cbn [require_callable bind_exn]; [|eauto].
    destruct output_eqn as [f_out|v3]; cbn [require_callable bind_exn]; [|eauto].
    destruct event_state_eqn as [f_es|v4]; cbn [optional_callable bind_exn truthy_arg callable].
    + destruct threshold_eqn as [f_th|v5];
        cbn [optional_callable bind_exn truthy_arg callable].
      * destruct (keys !! "inputs"); cbn [bind_exn]; [|eauto].
        destruct (keys !! "states"); cbn [bind_exn]; [|eauto].
        destruct (keys !! "outputs"); cbn [bind_exn]; [|eauto].
        intros Hbad. exfalso. cbn in Hbad. intuition congruence.
      * destruct (truthy v5) eqn:E5; cbn [bind_exn]; [eauto|].
        destruct (keys !! "inputs"); cbn [bind_exn]; [|eauto].
        destruct (keys !! "states"); cbn [bind_exn]; [|eauto].
        destruct (keys !! "outputs"); cbn [bind_exn]; [|eauto].
        intros Hbad. exfalso. cbn in Hbad. intuition congruence.
    + destruct (truthy v4) eqn:E4; cbn [bind_exn]; [eauto|].
      destruct threshold_eqn as [f_th|v5];
        cbn [optional_callable bind_exn truthy_arg callable].
      * destruct (keys !! "inputs"); cbn [bind_exn]; [|eauto].
        destruct (keys !! "states"); cbn [bind_exn]; [|eauto].
        destruct (keys !! "outputs"); cbn [bind_exn]; [|eauto].
        intros Hbad. exfalso. cbn in Hbad. intuition congruence.
      * destruct (truthy v5) eqn:E5; cbn [bind_exn]; [eauto|].
        destruct (keys !! "inputs"); cbn [bind_exn]; [|eauto].
        destruct (keys !! "states"); cbn [bind_exn]; [|eauto].
        destruct (keys !! "outputs"); cbn [bind_exn]; [|eauto].
        intros Hbad. exfalso. cbn in Hbad. intuition congruence.
  - destruct initialize_eqn; [discriminate|]. reflexivity.
  - intros e. unfold generate_model.
    destruct (f_init <-! require_callable _ initialize_eqn ;; _)
      as [e'|[[[[[[[f_init f_next] f_out] f_es] f_th] ins] sts] outs]] eqn:Eval.
    + cbn [snd]. intros [= <-].
      unfold require_key in Eval.
      destruct initialize_eqn; cbn in Eval; [|injection Eval as <-; eauto].
      destruct next_state_eqn; cbn in Eval; [|injection Eval as <-; eauto].
      destruct output_eqn; cbn in Eval; [|injection Eval as <-; eauto].
      destruct event_state_eqn as [?|v4]; cbn in Eval;
        [|destruct (truthy v4); cbn in Eval; [injection Eval as <-; eauto|]];
        (destruct threshold_eqn as [?|v5]; cbn in Eval;
         [|destruct (truthy v5); cbn in Eval; [injection Eval as <-; eauto|]];
         (destruct (keys !! "inputs"); cbn in Eval; [|injection Eval as <-; eauto];
          destruct (keys !! "states"); cbn in Eval; [|injection Eval as <-; eauto];
          destruct (keys !! "outputs"); cbn in Eval; [|injection Eval as <-; eauto];
          discriminate)).
    + destruct (init_cases (NewProgModel ins sts outs) config σ)
        as [[msg ->]|(pn & ins' & sts' & outs' & _ & -> & _)]; cbn [snd].
      * intros [= <-]. eauto.
      * discriminate.
  - intros v Hv. unfold generate_model. cbn [optional_callable]. rewrite Hv. reflexivity.
  - intros v Hv. unfold generate_model. cbn [optional_callable]. rewrite Hv. reflexivity.
Qed.

(** * The other modules *)

(** ** The loading of the valve example *)

Section ValveLoading.
Local Open Scope Q_scope.

(** The floor of [x] is the one integer [z] with [z <= x < z + 1]. *)
Lemma Qfloor_unique (x : Q) (z : Z) :
  inject_Z z <= x -> x < inject_Z z + 1 -> Qfloor x = z.
Proof.
  intros Hle Hlt. pose proof (Qfloor_le x) as H1. pose proof (Qlt_floor x) as H2.
  rewrite inject_Z_plus in H2. change (inject_Z 1) with 1 in H2.
  assert (Qfloor x < z + 1)%Z as Hup.
  { rewrite Zlt_Qlt, inject_Z_plus. change (inject_Z 1) with 1. lra. }
  assert (z < Qfloor x + 1)%Z as Hlow.
  { rewrite Zlt_Qlt, inject_Z_plus. change (inject_Z 1) with 1. lra. }
  lia.
Qed.

(** [t % 20] lies in [[0, 20)] and differs from [t] by a multiple of 20. *)
Lemma py_mod_range (t : Q) :
  0 <= sim_valve.py_mod t 20 /\ sim_valve.py_mod t 20 < 20.
Proof.
  unfold sim_valve.py_mod.
  pose proof (Qfloor_le (t / 20)) as H1. pose proof (Qlt_floor (t / 20)) as H2.
  rewrite inject_Z_plus in H2. change (inject_Z 1) with 1 in H2.
  assert (t / 20 * 20 == t) as Hd by (field; discriminate).
  split; lra.
Qed.

Lemma py_mod_in_cycle (t : Q) (k : Z) :
  20 * inject_Z k <= t -> t < 20 * inject_Z k + 20 ->
  sim_valve.py_mod t 20 == t - 20 * inject_Z k.
Proof.
  intros Hle Hlt. unfold sim_valve.py_mod.
  assert (t / 20 * 20 == t) as Hd by (field; discriminate).
  rewrite (Qfloor_unique (t / 20) k) by lra. reflexivity.
Qed.

Lemma py_mod_periodic (t : Q) (k : Z) :
  sim_valve.py_mod (t + 20 * inject_Z k) 20 == sim_valve.py_mod t 20.
Proof.
  destruct (py_mod_range t) as [H0 H20].
  unfold sim_valve.py_mod in H0, H20.
  rewrite (py_mod_in_cycle (t + 20 * inject_Z k) (Qfloor (t / 20) + k)).
  - unfold sim_valve.py_mod. rewrite inject_Z_plus. lra.
  - rewrite inject_Z_plus. lra.
  - rewrite inject_Z_plus. lra.
Qed.

(** The test of [future_loading]. *)
Lemma first_half_test (t : Q) :
  num_ltb (sim_valve.py_mod t sim_valve.cycle_time) (sim_valve.cycle_time / 2) = true
  <-> exists k : Z, 20 * inject_Z k <= t /\ t < 20 * inject_Z k + 10.
Proof.
  change sim_valve.cycle_time with 20.
  rewrite num_ltb_Q. assert (20 / 2 == 10) as -> by reflexivity.
  destruct (py_mod_range t) as [H0 H20]. split.
  - intros Hlt. exists (Qfloor (t / 20)). unfold sim_valve.py_mod in *. lra.
  - intros (k & Hle & Hlt). rewrite (py_mod_in_cycle t k) by lra. lra.
Qed.
End ValveLoading.

(** X11.  The loading function of the valve example, on exact times
    (negative ones included, [%] being the floored remainder): the valve is
    commanded open ([uBot] true) exactly in the first half of every cycle of
    20, that is when [20 k <= t < 20 k + 10] for an integer [k]; [uTop] is
    always the negation of [uBot]; the two pressures never change; and the
    loading repeats with period 20. *)
Theorem future_loading_alternates_by_half_cycles (t : Q) :
  (sim_valve.future_loading t !! "uBot" = Some (PyBool true)
   <-> exists k : Z, (20 * inject_Z k <= t /\ t < 20 * inject_Z k + 10)%Q)
  /\ (exists opened : bool,
         sim_valve.future_loading t !! "uBot" = Some (PyBool opened)
         /\ sim_valve.future_loading t !! "uTop" = Some (PyBool (negb opened)))
  /\ sim_valve.future_loading t !! "pL" = Some (PyFloat 350000%Q)
  /\ sim_valve.future_loading t !! "pR" = Some (PyFloat 200000%Q)
  /\ forall k : Z,
      sim_valve.future_loading (t + 20 * inject_Z k) = sim_valve.future_loading t.
Proof.
  split; [|split; [|split; [|split]]].
  - rewrite <- first_half_test. unfold sim_valve.future_loading.
    destruct (num_ltb _ _); split; try reflexivity; discriminate.
  - unfold sim_valve.future_loading. destruct (num_ltb _ _);
      [exists true|exists false]; split; reflexivity.
  - unfold sim_valve.future_loading. destruct (num_ltb _ _); reflexivity.
  - unfold sim_valve.future_loading. destruct (num_ltb _ _); reflexivity.
  - intros k. unfold sim_valve.future_loading.
    assert (num_ltb (sim_valve.py_mod (t + 20 * inject_Z k) sim_valve.cycle_time)
              (sim_valve.cycle_time / 2)
            = num_ltb (sim_valve.py_mod t sim_valve.cycle_time)
                (sim_valve.cycle_time / 2))%Q as ->; [|reflexivity].
    change sim_valve.cycle_time with 20%Q. cbn [num_ltb Q_number].
    rewrite (Qleb_comp _ _ (Qeq_refl _) _ _ (py_mod_periodic t k)). reflexivity.
Qed.

(** ** The callback of the propeller load *)

Section PropellerLoad.

(** The keys under which [param_callbacks] registers a callback. *)
Lemma param_callbacks_keys (key : string) :
  is_Some (powertrain.param_callbacks !! key)
  <-> key = "c_q" \/ key = "rho" \/ key = "D".
Proof.
  unfold powertrain.param_callbacks.
  destruct (decide (key = "c_q")) as [->|H1].
  { rewrite lookup_insert_eq. split; [auto|eauto]. }
  rewrite lookup_insert_ne by congruence.
  destruct (decide (key = "rho")) as [->|H2].
  { rewrite lookup_insert_eq. split; [auto|eauto]. }
  rewrite lookup_insert_ne by congruence.
  destruct (decide (key = "D")) as [->|H3].
  { rewrite lookup_singleton_eq. split; [auto|eauto]. }
  rewrite lookup_singleton_ne by congruence.
  split; [intros [? [=]]|intros [?|[?|?]]; contradiction].
Qed.
End PropellerLoad.

(** X12.  [update_Cq] reads the parameters exactly under the keys for
    which [param_callbacks] registers it: parameters that agree under those
    keys give the same result, and it raises (a [KeyError], for the first
    missing one of [c_q], [rho], [D] in this order) exactly when one of
    those keys is missing.  Its result has the one key [C_q], which is no
    key of [param_callbacks], and writing the result back into the
    parameters does not change what it computes. *)
Theorem update_Cq_reads_its_callback_keys (params : vec Q) :
  (forall params' : vec Q,
      (forall key, is_Some (powertrain.param_callbacks !! key) ->
                   params' !! key = params !! key) ->
      powertrain.update_Cq params' = powertrain.update_Cq params)
  /\ ((exists e, powertrain.update_Cq params = inl e)
      <-> exists key, is_Some (powertrain.param_callbacks !! key)
                      /\ params !! key = None)
  /\ (forall e, powertrain.update_Cq params = inl e ->
        (params !! "c_q" = None /\ e = KeyError "c_q")
        \/ (is_Some (params !! "c_q") /\ params !! "rho" = None /\ e = KeyError "rho")
        \/ (is_Some (params !! "c_q") /\ is_Some (params !! "rho")
            /\ params !! "D" = None /\ e = KeyError "D"))
  /\ (forall out, powertrain.update_Cq params = inr out ->
        dom out = {[ "C_q" ]}
        /\ powertrain.param_callbacks !! "C_q" = None
        /\ powertrain.update_Cq (out ∪ params) = inr out).
Proof.
  split; [|split; [|split]].
  - intros params' Hagree. unfold powertrain.update_Cq.
    rewrite !Hagree by (apply param_callbacks_keys; auto). reflexivity.
  - unfold powertrain.update_Cq. split.
    + intros [e He].
      destruct (params !! "c_q") eqn:E1;
        [|exists "c_q"; split; [apply param_callbacks_keys; auto|exact E1]].
      destruct (params !! "rho") eqn:E2;
        [|exists "rho"; split; [apply param_callbacks_keys; auto|exact E2]].
      destruct (params !! "D") eqn:E3;
        [|exists "D"; split; [apply param_callbacks_keys; auto|exact E3]].
      discriminate.
    + intros (key & Hkey & Hnone). apply param_callbacks_keys in Hkey.
      destruct (params !! "c_q") eqn:E1; [|eauto].
      destruct (params !! "rho") eqn:E2; [|eauto].
      destruct (params !! "D") eqn:E3; [|eauto].
      destruct Hkey as [Hk|[Hk|Hk]]; subst key; congruence.
  - intros e. unfold powertrain.update_Cq.
    destruct (params !! "c_q") eqn:E1; [|intros [= <-]; auto].
    destruct (params !! "rho") eqn:E2; [|intros [= <-]; right; left; eauto].
    destruct (params !! "D") eqn:E3; [discriminate|].
    intros [= <-]. right. right. eauto.
  - intros out. unfold powertrain.update_Cq.
    destruct (params !! "c_q") as [c_q|] eqn:E1; [|discriminate].
    destruct (params !! "rho") as [rho|] eqn:E2; [|discriminate].
    destruct (params !! "D") as [D|] eqn:E3; [|discriminate].
    intros [= <-]. split; [apply dom_singleton_L|]. split; [reflexivity|].
    rewrite !lookup_union_r by (apply lookup_singleton_ne; discriminate).
    rewrite E1, E2, E3. reflexivity.
Qed.

(** ** The cached download of the data sets *)

Section DownloadCache.
Context {E content archive member h5 : Type}.
Variable requests_get : nat -> E + content.
Variable ZipFile : content -> E + archive.
Variable zip_open : archive -> string -> E + member.
Variable h5py_File : member -> E + h5.

Local Abbreviation load_data :=
  (nasa_cmapss2.load_data E content archive member h5
     requests_get ZipFile zip_open h5py_File).
Local Abbreviation load_all :=
  (nasa_cmapss2.load_all E content archive member h5
     requests_get ZipFile zip_open h5py_File).

(** A call of [load_data] either leaves the state as it is, or makes one
    request; when the cache is filled afterwards and was not before, it
    holds the archive of that request. *)
Lemma load_data_step (dataset_id : string) (s : nasa_cmapss2.module_state archive) :
  fst (load_data dataset_id s) = s
  \/ (nasa_cmapss2.cache s = None
      /\ dataset_id ∈ nasa_cmapss2.datasets
      /\ nasa_cmapss2.requests (fst (load_data dataset_id s))
         = S (nasa_cmapss2.requests s)
      /\ match nasa_cmapss2.cache (fst (load_data dataset_id s)) with
         | None =>
             match requests_get (nasa_cmapss2.requests s) with
             | inl _ => True
             | inr response => exists e, ZipFile response = inl e
             end
         | Some a =>
             exists response,
               requests_get (nasa_cmapss2.requests s) = inr response
               /\ ZipFile response = inr a
         end).
Proof.
  unfold nasa_cmapss2.load_data.
  destruct (bool_decide (dataset_id ∈ nasa_cmapss2.datasets)) eqn:Ein;
    cbn [negb]; [|left; reflexivity].
  apply bool_decide_eq_true in Ein.
  destruct (nasa_cmapss2.cache s) as [a|] eqn:Ecache; [left; reflexivity|].
  right. split; [reflexivity|]. split; [exact Ein|].
  destruct (requests_get (nasa_cmapss2.requests s)) as [e|response];
    [cbn; auto|].
  destruct (ZipFile response) as [e|a] eqn:Ezip; cbn; eauto.
Qed.
End DownloadCache.

(** X13.  [load_data] raises [ValueError] exactly for an id that is not in
    [datasets], with the message that lists the ten ids; it does so before
    anything else: no request is made and the cache is left as it was, also
    when the cache is empty.  No call makes more than one request, and a
    request is made exactly for a known id while the cache is empty. *)
Theorem load_data_rejects_unknown_ids_first {E content archive member h5 : Type}
    (requests_get : nat -> E + content) (ZipFile : content -> E + archive)
    (zip_open : archive -> string -> E + member) (h5py_File : member -> E + h5)
    (dataset_id : string) (s : nasa_cmapss2.module_state archive) :
  ((exists msg,
       snd (nasa_cmapss2.load_data E content archive member h5
              requests_get ZipFile zip_open h5py_File dataset_id s)
       = inl (nasa_cmapss2.ValueError msg))
   <-> dataset_id ∉ nasa_cmapss2.datasets)
  /\ (dataset_id ∉ nasa_cmapss2.datasets ->
      nasa_cmapss2.load_data E content archive member h5
        requests_get ZipFile zip_open h5py_File dataset_id s
      = (s, inl (nasa_cmapss2.ValueError
                   "Invalid dataset id. Available datasets: ['DS01-005', 'DS02-006', 'DS03-012', 'DS04', 'DS05', 'DS06', 'DS07', 'DS08a-009', 'DS08c-008', 'DS08d-010']")))
  /\ (nasa_cmapss2.requests
        (fst (nasa_cmapss2.load_data E content archive member h5
                requests_get ZipFile zip_open h5py_File dataset_id s))
      = if bool_decide (dataset_id ∈ nasa_cmapss2.datasets
                        /\ nasa_cmapss2.cache s = None)
        then S (nasa_cmapss2.requests s)
        else nasa_cmapss2.requests s).
Proof.
  unfold nasa_cmapss2.load_data, nasa_cmapss2.read_file, nasa_cmapss2.lift.
  destruct (bool_decide (dataset_id ∈ nasa_cmapss2.datasets)) eqn:Ein; cbn [negb].
  - apply bool_decide_eq_true in Ein. split; [|split].
    + split; [|contradiction]. intros [msg Hmsg]. exfalso.
      destruct (nasa_cmapss2.cache s) as [a|].
      * cbn [snd] in Hmsg. destruct (zip_open _ _); [discriminate|].
        destruct (h5py_File _); discriminate.
      * destruct (requests_get _); [discriminate|].
        destruct (ZipFile _); [discriminate|]. cbn [snd] in Hmsg.
        destruct (zip_open _ _); [discriminate|].
        destruct (h5py_File _); discriminate.
    + contradiction.
    + destruct (nasa_cmapss2.cache s) as [a|] eqn:Ecache.
      * rewrite bool_decide_eq_false_2 by (intros [_ [=]]). reflexivity.
      * rewrite bool_decide_eq_true_2 by auto.
        destruct (requests_get _); [reflexivity|]. destruct (ZipFile _); reflexivity.
  - apply bool_decide_eq_false in Ein. split; [|split].
    + split; [intros _; exact Ein|]. intros _. eauto.
    + intros _. reflexivity.
    + rewrite bool_decide_eq_false_2 by (intros [? _]; contradiction). reflexivity.
Qed.

(** X14.  The cache of [load_data] is filled once and never refreshed.
    Over any sequence of calls: from a filled cache no request is made and
    the state stays as it is; from an empty cache, requests are made one
    after the other only until one succeeds, and a cache that is filled at
    the end holds the archive of the last request made.  After
    [clear_cache], the next call for a known id makes a request again. *)
Theorem load_data_downloads_at_most_once {E content archive member h5 : Type}
    (requests_get : nat -> E + content) (ZipFile : content -> E + archive)
    (zip_open : archive -> string -> E + member) (h5py_File : member -> E + h5)
    (ids : list string) (s : nasa_cmapss2.module_state archive) :
  (is_Some (nasa_cmapss2.cache s) ->
   fst (nasa_cmapss2.load_all E content archive member h5
          requests_get ZipFile zip_open h5py_File ids s) = s)
  /\ (nasa_cmapss2.cache s = None ->
      (forall n,
          (nasa_cmapss2.requests s <= n)%nat ->
          (S n < nasa_cmapss2.requests
                   (fst (nasa_cmapss2.load_all E content archive member h5
                           requests_get ZipFile zip_open h5py_File ids s)))%nat ->
          forall response, requests_get n = inr response ->
                           exists e, ZipFile response = inl e)
      /\ forall a,
          nasa_cmapss2.cache
            (fst (nasa_cmapss2.load_all E content archive member h5
                    requests_get ZipFile zip_open h5py_File ids s)) = Some a ->
          exists n response,
            nasa_cmapss2.requests
              (fst (nasa_cmapss2.load_all E content archive member h5
                      requests_get ZipFile zip_open h5py_File ids s)) = S n
            /\ (nasa_cmapss2.requests s <= n)%nat
            /\ requests_get n = inr response
            /\ ZipFile response = inr a)
  /\ (forall dataset_id,
        dataset_id ∈ nasa_cmapss2.datasets ->
        nasa_cmapss2.requests
          (fst (nasa_cmapss2.load_data E content archive member h5
                  requests_get ZipFile zip_open h5py_File dataset_id
                  (nasa_cmapss2.clear_cache archive s)))
        = S (nasa_cmapss2.requests s)).
Proof.
  assert (forall ids s,
             is_Some (nasa_cmapss2.cache s) ->
             fst (nasa_cmapss2.load_all E content archive member h5
                    requests_get ZipFile zip_open h5py_File ids s) = s) as Hfilled.
  { clear ids s. induction ids as [|dataset_id ids IH]; intros s Hsome; [reflexivity|].
    cbn [nasa_cmapss2.load_all].
    destruct (load_data_step requests_get ZipFile zip_open h5py_File dataset_id s)
      as [Hsame|(Hnone & _)].
    - destruct (nasa_cmapss2.load_data _ _ _ _ _ _ _ _ _ dataset_id s) as [s1 r].
      cbn [fst] in Hsame. subst s1.
      specialize (IH s Hsome).
      destruct (nasa_cmapss2.load_all _ _ _ _ _ _ _ _ _ ids s) as [s2 rs].
      exact IH.
    - rewrite Hnone in Hsome. destruct Hsome as [? [=]]. }
  split; [apply Hfilled|]. split.
  - revert s. induction ids as [|dataset_id ids IH]; intros s Hnone.
    { cbn. split; [intros n ? ?; lia|]. intros a Ha. congruence. }
    cbn [nasa_cmapss2.load_all].
    pose proof (load_data_step requests_get ZipFile zip_open h5py_File dataset_id s)
      as Hstep.
    destruct (nasa_cmapss2.load_data _ _ _ _ _ _ _ _ _ dataset_id s) as [s1 r].
    cbn [fst] in Hstep.
    pose proof (Hfilled ids s1) as Hfilled1. specialize (IH s1).
    destruct (nasa_cmapss2.load_all _ _ _ _ _ _ _ _ _ ids s1) as [s2 rs].
    cbn [fst] in *.
    destruct Hstep as [->|(_ & _ & Hreq & Hcache)]; [apply IH, Hnone|].
    destruct (nasa_cmapss2.cache s1) as [a1|] eqn:Ecache1.
    + rewrite Hfilled1 by eauto.
      destruct Hcache as (response & Hget & Hzip).
      split; [intros n ? ?; lia|].
      intros a Ha. exists (nasa_cmapss2.requests s), response.
      rewrite Ecache1 in Ha. injection Ha as <-. auto.
    + destruct (IH eq_refl) as [IHfail IHlast]. split.
      * intros n Hle Hlt response Hget.
        destruct (decide (n = nasa_cmapss2.requests s)) as [->|Hne].
        -- rewrite Hget in Hcache. exact Hcache.
        -- apply (IHfail n); [lia|exact Hlt|exact Hget].
      * intros a Ha. destruct (IHlast a Ha) as (n & response & ? & ? & ? & ?).
        exists n, response. repeat split; try assumption. lia.
  - intros dataset_id Hin. unfold nasa_cmapss2.load_data, nasa_cmapss2.clear_cache.
    rewrite bool_decide_eq_true_2 by exact Hin. cbn [negb nasa_cmapss2.cache].
    destruct (requests_get _); [reflexivity|]. destruct (ZipFile _); reflexivity.
Qed.

(** ** What a generated model is made of *)

(** X15.  When [generate_model] returns a model, that model is wired from
    the arguments: its three key lists are the non-empty lists of [keys]; its
    events are [keys['events']], or none when [keys] has no such entry; its
    [initialize], [next_state] and [output] are the given equations; its
    [event_state] is the given one, or the default that answers [{}]; and
    its [threshold_met] is the given threshold equation whatever the event
    state is, or else the default [event_state < 0] over the model's
    [event_state].  A model generated from [keys] without ['events'] rejects
    every non-empty [threshold_keys] with an input exception. *)
Theorem generated_model_is_wired_from_arguments {R : Type} `{PyNumber R}
    (keys : gmap string (list string))
    (initialize_eqn : pyarg R (vec R -> vec R -> vec R))
    (next_state_eqn : pyarg R (R -> vec R -> vec R -> R -> vec R))
    (output_eqn : pyarg R (R -> vec R -> vec R))
    (event_state_eqn : pyarg R (R -> vec R -> vec R))
    (threshold_eqn : pyarg R (R -> vec R -> gmap string bool))
    (config : params R) (σ σ' : py_store R) (m : model R) :
  generate_model keys initialize_eqn next_state_eqn output_eqn event_state_eqn
    threshold_eqn config σ = (σ', inr m) ->
  (keys !! "inputs" = Some (inputs m) /\ inputs m <> [])
  /\ (keys !! "states" = Some (states m) /\ states m <> [])
  /\ (keys !! "outputs" = Some (outputs m) /\ outputs m <> [])
  /\ events m = default [] (keys !! "events")
  /\ initialize_eqn = Callable (initialize m)
  /\ next_state_eqn = Callable (next_state m)
  /\ output_eqn = Callable (output m)
  /\ event_state m = match event_state_eqn with
                     | Callable f => f
                     | NotCallable _ => default_event_state
                     end
  /\ (forall t x,
        threshold_met m t x
        = match threshold_eqn with
          | Callable g => g t x
          | NotCallable _ =>
              (fun es => num_ltb es (num_of_Z 0)) <$> event_state m t x
          end)
  /\ (keys !! "events" = None ->
      forall future_loading_eqn first_output options key threshold_keys fuel,
      exists msg,
        simulate_to_threshold m future_loading_eqn first_output options
          (Some (key :: threshold_keys)) fuel
        = ([], Raise (ProgModelInputException msg))).
Proof.
  unfold generate_model, require_key.
  destruct initialize_eqn as [f_init|?]; cbn [require_callable bind_exn]; [|discriminate].
  destruct next_state_eqn as [f_next|?]; cbn [require_callable bind_exn]; [|discriminate].
  destruct output_eqn as [f_out|?]; cbn [require_callable bind_exn]; [|discriminate].
  destruct (optional_callable _ event_state_eqn) as [?|f_es] eqn:Ees;
    cbn [bind_exn]; [discriminate|].
  destruct (optional_callable _ threshold_eqn) as [?|f_th] eqn:Eth;
    cbn [bind_exn]; [discriminate|].
  destruct (keys !! "inputs") as [ins|]; cbn [bind_exn]; [|discriminate].
  destruct (keys !! "states") as [sts|]; cbn [bind_exn]; [|discriminate].
  destruct (keys !! "outputs") as [outs|]; cbn [bind_exn]; [|discriminate].
  destruct (init_cases (NewProgModel ins sts outs) config σ)
    as [[msg ->]|(pn & ins' & sts' & outs' & _ & -> & Hi & Hs & Ho)]; [discriminate|].
  apply require_keys_inr in Hi as [[= <-] Hi], Hs as [[= <-] Hs], Ho as [[= <-] Ho].
  intros [= _ <-].
  cbn [inputs states outputs events initialize next_state output event_state
       threshold_met_attr NewProgModel cls_events cls_event_state cls_threshold_met
       default from_option].
  assert (default default_event_state f_es
          = match event_state_eqn with
            | Callable f => f
            | NotCallable _ => default_event_state
            end) as Hes.
  { destruct event_state_eqn as [f|v]; cbn in Ees.
    - injection Ees as <-. reflexivity.
    - destruct (truthy v); [discriminate|]. injection Ees as <-. reflexivity. }
  repeat (split; [solve [auto]|]). split.
  - intros t x. unfold threshold_met.
    cbn [threshold_met_attr event_state].
    destruct threshold_eqn as [g|v]; cbn in Eth.
    + injection Eth as <-. reflexivity.
    + destruct (truthy v); [discriminate|]. injection Eth as <-. reflexivity.
  - intros Hnone future_loading_eqn first_output options key threshold_keys fuel.
    rewrite Hnone. unfold simulate_to_threshold, validate_inputs.
    cbn [outputs events default from_option keys_given].
    destruct (negb (forallb _ outs)); [eauto|].
    destruct future_loading_eqn as [load|?]; [|eauto].
    cbn. eauto.
Qed.

(** X15, at the two-event equations with [{'process_noise': 0}]: the
    generated model answers for [A] and [B] by [event_state < 0]. *)
Lemma generated_model_is_wired_from_arguments_witness :
  exists m,
    snd (generate_two_event {[ "process_noise" := PyInt 0 ]} {| parameters := ∅ |})
    = inr m
    /\ events m = ["A"; "B"]
    /\ threshold_met m 6%Q {[ "n" := 6%Q ]} = {[ "A" := true; "B" := true ]}.
Proof.
  destruct (generate_two_event {[ "process_noise" := PyInt 0 ]} {| parameters := ∅ |})
    as [σ' [e|m]] eqn:Hgen; [vm_compute in Hgen; discriminate|].
  exists m. split; [reflexivity|].
  destruct (generated_model_is_wired_from_arguments _ _ _ _ _ _ _ _ _ _ Hgen)
    as (_ & _ & _ & Hev & _ & _ & _ & Hes & Hth & _).
  split; [exact Hev|].
  rewrite Hth, Hes. vm_compute. reflexivity.
Defined.
